(** * trino-gsheets: a shallow embedding of [main.py]

    The script runs one linear workflow: load the configuration, run a
    Trino query into a pandas DataFrame, normalise the frame so that it
    can be JSON-encoded, create a Google Sheet, write the values (in
    batches of 5000 rows when the table is large), and move the sheet
    into a Drive folder.  Every Google API call sits in a retry loop with
    exponential backoff.

    Python integers are modelled as [Z], Python strings as [string],
    Python lists as [list].  DataFrames are mutable objects: they live in
    a heap indexed by object identities, and the functions of the script
    are computations in a state-and-exception monad over a machine made
    of that heap, the remote services and a log of the effects performed.
    Logging calls ([logger.info], [logger.warning]) are left out. *)

From Stdlib Require Import ZArith Lia Ascii DecimalString.
From stdpp Require Import gmap strings list fin_maps.

Open Scope Z_scope.
Set Warnings "-register-all".

(** ** Python exceptions and results *)

Inductive ExcClass :=
  | RuntimeError | ValueError | TypeError | OverflowError
  | AttributeError | KeyError | OtherException.

(** [HttpError] is [googleapiclient.errors.HttpError], whose
    [e.resp.status] the retry loops inspect; [text] is [str(e)]. *)
Inductive Exn :=
  | HttpError (status : Z) (text : string)
  | PyExc (cls : ExcClass) (text : string).

Definition exc_str (e : Exn) : string :=
  match e with
  | HttpError _ text => text
  | PyExc _ text => text
  end.

Inductive Result (A : Type) :=
  | Ok (a : A)
  | Raise (e : Exn).
Arguments Ok {A} a.
Arguments Raise {A} e.

Definition is_Ok {A} (r : Result A) : bool :=
  match r with Ok _ => true | Raise _ => false end.

(** ** JSON documents and the values of DataFrame cells *)

(** What [json.dumps] writes, as a tree.  [JNaN] is the token [NaN] that
    Python emits for a float nan ([allow_nan] is left at its default). *)
Inductive JSON :=
  | JNull
  | JBool (b : bool)
  | JInt (z : Z)
  | JFloat (repr : string)
  | JNaN
  | JStr (s : string)
  | JArr (items : list JSON).

(** What [json.loads] builds. *)
Inductive PyData :=
  | PNone
  | PBool (b : bool)
  | PInt (z : Z)
  | PFloat (repr : string)
  | PNaN
  | PStr (s : string)
  | PList (items : list PyData).

(** A cell of a DataFrame.  The four missing-value markers of pandas are
    [None], float [nan], [pd.NA] and [pd.NaT].  A float is identified by
    its [repr], a [pd.Timestamp] by its canonical string.  [CObj] is any
    other Python object (a [Decimal], a [date], [bytes], a list, a
    dict...), given by its [str()] and by what [json.dumps] does on it. *)
Inductive Cell :=
  | CNone
  | CNaN
  | CNA
  | CNaT
  | CBool (b : bool)
  | CInt (z : Z)
  | CFloat (repr : string)
  | CStr (s : string)
  | CTimestamp (iso : string)
  | CObj (repr : string) (dumps : Result JSON).

Definition Row : Type := list Cell.

(** [str(x)] *)
Definition py_str (c : Cell) : string :=
  match c with
  | CNone => "None"
  | CNaN => "nan"
  | CNA => "<NA>"
  | CNaT => "NaT"
  | CBool true => "True"
  | CBool false => "False"
  | CInt z => NilZero.string_of_int (Z.to_int z)
  | CFloat repr => repr
  | CStr s => s
  | CTimestamp iso => iso
  | CObj repr _ => repr
  end.

(** [pd.notnull(x)] on a scalar *)
Definition notnull (c : Cell) : bool :=
  match c with
  | CNone | CNaN | CNA | CNaT => false
  | _ => true
  end.

Definition not_serializable (ty : string) : Exn :=
  PyExc TypeError ("Object of type " +:+ ty +:+ " is not JSON serializable").

(** [json.dumps] on one cell *)
Definition json_dumps_cell (c : Cell) : Result JSON :=
  match c with
  | CNone => Ok JNull
  | CNaN => Ok JNaN
  | CNA => Raise (not_serializable "NAType")
  | CNaT => Raise (not_serializable "NaTType")
  | CBool b => Ok (JBool b)
  | CInt z => Ok (JInt z)
  | CFloat repr => Ok (JFloat repr)
  | CStr s => Ok (JStr s)
  | CTimestamp _ => Raise (not_serializable "Timestamp")
  | CObj _ dumps => dumps
  end.

(** [json.dumps] on a list: the elements are encoded from left to right
    and the first exception is the one raised. *)
Fixpoint json_dumps_items {A} (enc : A -> Result JSON) (l : list A)
  : Result (list JSON) :=
  match l with
  | [] => Ok []
  | x :: l' =>
      match enc x with
      | Raise e => Raise e
      | Ok j =>
          match json_dumps_items enc l' with
          | Raise e => Raise e
          | Ok js => Ok (j :: js)
          end
      end
  end.

Definition json_dumps_list (l : list Cell) : Result JSON :=
  match json_dumps_items json_dumps_cell l with
  | Ok js => Ok (JArr js)
  | Raise e => Raise e
  end.

Definition json_dumps_table (t : list Row) : Result JSON :=
  match json_dumps_items json_dumps_list t with
  | Ok js => Ok (JArr js)
  | Raise e => Raise e
  end.

Fixpoint json_loads (j : JSON) : PyData :=
  match j with
  | JNull => PNone
  | JBool b => PBool b
  | JInt z => PInt z
  | JFloat repr => PFloat repr
  | JNaN => PNaN
  | JStr s => PStr s
  | JArr items => PList (map json_loads items)
  end.


(** ** pandas: series and frames *)

Inductive DType :=
  | datetime64_ns   (* naive timestamps: what [select_dtypes] below picks *)
  | datetime64_tz
  | int64
  | float64
  | bool_
  | object_.

Record Series := mkSeries {
  name : string;
  dtype : DType;
  cells : list Cell
}.

(** A frame: the length of its index and its columns, in order.  Labels
    may repeat (a query may select two columns of the same name). *)
Record DataFrame := mkDataFrame {
  nrows : nat;
  columns : list Series
}.

(** [s.astype(str)]: every element becomes its [str()], missing markers
    included ([None] becomes the string [None], [NaT] the string [NaT]). *)
Definition astype_str (s : Series) : Series :=
  {| name := name s; dtype := object_;
     cells := map (fun c => CStr (py_str c)) (cells s) |}.

(** [df.columns.tolist()] *)
Definition labels (f : DataFrame) : list string := map name (columns f).

(** *** The float that numpy makes of an integer

    For a frame whose columns are all of dtype int64 or float64, and not
    all int64, [df.values] is one array of dtype float64: the integers
    are converted, and [tolist] gives floats.  [float_of_int z] is the
    double nearest to [z] (ties to the even mantissa of 53 bits), as an
    integer; [float_repr z] is its [repr]: the shortest digits that read
    back as that double, the nearest such when there are several, written
    with an exponent from [1e16] on. *)
Definition float_of_int (z : Z) : Z :=
  let a := Z.abs z in
  let e := Z.log2 a - 52 in
  if e <=? 0 then z
  else
    let q := a / 2 ^ e in
    let r := a mod 2 ^ e in
    let half := 2 ^ (e - 1) in
    let q' := if (half <? r) || ((r =? half) && Z.odd q) then q + 1 else q in
    Z.sgn z * (q' * 2 ^ e).

(** The decimals that read back as the double [v > 0], an integer:
    those between the midpoints to the neighbouring doubles, the
    midpoints included when the mantissa of [v] is even.  The bounds are
    doubled, the lower midpoint of [2^53] being a half. *)
Definition reads_back_as (v c : Z) : bool :=
  let e := Z.log2 v - 52 in
  if e <=? 0 then c =? v
  else
    let q := v / 2 ^ e in
    let up := 2 ^ e in
    let down := if q =? 2 ^ 52 then 2 ^ (e - 1) else 2 ^ e in
    if Z.even q
    then (2 * v - down <=? 2 * c) && (2 * c <=? 2 * v + up)
    else (2 * v - down <? 2 * c) && (2 * c <? 2 * v + up).

(** The shortest decimal for [v]: the multiple of the largest power
    [10^k], [k <= n], that reads back as [v], with that [k]. *)
Fixpoint shortest_decimal (v : Z) (n : nat) : Z * Z :=
  let k := Z.of_nat n in
  let lo := v / 10 ^ k * 10 ^ k in
  let hi := lo + 10 ^ k in
  let nearest :=
    if reads_back_as v lo && reads_back_as v hi then
      if v - lo <? hi - v then Some lo
      else if hi - v <? v - lo then Some hi
      else if Z.even (lo / 10 ^ k) then Some lo else Some hi
    else if reads_back_as v lo then Some lo
    else if reads_back_as v hi then Some hi
    else None in
  match nearest, n with
  | Some c, _ => (c / 10 ^ k, k)
  | None, S n' => shortest_decimal v n'
  | None, O => (v, 0)
  end.

Definition digits_of (z : Z) : string := NilZero.string_of_int (Z.to_int z).

Definition float_repr (z : Z) : string :=
  let v := Z.abs (float_of_int z) in
  let sign := if z <? 0 then "-" else "" in
  if v =? 0 then "0.0"
  else
    let '(d, k) := shortest_decimal v (Z.to_nat (Z.log2 v)) in
    let ds := digits_of d in
    let decpt := Z.of_nat (String.length ds) + k in
    if 16 <? decpt then
      let exponent := digits_of (decpt - 1) in
      sign +:+ String.substring 0 1 ds
      +:+ (if (1 <? String.length ds)%nat
           then "." +:+ String.substring 1 (String.length ds - 1) ds else "")
      +:+ "e+" +:+ (if decpt - 1 <? 10 then "0" else "") +:+ exponent
    else
      sign +:+ ds +:+ String.concat "" (replicate (Z.to_nat k) "0") +:+ ".0".

Definition is_numeric (d : DType) : bool :=
  match d with int64 | float64 => true | _ => false end.

Definition is_float (d : DType) : bool :=
  match d with float64 => true | _ => false end.

Definition upcasts (f : DataFrame) : bool :=
  forallb (fun s => is_numeric (dtype s)) (columns f)
  && existsb (fun s => is_float (dtype s)) (columns f).

Definition to_float (c : Cell) : Cell :=
  match c with
  | CInt z => CFloat (float_repr z)
  | _ => c
  end.

(** What [df.values] makes of a cell of [f]. *)
Definition cast_of (f : DataFrame) : Cell -> Cell :=
  if upcasts f then to_float else fun c => c.

(** [df.values.tolist()]: the rows, in index order.  The array holds the
    cells as they are, except in a frame of numeric columns (see above).
    (The script calls it on frames whose columns of dtype datetime64[ns]
    were turned into strings before, at line 166.) *)
Definition values_tolist (f : DataFrame) : list Row :=
  map (fun i => map (fun s => cast_of f (default CNone (cells s !! i)))
                    (columns f))
      (seq 0 (nrows f)).

(** [df.select_dtypes(include=['datetime', 'datetime64', 'datetime64[ns]']).columns] *)
Definition is_datetime (d : DType) : bool :=
  match d with datetime64_ns => true | _ => false end.

Definition select_dtypes_datetime (f : DataFrame) : list string :=
  map name (filter (fun s => is_datetime (dtype s) = true) (columns f)).

(** What [df[col]] evaluates to: a series when the label names one
    column, a sub-frame when it names several. *)
Inductive Item :=
  | ISeries (s : Series)
  | IFrame (cols : list Series).

Definition has_label (col : string) (s : Series) : bool :=
  bool_decide (name s = col).

Definition getitem (f : DataFrame) (col : string) : Result Item :=
  match filter (fun s => has_label col s = true) (columns f) with
  | [] => Raise (PyExc KeyError col)
  | [s] => Ok (ISeries s)
  | cols => Ok (IFrame cols)
  end.

Definition item_astype_str (it : Item) : Item :=
  match it with
  | ISeries s => ISeries (astype_str s)
  | IFrame cols => IFrame (map astype_str cols)
  end.

(** [.tolist()] exists on a series only. *)
Definition item_tolist (it : Item) : Result (list Cell) :=
  match it with
  | ISeries s => Ok (cells s)
  | IFrame _ =>
      Raise (PyExc AttributeError "'DataFrame' object has no attribute 'tolist'")
  end.

Definition with_data (old new : Series) : Series :=
  {| name := name old; dtype := dtype new; cells := cells new |}.

(** [df[col] = item] for a label the frame already has: a series is
    stored in every column of that label, a sub-frame column by column. *)
Fixpoint assign_cols (col : string) (news : list Series) (cols : list Series)
  : list Series :=
  match cols with
  | [] => []
  | s :: rest =>
      if has_label col s then
        match news with
        | [] => s :: assign_cols col [] rest
        | n :: news' => with_data s n :: assign_cols col news' rest
        end
      else s :: assign_cols col news rest
  end.

Definition setitem (f : DataFrame) (col : string) (it : Item) : DataFrame :=
  match it with
  | ISeries n =>
      {| nrows := nrows f;
         columns := map (fun s => if has_label col s then with_data s n else s)
                        (columns f) |}
  | IFrame news =>
      {| nrows := nrows f; columns := assign_cols col news (columns f) |}
  end.

Definition map_cells (g : DType -> Cell -> Cell) (f : DataFrame) : DataFrame :=
  {| nrows := nrows f;
     columns := map (fun s => {| name := name s; dtype := dtype s;
                                 cells := map (g (dtype s)) (cells s) |})
                    (columns f) |}.

(** [df.replace({pd.NA: None, pd.NaT: None})], in a column of dtype [d].
    The replacement acts on the columns that can hold the values to
    replace: in a column of dtype object [pd.NA] and [pd.NaT] become
    [None].  A numeric or boolean column holds neither and is left as it
    is; in a column of timestamps [None] is stored as [NaT] again. *)
Definition replace_na_nat (d : DType) (c : Cell) : Cell :=
  match d, c with
  | object_, (CNA | CNaT) => CNone
  | _, _ => c
  end.

(** [df.where(pd.notnull(df), None)], in a column of dtype [d] (pandas
    1.3 and later).  The result keeps the dtype of the column, and [None]
    is stored as the missing marker of that dtype: in a column of dtype
    object a missing marker becomes [None]; in a column of dtype float64
    a [nan] is stored as [nan] again, in a column of timestamps a [NaT]
    as [NaT]. *)
Definition where_notnull (d : DType) (c : Cell) : Cell :=
  match d with
  | object_ => if notnull c then c else CNone
  | _ => c
  end.

(** ** The machine: object heap, remote services, effect log *)

Record Credentials := mkCredentials { token : string }.

(** A request built on a service object and sent by [.execute()]. *)
Inductive Request :=
  | SpreadsheetsCreate (title fields : string)
  | ValuesUpdate (spreadsheetId range valueInputOption : string)
                 (values : list Row)
  | ValuesAppend (spreadsheetId range valueInputOption insertDataOption : string)
                 (values : list Row)
  | FilesGet (fileId fields : string)
  | FilesUpdate (fileId addParents removeParents fields : string).

(** The fields of a response that the script reads with [.get]. *)
Record Response := mkResponse {
  resp_spreadsheetId : option string;
  resp_parents : option (list string)
}.

Inductive Outcome :=
  | Responds (r : Response)
  | Fails (e : Exn).

Inductive Event :=
  | EvBuild (api version : string)
  | EvCall (req : Request) (out : Outcome)
  | EvSleep (seconds : Z).

(** [heap] holds the DataFrame objects, [remote k] is what the Google
    services do on the [k]-th request of the run, [issued] counts the
    requests sent so far and [log] lists the effects in order. *)
Record Machine := mkMachine {
  heap : gmap nat DataFrame;
  remote : nat -> Outcome;
  issued : nat;
  log : list Event
}.

Definition M (A : Type) : Type := Machine -> Result A * Machine.

#[global] Instance M_ret : MRet M := fun A a m => (Ok a, m).

#[global] Instance M_bind : MBind M := fun A B k c m =>
  match c m with
  | (Ok a, m') => k a m'
  | (Raise e, m') => (Raise e, m')
  end.

Definition raise {A} (e : Exn) : M A := fun m => (Raise e, m).

Definition lift {A} (r : Result A) : M A := fun m => (r, m).

(** [try: body / except <classes> as e: handler e]; an exception that
    [catches] rejects propagates. *)
Definition try_except {A} (body : M A) (catches : Exn -> bool)
    (handler : Exn -> M A) : M A := fun m =>
  match body m with
  | (Ok a, m') => (Ok a, m')
  | (Raise e, m') => if catches e then handler e m' else (Raise e, m')
  end.

Fixpoint for_each {A} (l : list A) (body : A -> M unit) : M unit :=
  match l with
  | [] => mret tt
  | x :: l' => body x;; for_each l' body
  end.

Definition emit (ev : Event) : M unit := fun m =>
  (Ok tt, {| heap := heap m; remote := remote m; issued := issued m;
             log := log m ++ [ev] |}).

(** [time.sleep(seconds)] *)
Definition sleep (seconds : Z) : M unit := emit (EvSleep seconds).

Inductive Service := mkService (api version : string) (credentials : Credentials).

(** [build(api, version, credentials=credentials)] makes a client object
    locally; it sends nothing. *)
Definition build (api version : string) (credentials : Credentials) : M Service :=
  emit (EvBuild api version);; mret (mkService api version credentials).

(** [request.execute()]: the one place where the network is used. *)
Definition execute (svc : Service) (req : Request) : M Response := fun m =>
  let out := remote m (issued m) in
  let m' := {| heap := heap m; remote := remote m; issued := S (issued m);
               log := log m ++ [EvCall req out] |} in
  match out with
  | Responds r => (Ok r, m')
  | Fails e => (Raise e, m')
  end.

(** *** Heap operations *)

Definition deref (d : nat) : M DataFrame := fun m =>
  match heap m !! d with
  | Some f => (Ok f, m)
  | None => (Raise (PyExc OtherException "dangling reference"), m)
  end.

Definition alloc (f : DataFrame) : M nat := fun m =>
  let d := fresh (dom (heap m)) in
  (Ok d, {| heap := <[d := f]> (heap m); remote := remote m;
            issued := issued m; log := log m |}).

Definition store (d : nat) (f : DataFrame) : M unit := fun m =>
  (Ok tt, {| heap := <[d := f]> (heap m); remote := remote m;
             issued := issued m; log := log m |}).

(** [df.copy(deep=True)]: a new object with the same data. *)
Definition copy_deep (d : nat) : M nat := f ← deref d; alloc f.

(** [df.replace(...)] and [df.where(...)] return new frames. *)
Definition frame_map (g : DType -> Cell -> Cell) (d : nat) : M nat :=
  f ← deref d; alloc (map_cells g f).

Definition df_getitem (d : nat) (col : string) : M Item :=
  f ← deref d; lift (getitem f col).

(** [df[col] = item] mutates the object in place. *)
Definition df_setitem (d : nat) (col : string) (it : Item) : M unit :=
  f ← deref d; store d (setitem f col it).

(** ** Python helpers *)

(** [range(start, stop, step)] for a positive step *)
Definition py_range (start stop step : Z) : list Z :=
  map (fun k => start + Z.of_nat k * step)
      (seq 0 (Z.to_nat ((stop - start + step - 1) / step))).

(** [l[i:j]] for [0 <= i <= j] *)
Definition py_slice {A} (l : list A) (i j : Z) : list A :=
  take (Z.to_nat (j - i)) (drop (Z.to_nat i) l).

Definition len {A} (l : list A) : Z := Z.of_nat (length l).

(** [enumerate(l)] *)
Definition enumerate {A} (l : list A) : list (Z * A) :=
  imap (fun i x => (Z.of_nat i, x)) l.

Definition str_of_int (z : Z) : string := NilZero.string_of_int (Z.to_int z).

(** *** Text

    A Python string is a sequence of code points; a [string] holds its
    UTF-8 encoding.  [utf8_chars] gives the characters of a text, each
    with its code point and its bytes; a byte that belongs to no
    well-formed sequence stands alone, without a code point (Python keeps
    it as a lone surrogate). *)
Definition byte_of (c : ascii) : Z := Z.of_nat (nat_of_ascii c).

Definition continuation (c : ascii) : bool :=
  (128 <=? byte_of c) && (byte_of c <=? 191).

Definition Char : Type := option Z * list ascii.

Fixpoint utf8_chars (l : list ascii) : list Char :=
  match l with
  | [] => []
  | b0 :: rest =>
      let n0 := byte_of b0 in
      if n0 <? 128 then (Some n0, [b0]) :: utf8_chars rest
      else
        match rest with
        | [] => [(None, [b0])]
        | b1 :: rest1 =>
            let n1 := byte_of b1 in
            if (194 <=? n0) && (n0 <=? 223) && continuation b1 then
              (Some ((n0 - 192) * 64 + (n1 - 128)), [b0; b1])
              :: utf8_chars rest1
            else
              match rest1 with
              | [] => (None, [b0]) :: utf8_chars rest
              | b2 :: rest2 =>
                  let n2 := byte_of b2 in
                  if (224 <=? n0) && (n0 <=? 239)
                     && continuation b1 && continuation b2
                     && implb (n0 =? 224) (160 <=? n1)
                     && implb (n0 =? 237) (n1 <=? 159) then
                    (Some ((n0 - 224) * 4096 + (n1 - 128) * 64 + (n2 - 128)),
                     [b0; b1; b2])
                    :: utf8_chars rest2
                  else
                    match rest2 with
                    | [] => (None, [b0]) :: utf8_chars rest
                    | b3 :: rest3 =>
                        let n3 := byte_of b3 in
                        if (240 <=? n0) && (n0 <=? 244)
                           && continuation b1 && continuation b2
                           && continuation b3
                           && implb (n0 =? 240) (144 <=? n1)
                           && implb (n0 =? 244) (n1 <=? 143) then
                          (Some ((n0 - 240) * 262144 + (n1 - 128) * 4096
                                 + (n2 - 128) * 64 + (n3 - 128)),
                           [b0; b1; b2; b3])
                          :: utf8_chars rest3
                        else (None, [b0]) :: utf8_chars rest
                    end
              end
        end
  end.

(** The code points of the digits zero of Unicode 14.0 (the version of
    Python 3.11): each starts a run of the ten decimal digits of a
    script. *)
Definition unicode_zeros : list Z :=
  [
    48; 1632; 1776; 1984; 2406; 2534; 2662; 2790;
    2918; 3046; 3174; 3302; 3430; 3558; 3664; 3792;
    3872; 4160; 4240; 6112; 6160; 6470; 6608; 6784;
    6800; 6992; 7088; 7232; 7248; 42528; 43216; 43264;
    43472; 43504; 43600; 44016; 65296; 66720; 68912; 69734;
    69872; 69942; 70096; 70384; 70736; 70864; 71248; 71360;
    71472; 71904; 72016; 72784; 73040; 73120; 92768; 92864;
    93008; 120782; 120792; 120802; 120812; 120822; 123200; 123632;
    125264; 130032
  ].

Definition unicode_decimal (cp : Z) : option Z :=
  (fun z => cp - z)
    <$> List.find (fun z => (z <=? cp) && (cp <? z + 10)) unicode_zeros.

(** The spaces of Unicode outside ASCII. *)
Definition unicode_spaces : list Z :=
  [
    133; 160; 5760; 8192; 8193; 8194; 8195; 8196;
    8197; 8198; 8199; 8200; 8201; 8202; 8232; 8233;
    8239; 8287; 12288
  ].

Definition unicode_space (cp : Z) : bool :=
  existsb (Z.eqb cp) unicode_spaces.

Definition hex_digit (n : Z) : ascii :=
  ascii_of_nat (Z.to_nat (if n <? 10 then 48 + n else 87 + n)).

(** The last [k] hexadecimal digits of [n]. *)
Fixpoint hex (k : nat) (n : Z) : list ascii :=
  match k with
  | O => []
  | S k' => hex k' (n / 16) ++ [hex_digit (n mod 16)]
  end.

(** [repr(s)], character by character: between single quotes, or
    between double quotes when [s] has a single quote and no double
    quote; the quote in use and the backslash are escaped, and so is
    what is not printable.  Outside ASCII the controls, the soft hyphen
    and the spaces are escaped, and so are the bytes without a code
    point; the other characters are written as they are (the unassigned
    code points and the format characters, which Python escapes as well,
    included). *)
Definition escaped (cp : Z) : list ascii :=
  if cp <? 256 then "\"%char :: "x"%char :: hex 2 cp
  else if cp <? 65536 then "\"%char :: "u"%char :: hex 4 cp
  else "\"%char :: "U"%char :: hex 8 cp.

Definition repr_char (quote : ascii) (ch : Char) : list ascii :=
  match ch with
  | (Some cp, bytes) =>
      if (cp =? byte_of quote) || (cp =? 92) then "\"%char :: bytes
      else if cp =? 9 then ["\"%char; "t"%char]
      else if cp =? 10 then ["\"%char; "n"%char]
      else if cp =? 13 then ["\"%char; "r"%char]
      else if (cp <? 32) || ((127 <=? cp) && (cp <=? 160)) || (cp =? 173)
              || unicode_space cp
      then escaped cp
      else bytes
  | (None, bytes) => escaped (56320 + foldr (fun b _ => byte_of b) 0 bytes)
  end.

(** The characters of [repr(s)], each with its bytes. *)
Definition py_repr (s : string) : list (list ascii) :=
  let l := String.list_ascii_of_string s in
  let quote :=
    if bool_decide ("'"%char ∈ l) && negb (bool_decide (ascii_of_nat 34 ∈ l))
    then ascii_of_nat 34 else "'"%char in
  let shown (ch : Char) : list (list ascii) :=
    match ch with
    | (Some cp, bytes) =>
        if bool_decide (repr_char quote ch = bytes) then [bytes]
        else map (fun c => [c]) (repr_char quote ch)
    | (None, _) => map (fun c => [c]) (repr_char quote ch)
    end in
  [[quote]] ++ concat (map shown (utf8_chars l)) ++ [[quote]].

(** The message is formatted with [%.200R]: the first 200 characters of
    the [repr]. *)
Definition invalid_literal (s : string) : Exn :=
  PyExc ValueError
        ("invalid literal for int() with base 10: "
         +:+ String.string_of_list_ascii (concat (take 200 (py_repr s)))).

Definition MAX_STR_DIGITS : Z := 4300.

Definition exceeds_limit (count : Z) : Exn :=
  PyExc ValueError
        ("Exceeds the limit (4300 digits) for integer string conversion: "
         +:+ "value has " +:+ digits_of count
         +:+ " digits; use sys.set_int_max_str_digits() to increase the limit").

(** What [int] reads of a character: a character below 127 as it is, a
    space of Unicode as a space, a decimal digit of Unicode as the ASCII
    digit of its value, anything else as a question mark. *)
Definition to_ascii (ch : Char) : ascii :=
  match ch.1 with
  | Some cp =>
      if cp <? 127 then ascii_of_nat (Z.to_nat cp)
      else if unicode_space cp then " "%char
      else match unicode_decimal cp with
           | Some d => ascii_of_nat (Z.to_nat (48 + d))
           | None => "?"%char
           end
  | None => "?"%char
  end.

(** The characters skipped around the literal: tab, line feed, vertical
    tab, form feed, carriage return and space. *)
Definition is_space (c : ascii) : bool :=
  let n := nat_of_ascii c in
  ((9 <=? n) && (n <=? 13) || (n =? 32))%nat.

Definition digit_of (c : ascii) : option Z :=
  let n := nat_of_ascii c in
  if ((48 <=? n) && (n <=? 57))%nat then Some (Z.of_nat n - 48) else None.

Fixpoint lstrip (l : list ascii) : list ascii :=
  match l with
  | c :: l' => if is_space c then lstrip l' else l
  | [] => []
  end.

(** The run of digits at the head of [l], single underscores allowed
    between two digits: its value, the number of its digits and what
    follows it; [None] when an underscore follows an underscore or ends
    the run. *)
Fixpoint scan_digits (acc count : Z) (after_underscore : bool) (l : list ascii)
  : option (Z * Z * list ascii) :=
  match l with
  | [] => if after_underscore then None else Some (acc, count, [])
  | c :: l' =>
      match digit_of c with
      | Some d => scan_digits (10 * acc + d) (count + 1) false l'
      | None =>
          if bool_decide (c = "_"%char) then
            if after_underscore then None else scan_digits acc count true l'
          else if after_underscore then None else Some (acc, count, l)
      end
  end.

(** [int(s)] (Python 3.11): spaces, an optional sign, the digits,
    spaces.  The length of the literal is checked as soon as its digits
    are read, before what follows them. *)
Definition py_int (s : string) : Result Z :=
  let l := lstrip (map to_ascii (utf8_chars (String.list_ascii_of_string s))) in
  let '(negative, l) :=
    match l with
    | "-"%char :: l' => (true, l')
    | "+"%char :: l' => (false, l')
    | _ => (false, l)
    end in
  match l with
  | "_"%char :: _ => Raise (invalid_literal s)
  | _ =>
      match scan_digits 0 0 false l with
      | None => Raise (invalid_literal s)
      | Some (z, count, rest) =>
          if MAX_STR_DIGITS <? count then Raise (exceeds_limit count)
          else if (count =? 0) || negb (forallb is_space rest)
          then Raise (invalid_literal s)
          else Ok (if negative : bool then - z else z)
      end
  end.

(** ** [load_config] *)

Record TrinoConfig := mkTrinoConfig {
  host : option string;
  port : Z;
  user : option string;
  password : option string;
  catalog : option string;
  schema : option string
}.

Record GoogleConfig := mkGoogleConfig {
  client_secret_file : option string;
  token_path : option string;
  drive_folder_id : option string
}.

Record Config := mkConfig {
  trino : TrinoConfig;
  google : GoogleConfig
}.

(** [os.getenv]; the environment is the one left by [load_dotenv()]. *)
Definition getenv (environ : gmap string string) (var : string) : option string :=
  environ !! var.

(** Truth value of an [Optional[str]]: [None] and the empty string are
    false. *)
Definition truthy (v : option string) : bool :=
  match v with
  | None => false
  | Some s => negb (bool_decide (s = ""))
  end.

Definition required_vars : list string :=
  [ "TRINO_HOST"; "TRINO_PORT"; "TRINO_USER"; "TRINO_CATALOG"; "TRINO_SCHEMA";
    "GOOGLE_CLIENT_SECRET_FILE"; "TOKEN_PATH"; "DRIVE_FOLDER_ID" ].

Definition missing_vars (environ : gmap string string) : list string :=
  filter (fun var => truthy (getenv environ var) = false) required_vars.

Definition load_config (environ : gmap string string) : Result Config :=
  match missing_vars environ with
  | _ :: _ =>
      Raise (PyExc ValueError
               ("Missing required environment variables: "
                +:+ String.concat ", " (missing_vars environ)))
  | [] =>
      match py_int (default "" (getenv environ "TRINO_PORT")) with
      | Raise e => Raise e
      | Ok p =>
          Ok {| trino := {| host := getenv environ "TRINO_HOST";
                            port := p;
                            user := getenv environ "TRINO_USER";
                            password := getenv environ "TRINO_PASSWORD";
                            catalog := getenv environ "TRINO_CATALOG";
                            schema := getenv environ "TRINO_SCHEMA" |};
                google := {| client_secret_file :=
                               getenv environ "GOOGLE_CLIENT_SECRET_FILE";
                             token_path := getenv environ "TOKEN_PATH";
                             drive_folder_id := getenv environ "DRIVE_FOLDER_ID" |} |}
      end
  end.

(** ** [prepare_dataframe_for_sheets] *)

(** [except (TypeError, OverflowError)] *)
Definition type_or_overflow (e : Exn) : bool :=
  match e with
  | PyExc TypeError _ | PyExc OverflowError _ => true
  | _ => false
  end.

(** [df_copy[col] = df_copy[col].astype(str)] *)
Definition column_to_str (d : nat) (col : string) : M unit :=
  it ← df_getitem d col; df_setitem d col (item_astype_str it).

(** [json.dumps(df_copy[col].tolist())] *)
Definition dumps_column (d : nat) (col : string) : M unit :=
  it ← df_getitem d col;
  l ← lift (item_tolist it);
  _ ← lift (json_dumps_list l);
  mret tt.

(** [json.dumps(df_copy.values.tolist())] *)
Definition dumps_frame (d : nat) : M unit :=
  f ← deref d;
  _ ← lift (json_dumps_table (values_tolist f));
  mret tt.

(** The last block of the function: test that the whole frame can be
    serialized and, if it cannot, convert every column to strings. *)
Definition last_resort (d : nat) : M unit :=
  try_except (dumps_frame d) type_or_overflow
             (fun _ =>
                cols ← (f ← deref d; mret (labels f));
                for_each cols (column_to_str d)).

Definition prepare_dataframe_for_sheets (df : nat) : M nat :=
  df_copy ← copy_deep df;
  date_cols ← (f ← deref df_copy; mret (select_dtypes_datetime f));
  for_each date_cols (column_to_str df_copy);;
  df_copy ← frame_map replace_na_nat df_copy;
  df_copy ← frame_map where_notnull df_copy;
  cols ← (f ← deref df_copy; mret (labels f));
  for_each cols (fun col =>
    try_except (dumps_column df_copy col) type_or_overflow
               (fun _ => column_to_str df_copy col));;
  last_resort df_copy;;
  mret df_copy.

(** ** The retry loop around the Google API calls *)

Definition MAX_RETRIES : Z := 5.
Definition INITIAL_RETRY_DELAY : Z := 1.

Definition retryable_statuses : list Z := [429; 500; 502; 503; 504].

Definition status_in (status : Z) (l : list Z) : bool :=
  existsb (Z.eqb status) l.

(** The loop that [create_google_sheet], [write_dataframe_to_sheet] and
    [move_sheet_to_folder] each spell out:
<<
    for retry in range(MAX_RETRIES):
        try:
            <attempt>            # returns on success
        except HttpError as e:
            if retry >= MAX_RETRIES - 1 or e.resp.status not in [...]:
                raise RuntimeError(f"<what>: {e}")
            wait_time = INITIAL_RETRY_DELAY * (2 ** retry)
            time.sleep(wait_time)
        except Exception as e:
            raise RuntimeError(f"<what>: {e}")
    raise RuntimeError("<what> after retries")
>> *)
Fixpoint retry_loop {A} (what : string) (attempt : M A) (retries : list Z)
  : M A :=
  match retries with
  | [] => raise (PyExc RuntimeError (what +:+ " after retries"))
  | retry :: rest => fun m =>
      match attempt m with
      | (Ok a, m') => (Ok a, m')
      | (Raise (HttpError status text), m') =>
          if (MAX_RETRIES - 1 <=? retry)
             || negb (status_in status retryable_statuses)
          then raise (PyExc RuntimeError (what +:+ ": " +:+ text)) m'
          else
            let wait_time := INITIAL_RETRY_DELAY * 2 ^ retry in
            (sleep wait_time;; retry_loop what attempt rest) m'
      | (Raise e, m') =>
          raise (PyExc RuntimeError (what +:+ ": " +:+ exc_str e)) m'
      end
  end.

Definition create_google_sheet (credentials : Credentials) (title : string)
  : M (option string) :=
  retry_loop "Failed to create Google Sheet"
    (sheets_service ← build "sheets" "v4" credentials;
     response ← execute sheets_service (SpreadsheetsCreate title "spreadsheetId");
     mret (resp_spreadsheetId response))
    (py_range 0 MAX_RETRIES 1).

Definition BATCH_SIZE : Z := 5000.

(** [f'Sheet1!A{1 if i == 0 else (i * BATCH_SIZE) + 1}'] *)
Definition start_range (i : Z) : string :=
  "Sheet1!A" +:+ str_of_int (if i =? 0 then 1 else i * BATCH_SIZE + 1).

(** [[values[i:i + BATCH_SIZE] for i in range(0, len(values), BATCH_SIZE)]] *)
Definition make_batches (values : list Row) : list (list Row) :=
  map (fun i => py_slice values i (i + BATCH_SIZE))
      (py_range 0 (len values) BATCH_SIZE).

(** One pass over the batches: update for the first, append for the rest. *)
Definition write_batch (sheets_service : Service) (spreadsheet_id : string)
    (ib : Z * list Row) : M unit :=
  let '(i, batch) := ib in
  if i =? 0 then
    execute sheets_service
      (ValuesUpdate spreadsheet_id (start_range i) "RAW" batch);; mret tt
  else
    execute sheets_service
      (ValuesAppend spreadsheet_id (start_range i) "RAW" "INSERT_ROWS" batch);;
    mret tt.

(** The part of [write_dataframe_to_sheet] that follows the computation
    of [values]. *)
Definition write_values (credentials : Credentials) (spreadsheet_id : string)
    (values : list Row) : M unit :=
  if BATCH_SIZE <? len values then
    let batches := make_batches values in
    retry_loop "Failed to write data to Google Sheet"
      (sheets_service ← build "sheets" "v4" credentials;
       for_each (enumerate batches) (write_batch sheets_service spreadsheet_id))
      (py_range 0 MAX_RETRIES 1)
  else
    retry_loop "Failed to write data to Google Sheet"
      (sheets_service ← build "sheets" "v4" credentials;
       execute sheets_service
         (ValuesUpdate spreadsheet_id "Sheet1!A1" "RAW" values);;
       mret tt)
      (py_range 0 MAX_RETRIES 1).

(** [[df_prepared.columns.tolist()] + df_prepared.values.tolist()] *)
Definition values_of (f : DataFrame) : list Row :=
  map CStr (labels f) :: values_tolist f.

Definition write_dataframe_to_sheet (credentials : Credentials)
    (spreadsheet_id : string) (df : nat) : M unit :=
  df_prepared ← prepare_dataframe_for_sheets df;
  f ← deref df_prepared;
  write_values credentials spreadsheet_id (values_of f).

Definition move_sheet_to_folder (credentials : Credentials)
    (file_id folder_id : string) : M unit :=
  retry_loop "Failed to move Google Sheet to folder"
    (drive_service ← build "drive" "v3" credentials;
     file ← execute drive_service (FilesGet file_id "parents");
     let previous_parents :=
       String.concat "," (default [] (resp_parents file)) in
     execute drive_service
       (FilesUpdate file_id folder_id previous_parents "id, parents");;
     mret tt)
    (py_range 0 MAX_RETRIES 1).

(** ** Reading the effect log *)

(** The requests sent, the waits made and the number of attempts started
    (each attempt builds its service object first). *)
Definition requests (evs : list Event) : list Request :=
  omap (fun ev => match ev with EvCall req _ => Some req | _ => None end) evs.

Definition sleeps (evs : list Event) : list Z :=
  omap (fun ev => match ev with EvSleep s => Some s | _ => None end) evs.

Definition attempts (evs : list Event) : nat :=
  length (omap (fun ev => match ev with EvBuild _ _ => Some tt | _ => None end) evs).

Definition total_wait (evs : list Event) : Z := foldr Z.add 0 (sleeps evs).

(** The machine after [n] more requests and the effects [evs]. *)
Definition advance (m : Machine) (n : nat) (evs : list Event) : Machine :=
  {| heap := heap m; remote := remote m; issued := (issued m + n)%nat;
     log := log m ++ evs |}.

(** [e] makes the loop try again (when attempts are left). *)
Definition retryable (e : Exn) : bool :=
  match e with
  | HttpError status _ => status_in status retryable_statuses
  | PyExc _ _ => false
  end.

(** What a run of failed attempts leaves in the log: the effects of each
    attempt, then the wait chosen for that retry index. *)
Fixpoint backoff_trace (failed : Exn -> list Event) (retry : Z)
    (errs : list Exn) : list Event :=
  match errs with
  | [] => []
  | e :: errs' =>
      failed e ++ [EvSleep (INITIAL_RETRY_DELAY * 2 ^ retry)]
      ++ backoff_trace failed (retry + 1) errs'
  end.

Definition create_request (title : string) : Request :=
  SpreadsheetsCreate title "spreadsheetId".

Definition create_attempt (title : string) (out : Outcome) : list Event :=
  [EvBuild "sheets" "v4"; EvCall (create_request title) out].

(** [ceil(a / b)] for [b > 0], by floor division. *)
Definition ceil_div (a b : Z) : Z := - ((- a) / b).

(** The remote fails with [errs], in order, from the next request on. *)
Definition fails_with (m : Machine) (errs : list Exn) : Prop :=
  forall i e, errs !! i = Some e -> remote m (issued m + i)%nat = Fails e.

(** [m'] is [m] after the effects [evs]: the log grew by [evs] and one
    request was counted for each call in it. *)
Definition effects_of (m m' : Machine) (evs : list Event) : Prop :=
  log m' = log m ++ evs
  /\ issued m' = (issued m + length (requests evs))%nat
  /\ remote m' = remote m.

(** The request that [write_batch] sends for the [i]-th batch. *)
Definition batch_request (spreadsheet_id : string) (ib : Z * list Row)
  : Request :=
  if ib.1 =? 0
  then ValuesUpdate spreadsheet_id (start_range ib.1) "RAW" ib.2
  else ValuesAppend spreadsheet_id (start_range ib.1) "RAW" "INSERT_ROWS" ib.2.

Definition batch_requests (spreadsheet_id : string) (values : list Row)
  : list Request :=
  map (batch_request spreadsheet_id) (enumerate (make_batches values)).

(** The rows a write request carries. *)
Definition payload (req : Request) : list Row :=
  match req with
  | ValuesUpdate _ _ _ values => values
  | ValuesAppend _ _ _ _ values => values
  | _ => []
  end.

Definition is_append (req : Request) : bool :=
  match req with ValuesAppend _ _ _ _ _ => true | _ => false end.

(** Every request from the next one on is answered. *)
Definition always_responds (m : Machine) : Prop :=
  forall k, (issued m <= k)%nat -> exists r, remote m k = Responds r.

(** *** The spreadsheet

    The Sheets service is outside the program.  Its two write operations
    are modelled after the specification, which gives them as a
    range-qualified overwrite and a range-qualified insertion (section 6)
    and says that an appended chunk goes after the content written before
    (section 4.2).  A request that fails commits nothing. *)

Fixpoint last_number (acc : option Z) (l : list ascii) : option Z :=
  match l with
  | [] => acc
  | c :: l' =>
      match digit_of c with
      | Some d => last_number (Some (10 * default 0 acc + d)) l'
      | None => last_number None l'
      end
  end.

(** The row an A1 range such as [Sheet1!A5001] starts at. *)
Definition range_row (range : string) : Z :=
  default 1 (last_number None (String.list_ascii_of_string range)).

Definition overwrite_rows (row : Z) (values sheet : list Row) : list Row :=
  let n := Z.to_nat (row - 1) in
  take n sheet ++ replicate (n - length sheet) [] ++ values
  ++ drop (n + length values) sheet.

Definition sink_step (sheet : list Row) (ev : Event) : list Row :=
  match ev with
  | EvCall (ValuesUpdate _ range _ values) (Responds _) =>
      overwrite_rows (range_row range) values sheet
  | EvCall (ValuesAppend _ _ _ _ values) (Responds _) => sheet ++ values
  | _ => sheet
  end.

(** The rows of the sheet after the effects [evs]. *)
Definition sheet_after (evs : list Event) (sheet : list Row) : list Row :=
  foldl sink_step sheet evs.

(** The number of batches and the size of a batch, as naturals. *)
Definition batch_count (values : list Row) : nat :=
  Z.to_nat (ceil_div (len values) BATCH_SIZE).

Definition batch_rows : nat := Z.to_nat BATCH_SIZE.

(** The log of one pass over the batches [ibs] when the first request
    of the pass is the [start]-th of the run. *)
Definition batch_events (spreadsheet_id : string) (rem : nat -> Outcome)
    (start : nat) (ibs : list (Z * list Row)) : list Event :=
  imap (fun j ib => EvCall (batch_request spreadsheet_id ib) (rem (start + j)%nat))
       ibs.

(** *** Frames of the heap that a computation leaves alone *)

(** [m] is [m0] with more objects in its heap: every object of [m0] is
    unchanged, and nothing was sent, logged or waited for. *)
Definition extends (m0 m : Machine) : Prop :=
  heap m0 ⊆ heap m
  /\ remote m = remote m0 /\ issued m = issued m0 /\ log m = log m0.

(** [d] names no object of [m0]. *)
Definition owned (m0 : Machine) (d : nat) : Prop := heap m0 !! d = None.

(** From any machine that extends [m0], [c] leads to a machine that
    extends [m0], and a value it returns satisfies [Q]. *)
Definition keeps {A} (m0 : Machine) (c : M A) (Q : A -> Prop) : Prop :=
  forall m, extends m0 m ->
    extends m0 (c m).2 /\ forall a, (c m).1 = Ok a -> Q a.

(** *** What the normalisation computes, column by column *)

(** The machine [m] with the frame [f] as object [d]. *)
Definition with_frame (m : Machine) (d : nat) (f : DataFrame) : Machine :=
  {| heap := <[d := f]> (heap m); remote := remote m; issued := issued m;
     log := log m |}.

Definition map_columns (g : Series -> Series) (f : DataFrame) : DataFrame :=
  {| nrows := nrows f; columns := map g (columns f) |}.

(** Step 1: the columns of dtype datetime64[ns] become strings. *)
Definition dates_to_str (s : Series) : Series :=
  if is_datetime (dtype s) then astype_str s else s.

(** Step 2: [replace] then [where]: in a column of dtype object a
    missing marker becomes [None]. *)
Definition nulls_to_none (s : Series) : Series :=
  {| name := name s; dtype := dtype s;
     cells := map (fun c => where_notnull (dtype s) (replace_na_nat (dtype s) c))
                  (cells s) |}.

(** Step 3: a column that [json.dumps] rejects becomes strings. *)
Definition encodes (s : Series) : bool := is_Ok (json_dumps_list (cells s)).

Definition coerce_unencodable (s : Series) : Series :=
  if encodes s then s else astype_str s.

Definition normalize_series (s : Series) : Series :=
  coerce_unencodable (nulls_to_none (dates_to_str s)).

Definition normalize (f : DataFrame) : DataFrame :=
  map_columns normalize_series f.

(** Every exception that encoding a cell of the frame can raise is one
    that the function catches (a [TypeError] or an [OverflowError]). *)
Definition cell_catchable (c : Cell) : bool :=
  match json_dumps_cell c with
  | Ok _ => true
  | Raise e => type_or_overflow e
  end.

Definition catchable (f : DataFrame) : Prop :=
  Forall (fun s => Forall (fun c => cell_catchable c = true) (cells s))
         (columns f).

Definition catchableb (f : DataFrame) : bool :=
  forallb (fun s => forallb cell_catchable (cells s)) (columns f).

(** The value at row [i], column [k] of a decoded table. *)
Definition decoded_cell (p : PyData) (i k : nat) : option PyData :=
  match p with
  | PList rows =>
      match rows !! i with
      | Some (PList row) => row !! k
      | _ => None
      end
  | _ => None
  end.

(** [g] applied to the columns labelled [col], and to those whose label
    is in [cols]. *)
Definition on_label (col : string) (g : Series -> Series) (s : Series)
  : Series :=
  if has_label col s then g s else s.

Definition on_labels (cols : list string) (g : Series -> Series) (s : Series)
  : Series :=
  if bool_decide (name s ∈ cols) then g s else s.

(** ** Scenarios *)

Definition answers : Outcome :=
  Responds {| resp_spreadsheetId := Some "sheet-1"; resp_parents := None |}.

(** Four rate-limit errors, then an answer. *)
Definition rate_limited_four_times : Machine :=
  {| heap := ∅;
     remote := fun k => if (k <? 4)%nat then Fails (HttpError 429 "rate limit")
                        else answers;
     issued := 0; log := [] |}.

Definition not_found_at_once : Machine :=
  {| heap := ∅; remote := fun _ => Fails (HttpError 404 "not found");
     issued := 0; log := [] |}.

(** A frame of one integer column with [n] data rows. *)
Definition int_table (n : Z) : DataFrame :=
  {| nrows := Z.to_nat n;
     columns := [ {| name := "n"; dtype := int64;
                     cells := replicate (Z.to_nat n) (CInt 7) |} ] |}.

(** A run that starts with the frame [f] as object 0 and in which the
    services do [rem]. *)
Definition run_with (f : DataFrame) (rem : nat -> Outcome) : Machine :=
  {| heap := {[ 0%nat := f ]}; remote := rem; issued := 0; log := [] |}.

(** The third request of the run is refused with status 503. *)
Definition third_refused (k : nat) : Outcome :=
  if (k =? 2)%nat then Fails (HttpError 503 "unavailable") else answers.

(** Every update of the file's parents is refused with status 503. *)
Definition update_refused (k : nat) : Outcome :=
  if Nat.even k then answers else Fails (HttpError 503 "unavailable").

(** The services refuse every request with status 503. *)
Definition always_unavailable : Machine :=
  {| heap := ∅; remote := fun _ => Fails (HttpError 503 "unavailable");
     issued := 0; log := [] |}.

(** The services answer every read and refuse every update of the
    file's parents. *)
Definition moves_refused : Machine :=
  {| heap := ∅; remote := update_refused; issued := 0; log := [] |}.

(** An environment with the eight required variables and no password. *)
Definition environ_without_password : gmap string string :=
  list_to_map
    [ ("TRINO_HOST", "trino.example.org"); ("TRINO_PORT", "8443");
      ("TRINO_USER", "etl"); ("TRINO_CATALOG", "hive");
      ("TRINO_SCHEMA", "default");
      ("GOOGLE_CLIENT_SECRET_FILE", "client_secret.json");
      ("TOKEN_PATH", "token.json"); ("DRIVE_FOLDER_ID", "folder-1") ].

(** A frame with a timestamp column that has a missing value, an integer
    column, a column of decimals with a NULL, and a float column. *)
Definition mixed_table : DataFrame :=
  {| nrows := 2;
     columns :=
       [ {| name := "ts"; dtype := datetime64_ns;
            cells := [CTimestamp "2024-01-15"; CNaT] |};
         {| name := "n"; dtype := int64; cells := [CInt 1; CInt 2] |};
         {| name := "price"; dtype := object_;
            cells := [CObj "1.50" (Raise (not_serializable "Decimal")); CNone] |};
         {| name := "x"; dtype := float64; cells := [CNaN; CFloat "2.5"] |} ] |}.

(** A timestamp column with a missing value, and an integer column. *)
Definition nullable_dates : DataFrame :=
  {| nrows := 2;
     columns :=
       [ {| name := "ts"; dtype := datetime64_ns;
            cells := [CTimestamp "2024-01-15"; CNaT] |};
         {| name := "n"; dtype := int64; cells := [CInt 1; CInt 2] |} ] |}.

(** ** More readings of frames and logs *)

(** The number of columns of [f] that carry the label [col]. *)
Definition occurrences (col : string) (f : DataFrame) : nat :=
  length (filter (fun s => has_label col s = true) (columns f)).

(** What [df_copy[col].tolist()] raises when [df_copy[col]] is a frame. *)
Definition no_tolist : Exn :=
  PyExc AttributeError "'DataFrame' object has no attribute 'tolist'".

(** The update that an attempt of [move_sheet_to_folder] sends once its
    read was answered with [file]. *)
Definition move_update (file_id folder_id : string) (file : Response)
  : Request :=
  FilesUpdate file_id folder_id
    (String.concat "," (default [] (resp_parents file))) "id, parents".

(** In [evs], an update of the parents of a file comes only right after
    an answered read of the parents of [file_id], and it is the update
    made from that answer. *)
Definition updates_follow_reads (file_id folder_id : string)
    (evs : list Event) : Prop :=
  forall i a b c d out,
    evs !! i = Some (EvCall (FilesUpdate a b c d) out) ->
    exists j file,
      i = S j
      /\ evs !! j = Some (EvCall (FilesGet file_id "parents") (Responds file))
      /\ FilesUpdate a b c d = move_update file_id folder_id file.



(** *** More frames *)

(** A frame in which two columns carry the label [id]. *)
Definition repeated_label : DataFrame :=
  {| nrows := 1;
     columns :=
       [ {| name := "id"; dtype := int64; cells := [CInt 1] |};
         {| name := "name"; dtype := object_; cells := [CStr "a"] |};
         {| name := "id"; dtype := int64; cells := [CInt 2] |} ] |}.

(** A frame with a column of lists, one of which contains itself:
    [json.dumps] raises [ValueError] on it. *)
Definition circular_table : DataFrame :=
  {| nrows := 1;
     columns :=
       [ {| name := "n"; dtype := int64; cells := [CInt 1] |};
         {| name := "tags"; dtype := object_;
            cells := [CObj "[[...]]"
                        (Raise (PyExc ValueError
                                  "Circular reference detected"))] |} ] |}.

(** ** The local side of the workflow

    [read_sql_from_file], [get_google_credentials], [execute_trino_query]
    and [main] read files, run the OAuth flow and query the database.
    They are computations over a world: the machine of the Google calls,
    the environment, the files, and what the libraries and the servers
    behind them do - given, like [remote], as functions that the world
    carries. *)

(** The state of a [google.oauth2.credentials.Credentials] object, as far
    as the script reads it: the attributes [valid], [expired] and
    [refresh_token], the text that [to_json()] gives, and the credentials
    that [build] receives.  (The clock does not move during a call: the
    attributes change by [refresh] only.) *)
Record UserCredentials := mkUserCredentials {
  access : Credentials;
  valid : bool;
  expired : bool;
  refresh_token : option string;
  to_json : string
}.

(** [trino.auth.BasicAuthentication(username, password)] *)
Inductive Auth := BasicAuthentication (username password : option string).

(** The arguments of [trino.dbapi.connect]. *)
Record Connection := mkConnection {
  conn_host : option string;
  conn_port : Z;
  conn_user : option string;
  conn_catalog : option string;
  conn_schema : option string;
  conn_http_scheme : string;
  conn_auth : Auth
}.

(** What the script does outside the Google services, in order. *)
Inductive Action :=
  | ActRefresh (credentials : UserCredentials)
  | ActFlow (client_secret_file : string)
  | ActConnect (conn : Connection)
  | ActQuery (sql_query : string) (conn : Connection)
  | ActClose (conn : Connection).

(** [files] maps a path that exists to what reading it as text gives: the
    text, or the exception of [open] or [read] (a directory, no
    permission, bytes that do not decode).  [write_error path] is what
    [open(path, 'w')] raises, if anything; [write_fault path content] is
    what is raised once the file is open, while [content] is made and
    written and the file closed, if anything, with the number of
    characters of [content] that reached the file.
    [authorized_user text] is
    [Credentials.from_authorized_user_info(json.loads(text), SCOPES)],
    [refreshed c] what [c.refresh(Request())] makes of [c],
    [local_server secret] what the OAuth flow built from the client
    secret file gives, [database conn sql] what [pd.read_sql(sql, conn)]
    gives, [today] the text of
    [datetime.date.today().strftime('%Y-%m-%d')]. *)
Record World := mkWorld {
  machine : Machine;
  environ : gmap string string;
  files : gmap string (Result string);
  write_error : string -> option Exn;
  write_fault : string -> string -> option (Exn * nat);
  authorized_user : string -> Result UserCredentials;
  refreshed : UserCredentials -> Result UserCredentials;
  local_server : string -> Result UserCredentials;
  database : Connection -> string -> Result DataFrame;
  today : string;
  trail : list Action
}.

Definition with_machine (w : World) (m : Machine) : World :=
  {| machine := m; environ := environ w; files := files w;
     write_error := write_error w; write_fault := write_fault w;
     authorized_user := authorized_user w;
     refreshed := refreshed w; local_server := local_server w;
     database := database w; today := today w; trail := trail w |}.

Definition with_files (w : World) (fs : gmap string (Result string)) : World :=
  {| machine := machine w; environ := environ w; files := fs;
     write_error := write_error w; write_fault := write_fault w;
     authorized_user := authorized_user w;
     refreshed := refreshed w; local_server := local_server w;
     database := database w; today := today w; trail := trail w |}.

Definition with_trail (w : World) (acts : list Action) : World :=
  {| machine := machine w; environ := environ w; files := files w;
     write_error := write_error w; write_fault := write_fault w;
     authorized_user := authorized_user w;
     refreshed := refreshed w; local_server := local_server w;
     database := database w; today := today w; trail := acts |}.

Definition W (A : Type) : Type := World -> Result A * World.

#[global] Instance W_ret : MRet W := fun A a w => (Ok a, w).

#[global] Instance W_bind : MBind W := fun A B k c w =>
  match c w with
  | (Ok a, w') => k a w'
  | (Raise e, w') => (Raise e, w')
  end.

Definition throw {A} (e : Exn) : W A := fun w => (Raise e, w).

(** [try: body / except Exception as e: handler e] *)
Definition try_except_Exception {A} (body : W A) (handler : Exn -> W A)
  : W A := fun w =>
  match body w with
  | (Ok a, w') => (Ok a, w')
  | (Raise e, w') => handler e w'
  end.

(** Reading the world, asking one of its libraries, noting an action. *)
Definition ask {A} (g : World -> A) : W A := fun w => (Ok (g w), w).

Definition call {A} (g : World -> Result A) : W A := fun w => (g w, w).

Definition act (a : Action) : W unit := fun w =>
  (Ok tt, with_trail w (trail w ++ [a])).

(** A computation of the Google machine, run in the world. *)
Definition in_machine {A} (c : M A) : W A := fun w =>
  let '(r, m) := c (machine w) in (r, with_machine w m).

(** *** Files *)

Definition no_such_file (path : string) : Exn :=
  PyExc OtherException
        ("[Errno 2] No such file or directory: '" +:+ path +:+ "'").

(** [os.path.exists(path)] *)
Definition path_exists (path : string) : W bool :=
  ask (fun w => bool_decide (is_Some (files w !! path))).

(** [with open(path, 'r') as file: file.read()] *)
Definition read_text (path : string) : W string :=
  call (fun w => match files w !! path with
                 | Some r => r
                 | None => Raise (no_such_file path)
                 end).

(** [with open(path, 'w') as file: file.write(content)].  When [open]
    raises, the files are as they were.  Once [open] has returned, the
    file exists and is empty; an exception raised after that leaves in
    it the part of [content] that was written. *)
Definition write_text (path content : string) : W unit := fun w =>
  match write_error w path with
  | Some e => (Raise e, w)
  | None =>
      match write_fault w path content with
      | Some (e, written) =>
          (Raise e,
           with_files w (<[path := Ok (String.substring 0 written content)]>
                           (files w)))
      | None => (Ok tt, with_files w (<[path := Ok content]> (files w)))
      end
  end.

(** ** [read_sql_from_file] *)

Definition read_sql_from_file (file_path : string) : W string :=
  try_except_Exception (read_text file_path)
    (fun e => throw (PyExc RuntimeError
                       ("Failed to read SQL file " +:+ file_path +:+ ": "
                        +:+ exc_str e))).

(** ** [get_google_credentials] *)

(** [credentials.refresh(Request())] *)
Definition refresh (c : UserCredentials) : W UserCredentials :=
  act (ActRefresh c);; call (fun w => refreshed w c).

(** [InstalledAppFlow.from_client_secrets_file(client_secret_file, SCOPES)]
    followed by [flow.run_local_server(port=0)] *)
Definition run_local_server (client_secret_file : string) : W UserCredentials :=
  act (ActFlow client_secret_file);;
  call (fun w => local_server w client_secret_file).

(** The function keeps [credentials], which is [None] or an object, in
    one variable; the two tests [not credentials or not credentials.valid]
    are written as matches, and the block they share - the OAuth flow and
    the saving of the token - once, as [new_credentials]. *)
Definition get_google_credentials (client_secret_file token_path : string)
  : W UserCredentials :=
  credentials ← (found ← path_exists token_path;
                 if found : bool then
                   try_except_Exception
                     (text ← read_text token_path;
                      c ← call (fun w => authorized_user w text);
                      mret (Some c))
                     (fun _ => mret None)
                 else mret None);
  let new_credentials : W UserCredentials :=
    c ← try_except_Exception (run_local_server client_secret_file)
          (fun e => throw (PyExc RuntimeError
                             ("Failed to authenticate with Google: "
                              +:+ exc_str e)));
    write_text token_path (to_json c);;
    mret c in
  match credentials with
  | None => new_credentials
  | Some c =>
      if valid c then mret c
      else
        credentials ← (if expired c && truthy (refresh_token c)
                       then try_except_Exception
                              (c' ← refresh c; mret (Some c'))
                              (fun _ => mret None)
                       else mret (Some c));
        match credentials with
        | None => new_credentials
        | Some c => if valid c then mret c else new_credentials
        end
  end.

(** ** [execute_trino_query] *)

(** [trino.dbapi.connect(...)] makes the connection object; the query is
    sent by [pd.read_sql], which returns a new frame. *)
Definition connect (conn : Connection) : W Connection :=
  act (ActConnect conn);; mret conn.

Definition pd_read_sql (sql_query : string) (conn : Connection) : W nat :=
  act (ActQuery sql_query conn);;
  f ← call (fun w => database w conn sql_query);
  in_machine (alloc f).

Definition close (conn : Connection) : W unit := act (ActClose conn).

Definition execute_trino_query (config : Config) (sql_query : string) : W nat :=
  try_except_Exception
    (conn ← connect {| conn_host := host (trino config);
                       conn_port := port (trino config);
                       conn_user := user (trino config);
                       conn_catalog := catalog (trino config);
                       conn_schema := schema (trino config);
                       conn_http_scheme := "https";
                       conn_auth := BasicAuthentication
                                      (user (trino config))
                                      (password (trino config)) |};
     df ← pd_read_sql sql_query conn;
     close conn;;
     mret df)
    (fun e => throw (PyExc RuntimeError
                       ("Failed to execute Trino query: " +:+ exc_str e))).

(** ** [main] *)

Definition double_quote : string := String (ascii_of_nat 34) "".

(** The client library drops an argument that is [None] and then finds
    the required parameter missing: building the request raises
    [TypeError]. *)
Definition missing_parameter (parameter : string) : Exn :=
  PyExc TypeError ("Missing required parameter " +:+ double_quote
                   +:+ parameter +:+ double_quote).

(** [write_dataframe_to_sheet(credentials, None, df)]: the request cannot
    be built, inside the [try] of either loop. *)
Definition write_without_id (credentials : Credentials) (df : nat) : M unit :=
  df_prepared ← prepare_dataframe_for_sheets df;
  _ ← deref df_prepared;
  retry_loop "Failed to write data to Google Sheet"
    (build "sheets" "v4" credentials;;
     raise (missing_parameter "spreadsheetId"))
    (py_range 0 MAX_RETRIES 1).

(** The [try] of [main] logs the exception and raises it again: it
    changes no outcome.  The three paths of the configuration are set
    whenever [load_config] returns, so the last branch of the first match
    is never taken; the identifier of the sheet is absent when the answer
    of the service has none, and the write then fails. *)
Definition main : W unit :=
  config ← call (fun w => load_config (environ w));
  sql_query ← read_sql_from_file "trino_MB_query.sql";
  match client_secret_file (google config), token_path (google config),
        drive_folder_id (google config) with
  | Some secret_file, Some token_file, Some folder_id =>
      credentials ← get_google_credentials secret_file token_file;
      df ← execute_trino_query config sql_query;
      today ← ask today;
      let sheet_title := today +:+ "- MB Query Export.csv" in
      spreadsheet_id ←
        in_machine (create_google_sheet (access credentials) sheet_title);
      match spreadsheet_id with
      | Some spreadsheet_id =>
          in_machine (write_dataframe_to_sheet (access credentials)
                        spreadsheet_id df);;
          in_machine (move_sheet_to_folder (access credentials)
                        spreadsheet_id folder_id)
      | None => in_machine (write_without_id (access credentials) df)
      end
  | _, _, _ =>
      throw (PyExc TypeError
               "expected str, bytes or os.PathLike object, not NoneType")
  end.

(** ** Reading the world *)

(** The credentials that the token file holds, when it can be read and
    its text makes credentials. *)
Definition stored_credentials (w : World) (token_path : string)
  : option UserCredentials :=
  match files w !! token_path with
  | Some (Ok text) =>
      match authorized_user w text with
      | Ok c => Some c
      | Raise _ => None
      end
  | _ => None
  end.

(** The world after the actions [acts]. *)
Definition after (w : World) (acts : list Action) : World :=
  with_trail w (trail w ++ acts).

(** The connection that [execute_trino_query] opens for [config]. *)
Definition connection_of (config : Config) : Connection :=
  {| conn_host := host (trino config);
     conn_port := port (trino config);
     conn_user := user (trino config);
     conn_catalog := catalog (trino config);
     conn_schema := schema (trino config);
     conn_http_scheme := "https";
     conn_auth := BasicAuthentication (user (trino config))
                                      (password (trino config)) |}.

(** [f"{today}- MB Query Export.csv"] *)
Definition sheet_title_of (w : World) : string :=
  today w +:+ "- MB Query Export.csv".

(** *** Scenarios of the workflow *)

Definition stored_token : UserCredentials :=
  {| access := mkCredentials "stored"; valid := true; expired := false;
     refresh_token := Some "refresh-1"; to_json := "{stored}" |}.

Definition expired_token : UserCredentials :=
  {| access := mkCredentials "expired"; valid := false; expired := true;
     refresh_token := Some "refresh-1"; to_json := "{expired}" |}.

Definition refreshed_token : UserCredentials :=
  {| access := mkCredentials "refreshed"; valid := true; expired := false;
     refresh_token := Some "refresh-1"; to_json := "{refreshed}" |}.

Definition granted_token : UserCredentials :=
  {| access := mkCredentials "granted"; valid := true; expired := false;
     refresh_token := Some "refresh-2"; to_json := "{granted}" |}.

(** A machine on which a query file and a valid token are stored, the
    database answers every query with a table of two rows and the Google
    services answer every request. *)
Definition office : World :=
  {| machine := {| heap := ∅; remote := fun _ => answers;
                   issued := 0; log := [] |};
     environ := environ_without_password;
     files := {[ "trino_MB_query.sql" := Ok "SELECT n FROM t";
                 "token.json" := Ok "{stored}" ]};
     write_error := fun _ => None;
     write_fault := fun _ _ => None;
     authorized_user := fun text =>
       if bool_decide (text = "{stored}") then Ok stored_token
       else if bool_decide (text = "{expired}") then Ok expired_token
       else Raise (PyExc ValueError "Expecting value");
     refreshed := fun _ => Ok refreshed_token;
     local_server := fun _ => Ok granted_token;
     database := fun _ _ => Ok (int_table 2);
     today := "2024-01-15";
     trail := [] |}.

(** The same machine with an expired token in the token file. *)
Definition office_expired : World :=
  with_files office (<["token.json" := Ok "{expired}"]> (files office)).

(** The same machine without a token file. *)
Definition office_new : World :=
  with_files office (delete "token.json" (files office)).

(** The same machine without a token file, when the user denies the
    access that the OAuth flow asks for. *)
Definition office_denied : World :=
  {| machine := machine office; environ := environ office;
     files := delete "token.json" (files office);
     write_error := write_error office;
     write_fault := write_fault office;
     authorized_user := authorized_user office;
     refreshed := refreshed office;
     local_server := fun _ => Raise (PyExc OtherException "access_denied");
     database := database office; today := today office;
     trail := [] |}.

(** The same machine with an expired token in the token file, when the
    refresh fails and the disk is full: the token file can be opened,
    and nothing can be written to it. *)
Definition office_disk_full : World :=
  {| machine := machine office; environ := environ office;
     files := <["token.json" := Ok "{expired}"]> (files office);
     write_error := write_error office;
     write_fault := fun _ _ =>
       Some (PyExc OtherException "[Errno 28] No space left on device", 0%nat);
     authorized_user := authorized_user office;
     refreshed := fun _ => Raise (PyExc OtherException "invalid_grant");
     local_server := local_server office;
     database := database office; today := today office;
     trail := [] |}.

(** The same machine when the database refuses the query. *)
Definition office_no_table : World :=
  {| machine := machine office; environ := environ office;
     files := files office; write_error := write_error office;
     write_fault := write_fault office;
     authorized_user := authorized_user office;
     refreshed := refreshed office; local_server := local_server office;
     database := fun _ _ => Raise (PyExc OtherException "Table not found");
     today := today office; trail := [] |}.

(** The same machine without a token file, when the database refuses
    the query. *)
Definition office_new_no_table : World :=
  with_files office_no_table (delete "token.json" (files office_no_table)).

(** The same machine when the Sheets service creates the sheet and then
    refuses the write with status 403. *)
Definition office_forbidden : World :=
  with_machine office
    {| heap := ∅;
       remote := fun k => if (k =? 0)%nat then answers
                          else Fails (HttpError 403 "forbidden");
       issued := 0; log := [] |}.

(** The same machine when the Drive service refuses the read of the
    parents of the new sheet with status 404. *)
Definition office_not_found : World :=
  with_machine office
    {| heap := ∅;
       remote := fun k => if (k <? 2)%nat then answers
                          else Fails (HttpError 404 "not found");
       issued := 0; log := [] |}.

(** * Properties *)

(** ** Running the monad *)

Lemma bind_run {A B} (c : M A) (k : A -> M B) (m : Machine) :
  (c ≫= k) m =
  match c m with
  | (Ok a, m') => k a m'
  | (Raise e, m') => (Raise e, m')
  end.
Proof. reflexivity. Qed.

Lemma advance_0 (m : Machine) : advance m 0 [] = m.
Proof.
  destruct m as [h r i l]. unfold advance. simpl.
  rewrite Nat.add_0_r, app_nil_r. reflexivity.
Qed.

Lemma advance_advance (m : Machine) (a b : nat) (e1 e2 : list Event) :
  advance (advance m a e1) b e2 = advance m (a + b) (e1 ++ e2).
Proof.
  unfold advance. simpl. rewrite Nat.add_assoc, app_assoc. reflexivity.
Qed.

Lemma build_run (api version : string) (cr : Credentials) (m : Machine) :
  build api version cr m
  = (Ok (mkService api version cr), advance m 0 [EvBuild api version]).
Proof.
  unfold build, advance. rewrite bind_run. simpl.
  rewrite Nat.add_0_r. reflexivity.
Qed.

Lemma execute_run (svc : Service) (req : Request) (m : Machine) :
  execute svc req m
  = (match remote m (issued m) with
     | Responds r => Ok r
     | Fails e => Raise e
     end,
     advance m 1 [EvCall req (remote m (issued m))]).
Proof.
  unfold execute, advance. rewrite Nat.add_1_r.
  destruct (remote m (issued m)); reflexivity.
Qed.

Lemma sleep_run (s : Z) (m : Machine) :
  sleep s m = (Ok tt, advance m 0 [EvSleep s]).
Proof. unfold sleep, emit, advance. rewrite Nat.add_0_r. reflexivity. Qed.

Lemma py_range_retries : py_range 0 MAX_RETRIES 1 = seqZ 0 5.
Proof. reflexivity. Qed.

(** ** The retry loop, one iteration at a time *)

Section RetryLoop.
Context {A : Type} (what : string) (attempt : M A).

Lemma retry_loop_returns retry rest m a m' :
  attempt m = (Ok a, m') ->
  retry_loop what attempt (retry :: rest) m = (Ok a, m').
Proof. intros H. simpl. rewrite H. reflexivity. Qed.

Lemma retry_loop_again retry rest m e m' :
  attempt m = (Raise e, m') ->
  retryable e = true ->
  retry < MAX_RETRIES - 1 ->
  retry_loop what attempt (retry :: rest) m
  = retry_loop what attempt rest
      (advance m' 0 [EvSleep (INITIAL_RETRY_DELAY * 2 ^ retry)]).
Proof.
  intros H Hr Hlt. simpl. rewrite H.
  destruct e as [status text|]; [|discriminate Hr]. simpl in Hr.
  rewrite Hr. simpl.
  destruct (Z.leb_spec (MAX_RETRIES - 1) retry) as [Hle|_]; [lia|]. simpl.
  rewrite bind_run, sleep_run. reflexivity.
Qed.

Lemma retry_loop_raises retry rest m e m' :
  attempt m = (Raise e, m') ->
  retryable e = false \/ MAX_RETRIES - 1 <= retry ->
  retry_loop what attempt (retry :: rest) m
  = (Raise (PyExc RuntimeError (what +:+ ": " +:+ exc_str e)), m').
Proof.
  intros H Hc. simpl. rewrite H.
  destruct e as [status text|cls text]; [|reflexivity].
  simpl in Hc. simpl exc_str.
  destruct Hc as [Hr|Hle].
  - rewrite Hr. rewrite orb_true_r. reflexivity.
  - destruct (Z.leb_spec (MAX_RETRIES - 1) retry) as [_|Hlt]; [|lia].
    reflexivity.
Qed.
End RetryLoop.

(** ** Reading logs *)

Lemma sleeps_app (e1 e2 : list Event) : sleeps (e1 ++ e2) = sleeps e1 ++ sleeps e2.
Proof. apply omap_app. Qed.

Lemma requests_app (e1 e2 : list Event) :
  requests (e1 ++ e2) = requests e1 ++ requests e2.
Proof. apply omap_app. Qed.

Lemma attempts_app (e1 e2 : list Event) :
  attempts (e1 ++ e2) = (attempts e1 + attempts e2)%nat.
Proof. unfold attempts. rewrite omap_app, length_app. reflexivity. Qed.

Lemma backoff_trace_sleeps (failed : Exn -> list Event) (errs : list Exn) :
  (forall e, sleeps (failed e) = []) ->
  forall retry,
    sleeps (backoff_trace failed retry errs)
    = map (fun k => INITIAL_RETRY_DELAY * 2 ^ k) (seqZ retry (len errs)).
Proof.
  intros Hf. induction errs as [|e errs IH]; intros retry; [reflexivity|].
  cbn [backoff_trace]. rewrite !sleeps_app, Hf, IH. unfold len. cbn [length].
  rewrite (seqZ_cons retry) by lia. cbn [map sleeps omap app].
  do 3 f_equal; lia.
Qed.

Lemma backoff_trace_requests (failed : Exn -> list Event) (req : Request)
    (errs : list Exn) :
  (forall e, requests (failed e) = [req]) ->
  forall retry,
    requests (backoff_trace failed retry errs) = replicate (length errs) req.
Proof.
  intros Hf. induction errs as [|e errs IH]; intros retry; [reflexivity|].
  cbn [backoff_trace]. rewrite !requests_app, Hf, IH. reflexivity.
Qed.

Lemma backoff_trace_attempts (failed : Exn -> list Event) (errs : list Exn) :
  (forall e, attempts (failed e) = 1%nat) ->
  forall retry,
    attempts (backoff_trace failed retry errs) = length errs.
Proof.
  intros Hf. induction errs as [|e errs IH]; intros retry; [reflexivity|].
  cbn [backoff_trace]. rewrite !attempts_app, Hf, IH. reflexivity.
Qed.

(** ** Loops whose attempt sends one request *)

Section SingleRequest.
Context {A : Type} (what : string) (attempt : M A).
Context (value : Response -> A) (trace : Outcome -> list Event).
Hypothesis attempt_run : forall m,
  attempt m
  = (match remote m (issued m) with
     | Responds r => Ok (value r)
     | Fails e => Raise e
     end,
     advance m 1 (trace (remote m (issued m)))).

Lemma fails_with_tail m e errs evs :
  fails_with m (e :: errs) ->
  remote m (issued m) = Fails e /\ fails_with (advance m 1 evs) errs.
Proof.
  intros H. split.
  - specialize (H 0%nat e eq_refl). rewrite Nat.add_0_r in H. exact H.
  - intros i e' Hi. specialize (H (S i) e' Hi). simpl.
    replace (issued m + 1 + i)%nat with (issued m + S i)%nat by lia. exact H.
Qed.

Lemma single_loop_succeeds errs : forall k m r,
  0 <= k -> k + len errs < MAX_RETRIES ->
  Forall (fun e => retryable e = true) errs ->
  fails_with m errs ->
  remote m (issued m + length errs)%nat = Responds r ->
  retry_loop what attempt (seqZ k (MAX_RETRIES - k)) m
  = (Ok (value r),
     advance m (S (length errs))
       (backoff_trace (fun e => trace (Fails e)) k errs ++ trace (Responds r))).
Proof.
  unfold MAX_RETRIES, len.
  induction errs as [|e errs IH]; intros k m r Hk Hlen Hre Hf Hok.
  - simpl in *. rewrite Nat.add_0_r in Hok.
    rewrite seqZ_cons by lia.
    erewrite retry_loop_returns; [reflexivity|].
    rewrite attempt_run, Hok. reflexivity.
  - cbn [length] in *. inversion Hre as [|? ? He Hre']; subst.
    destruct (fails_with_tail m e errs
                (trace (Fails e) ++ [EvSleep (INITIAL_RETRY_DELAY * 2 ^ k)]) Hf)
      as [Hnow Hlater].
    rewrite seqZ_cons by lia.
    erewrite retry_loop_again;
      [ | rewrite attempt_run, Hnow; reflexivity | exact He
        | unfold MAX_RETRIES; lia ].
    rewrite advance_advance. simpl Nat.add.
    replace (Z.pred (5 - k)) with (5 - Z.succ k) by lia.
    rewrite (IH (Z.succ k) _ r); [ | lia | lia | exact Hre' | exact Hlater | ].
    + rewrite advance_advance. cbn [backoff_trace].
      replace (k + 1) with (Z.succ k) by lia.
      rewrite <- !app_assoc. reflexivity.
    + simpl. rewrite <- Hok. f_equal. lia.
Qed.

Lemma single_loop_fails errs : forall k m e,
  0 <= k -> k + len errs < MAX_RETRIES ->
  Forall (fun e => retryable e = true) errs ->
  fails_with m errs ->
  remote m (issued m + length errs)%nat = Fails e ->
  retryable e = false \/ k + len errs = MAX_RETRIES - 1 ->
  retry_loop what attempt (seqZ k (MAX_RETRIES - k)) m
  = (Raise (PyExc RuntimeError (what +:+ ": " +:+ exc_str e)),
     advance m (S (length errs))
       (backoff_trace (fun e => trace (Fails e)) k errs ++ trace (Fails e))).
Proof.
  unfold MAX_RETRIES, len.
  induction errs as [|e0 errs IH]; intros k m e Hk Hlen Hre Hf Hbad Hstop.
  - simpl in *. rewrite Nat.add_0_r in Hbad.
    rewrite seqZ_cons by lia.
    erewrite retry_loop_raises;
      [reflexivity | rewrite attempt_run, Hbad; reflexivity | ].
    unfold MAX_RETRIES. destruct Hstop; [left; assumption | right; lia].
  - cbn [length] in *. inversion Hre as [|? ? He Hre']; subst.
    destruct (fails_with_tail m e0 errs
                (trace (Fails e0) ++ [EvSleep (INITIAL_RETRY_DELAY * 2 ^ k)]) Hf)
      as [Hnow Hlater].
    rewrite seqZ_cons by lia.
    erewrite retry_loop_again;
      [ | rewrite attempt_run, Hnow; reflexivity | exact He
        | unfold MAX_RETRIES; lia ].
    rewrite advance_advance. simpl Nat.add.
    replace (Z.pred (5 - k)) with (5 - Z.succ k) by lia.
    rewrite (IH (Z.succ k) _ e); [ | lia | lia | exact Hre' | exact Hlater | | ].
    + rewrite advance_advance. cbn [backoff_trace].
      replace (k + 1) with (Z.succ k) by lia.
      rewrite <- !app_assoc. reflexivity.
    + simpl. rewrite <- Hbad. f_equal. lia.
    + destruct Hstop; [left; assumption | right; lia].
Qed.
End SingleRequest.

Lemma create_attempt_run (cr : Credentials) (title : string) (m : Machine) :
  (sheets_service ← build "sheets" "v4" cr;
   response ← execute sheets_service (SpreadsheetsCreate title "spreadsheetId");
   mret (resp_spreadsheetId response)) m
  = (match remote m (issued m) with
     | Responds r => Ok (resp_spreadsheetId r)
     | Fails e => Raise e
     end,
     advance m 1 (create_attempt title (remote m (issued m)))).
Proof.
  rewrite bind_run, build_run, bind_run, execute_run. simpl.
  rewrite advance_advance, Nat.add_0_r. unfold create_attempt, create_request.
  simpl. destruct (remote m (issued m)); reflexivity.
Qed.

(** ** Sheet creation under transient and permanent failures *)

Lemma create_attempt_attempts title out :
  attempts (create_attempt title out) = 1%nat.
Proof. reflexivity. Qed.

Lemma replicate_snoc {A} (n : nat) (x : A) :
  replicate n x ++ [x] = replicate (S n) x.
Proof. induction n as [|n IH]; [reflexivity|]. simpl. rewrite IH. reflexivity. Qed.

(** C3: when the service fails [n < 5] times with a retryable HttpError
    (status 429, 500, 502, 503 or 504) and then answers,
    [create_google_sheet] returns the value of that answer and raises
    nothing; it has sent [n + 1] requests and waited
    [INITIAL_RETRY_DELAY * 2^k] after the failure of attempt [k], for
    [k = 0 .. n-1] - the waits 1, 2, 4, 8 when [n = 4]. *)
Theorem create_google_sheet_retries_then_returns :
  forall (cr : Credentials) (title : string) (m : Machine)
         (errs : list Exn) (r : Response),
    len errs < MAX_RETRIES ->
    Forall (fun e => retryable e = true) errs ->
    fails_with m errs ->
    remote m (issued m + length errs)%nat = Responds r ->
    exists evs,
      create_google_sheet cr title m
      = (Ok (resp_spreadsheetId r), advance m (S (length errs)) evs)
      /\ evs = backoff_trace (fun e => create_attempt title (Fails e)) 0 errs
               ++ create_attempt title (Responds r)
      /\ sleeps evs
         = map (fun k => INITIAL_RETRY_DELAY * 2 ^ k) (seqZ 0 (len errs))
      /\ requests evs = replicate (S (length errs)) (create_request title)
      /\ (len errs = 4 -> sleeps evs = [1; 2; 4; 8]).
Proof.
  intros cr title m errs r Hlen Hre Hf Hok.
  eexists. split; [|split; [reflexivity|]].
  - unfold create_google_sheet. rewrite py_range_retries.
    change (seqZ 0 5) with (seqZ 0 (MAX_RETRIES - 0)).
    apply (single_loop_succeeds _ _ resp_spreadsheetId (create_attempt title)
             (create_attempt_run cr title) errs 0 m r); auto; lia.
  - assert (Hs : sleeps
             (backoff_trace (fun e => create_attempt title (Fails e)) 0 errs
              ++ create_attempt title (Responds r))
             = map (fun k => INITIAL_RETRY_DELAY * 2 ^ k) (seqZ 0 (len errs))).
    { rewrite sleeps_app, backoff_trace_sleeps by (intros; reflexivity).
      simpl. apply app_nil_r. }
    split; [exact Hs|]. split.
    + rewrite requests_app,
        (backoff_trace_requests _ (create_request title)) by (intros; reflexivity).
      simpl. apply replicate_snoc.
    + intros H4. rewrite Hs, H4. reflexivity.
Qed.

Ltac finite_lookup :=
  intros i e Hi; cbn in Hi;
  repeat first
    [ discriminate Hi
    | destruct i as [|i]; cbn in Hi; [inversion Hi; subst; reflexivity|] ].

Lemma create_google_sheet_retries_then_returns_witness :
  exists evs,
    create_google_sheet (mkCredentials "tok") "export" rate_limited_four_times
    = (Ok (Some "sheet-1"), advance rate_limited_four_times 5 evs)
    /\ sleeps evs = [1; 2; 4; 8].
Proof.
  destruct (create_google_sheet_retries_then_returns
              (mkCredentials "tok") "export" rate_limited_four_times
              (replicate 4 (HttpError 429 "rate limit"))
              {| resp_spreadsheetId := Some "sheet-1"; resp_parents := None |})
    as (evs & Hrun & _ & _ & _ & H4).
  - reflexivity.
  - repeat constructor.
  - finite_lookup.
  - reflexivity.
  - exists evs. split; [exact Hrun | apply H4; reflexivity].
Defined.

(** C4: a failure that is not retryable (an HttpError whose status is not
    429/500/502/503/504, or any other exception) ends the call at once:
    [create_google_sheet] raises [RuntimeError] with the operation and the
    text of the cause, and tries no more.  When the failure is the first
    one ([errs] empty) exactly one request was sent and nothing was waited
    for.  The same wrapped failure is raised when the fifth attempt fails,
    whatever its error: the loop never returns a value then. *)
Theorem create_google_sheet_raises_wrapped :
  forall (cr : Credentials) (title : string) (m : Machine)
         (errs : list Exn) (e : Exn),
    len errs < MAX_RETRIES ->
    Forall (fun e => retryable e = true) errs ->
    fails_with m errs ->
    remote m (issued m + length errs)%nat = Fails e ->
    retryable e = false \/ len errs = MAX_RETRIES - 1 ->
    exists evs,
      create_google_sheet cr title m
      = (Raise (PyExc RuntimeError
                  ("Failed to create Google Sheet: " +:+ exc_str e)),
         advance m (S (length errs)) evs)
      /\ evs = backoff_trace (fun e => create_attempt title (Fails e)) 0 errs
               ++ create_attempt title (Fails e)
      /\ attempts evs = S (length errs)
      /\ requests evs = replicate (S (length errs)) (create_request title)
      /\ sleeps evs
         = map (fun k => INITIAL_RETRY_DELAY * 2 ^ k) (seqZ 0 (len errs))
      /\ (errs = [] -> requests evs = [create_request title] /\ sleeps evs = []).
Proof.
  intros cr title m errs e Hlen Hre Hf Hbad Hstop.
  eexists. split; [|split; [reflexivity|]].
  - unfold create_google_sheet. rewrite py_range_retries.
    change (seqZ 0 5) with (seqZ 0 (MAX_RETRIES - 0)).
    rewrite (single_loop_fails "Failed to create Google Sheet" _
               resp_spreadsheetId (create_attempt title)
               (create_attempt_run cr title) errs 0 m e);
      [reflexivity | lia | exact Hlen | assumption | assumption | assumption | ].
    destruct Hstop as [Hn|Hl]; [left; exact Hn | right; exact Hl].
  - split; [|split; [|split]].
    + rewrite attempts_app, backoff_trace_attempts by (intros; reflexivity).
      rewrite create_attempt_attempts. lia.
    + rewrite requests_app,
        (backoff_trace_requests _ (create_request title)) by (intros; reflexivity).
      simpl. apply replicate_snoc.
    + rewrite sleeps_app, backoff_trace_sleeps by (intros; reflexivity).
      simpl. apply app_nil_r.
    + intros ->. split; reflexivity.
Qed.

Lemma create_google_sheet_raises_wrapped_witness :
  exists evs,
    create_google_sheet (mkCredentials "tok") "export" not_found_at_once
    = (Raise (PyExc RuntimeError "Failed to create Google Sheet: not found"),
       advance not_found_at_once 1 evs)
    /\ requests evs = [create_request "export"] /\ sleeps evs = [].
Proof.
  destruct (create_google_sheet_raises_wrapped
              (mkCredentials "tok") "export" not_found_at_once []
              (HttpError 404 "not found"))
    as (evs & Hrun & _ & _ & _ & _ & H1).
  - reflexivity.
  - constructor.
  - finite_lookup.
  - reflexivity.
  - left. reflexivity.
  - exists evs. split; [exact Hrun | apply H1; reflexivity].
Defined.

(** ** The attempt budget of a retry loop *)

Lemma effects_of_refl m : effects_of m m [].
Proof.
  unfold effects_of. rewrite app_nil_r. simpl. rewrite Nat.add_0_r. auto.
Qed.

Lemma effects_of_trans m1 m2 m3 e1 e2 :
  effects_of m1 m2 e1 -> effects_of m2 m3 e2 -> effects_of m1 m3 (e1 ++ e2).
Proof.
  unfold effects_of. intros (L1 & I1 & R1) (L2 & I2 & R2).
  rewrite L2, L1, I2, I1, R2, R1, requests_app, length_app, app_assoc.
  split; [reflexivity|]. split; [lia | reflexivity].
Qed.

Lemma effects_of_advance m evs :
  effects_of m (advance m (length (requests evs)) evs) evs.
Proof. unfold effects_of, advance. simpl. auto. Qed.

Lemma prefix_total_wait evs :
  sleeps evs `prefix_of` [1; 2; 4; 8] -> total_wait evs <= 15.
Proof.
  unfold total_wait. intros [rest Hrest].
  destruct (sleeps evs) as [|a [|b [|c [|d [|x l]]]]]; simpl in *;
    inversion Hrest; subst; simpl; lia.
Qed.

Section Budget.
Context {A : Type} (what : string) (attempt : M A) (c : nat).
Hypothesis attempt_effects : forall m,
  exists evs,
    effects_of m (attempt m).2 evs
    /\ attempts evs = 1%nat
    /\ (length (requests evs) <= c)%nat
    /\ sleeps evs = [].

Lemma retry_loop_budget (n : nat) : forall k m,
  0 <= k -> k + Z.of_nat n = MAX_RETRIES ->
  exists evs,
    effects_of m (retry_loop what attempt (seqZ k (Z.of_nat n)) m).2 evs
    /\ (attempts evs <= n)%nat
    /\ (length (requests evs) <= c * n)%nat
    /\ sleeps evs
       `prefix_of` map (fun j => INITIAL_RETRY_DELAY * 2 ^ j)
                       (seqZ k (MAX_RETRIES - 1 - k)).
Proof.
  unfold MAX_RETRIES.
  induction n as [|n IH]; intros k m Hk Hkn.
  - exists []. simpl. split; [apply effects_of_refl|].
    split; [unfold attempts; simpl; lia|].
    split; [unfold requests; simpl; lia|]. apply prefix_nil.
  - rewrite seqZ_cons by lia. cbn [retry_loop].
    destruct (attempt_effects m) as (evs & Heff & Hatt & Hreq & Hsl).
    destruct (attempt m) as [[a|e] m'] eqn:E; simpl in Heff.
    + exists evs. split; [exact Heff|]. rewrite Hsl.
      split; [lia|]. split; [lia|]. apply prefix_nil.
    + assert (Hstop : forall e',
                exists evs0,
                  effects_of m (@raise A e' m').2 evs0
                  /\ (attempts evs0 <= S n)%nat
                  /\ (length (requests evs0) <= c * S n)%nat
                  /\ sleeps evs0
                     `prefix_of` map (fun j => INITIAL_RETRY_DELAY * 2 ^ j)
                                     (seqZ k (5 - 1 - k))).
      { intros e'. exists evs. split; [exact Heff|]. rewrite Hsl.
        split; [lia|]. split; [lia|]. apply prefix_nil. }
      destruct e as [status text|cls text]; [|apply Hstop].
      destruct ((MAX_RETRIES - 1 <=? k)
                || negb (status_in status retryable_statuses)) eqn:Hc;
        [apply Hstop|].
      apply orb_false_iff in Hc. destruct Hc as [Hc _].
      apply Z.leb_gt in Hc. unfold MAX_RETRIES in Hc.
      rewrite bind_run, sleep_run.
      replace (Z.pred (Z.of_nat (S n))) with (Z.of_nat n) by lia.
      destruct (IH (Z.succ k)
                  (advance m' 0 [EvSleep (INITIAL_RETRY_DELAY * 2 ^ k)]))
        as (evs' & Heff' & Hatt' & Hreq' & Hsl'); [lia | lia |].
      exists (evs ++ [EvSleep (INITIAL_RETRY_DELAY * 2 ^ k)] ++ evs').
      split.
      { eapply effects_of_trans; [exact Heff|].
        eapply effects_of_trans; [|exact Heff'].
        apply (effects_of_advance m' [EvSleep (INITIAL_RETRY_DELAY * 2 ^ k)]). }
      rewrite !attempts_app, !requests_app, !length_app, !sleeps_app, Hsl.
      change (attempts [EvSleep (INITIAL_RETRY_DELAY * 2 ^ k)]) with 0%nat.
      change (requests [EvSleep (INITIAL_RETRY_DELAY * 2 ^ k)]) with (@nil Request).
      change (sleeps [EvSleep (INITIAL_RETRY_DELAY * 2 ^ k)])
        with [INITIAL_RETRY_DELAY * 2 ^ k].
      split; [simpl; lia|]. split; [simpl; lia|].
      rewrite (seqZ_cons k) by lia. simpl.
      apply (prefix_cons (INITIAL_RETRY_DELAY * 2 ^ k)).
      replace (Z.pred (5 - 1 - k)) with (5 - 1 - Z.succ k) by lia.
      exact Hsl'.
Qed.

Lemma retry_loop_within_budget m :
  exists evs,
    effects_of m (retry_loop what attempt (py_range 0 MAX_RETRIES 1) m).2 evs
    /\ (attempts evs <= 5)%nat
    /\ (length (requests evs) <= c * 5)%nat
    /\ sleeps evs `prefix_of` [1; 2; 4; 8]
    /\ total_wait evs <= 15.
Proof.
  destruct (retry_loop_budget 5 0 m) as (evs & He & Ha & Hr & Hs);
    [lia | reflexivity |].
  exists evs. rewrite py_range_retries.
  split; [exact He|]. split; [exact Ha|]. split; [lia|].
  split; [exact Hs|]. apply prefix_total_wait. exact Hs.
Qed.
End Budget.

(** ** Batches *)

Lemma concat_chunks {A} (B : nat) (l : list A) (n : nat) :
  concat (map (fun k => take B (drop (k * B) l)) (seq 0 n)) = take (n * B) l.
Proof.
  induction n as [|n IH]; [reflexivity|].
  rewrite seq_S, map_app, concat_app, IH. simpl.
  rewrite app_nil_r, take_take_drop. f_equal. lia.
Qed.

Lemma ceil_div_alt (a b : Z) : 0 < b -> ceil_div a b = (a + b - 1) / b.
Proof.
  intros Hb. unfold ceil_div.
  pose proof (Z.div_mod (a + b - 1) b ltac:(lia)) as Hdm.
  pose proof (Z.mod_pos_bound (a + b - 1) b Hb) as Hr.
  set (q := (a + b - 1) / b) in *. set (r := (a + b - 1) mod b) in *.
  rewrite <- (Z.div_unique (- a) b (- q) (b - 1 - r)); lia.
Qed.

Lemma ceil_div_covers (a b : Z) : 0 < b -> a <= b * ceil_div a b < a + b.
Proof.
  intros Hb. rewrite ceil_div_alt by exact Hb.
  pose proof (Z.div_mod (a + b - 1) b ltac:(lia)) as Hdm.
  pose proof (Z.mod_pos_bound (a + b - 1) b Hb) as Hr. lia.
Qed.

Lemma batch_rows_Z : Z.of_nat batch_rows = BATCH_SIZE.
Proof. reflexivity. Qed.

Lemma make_batches_chunks (values : list Row) :
  make_batches values
  = map (fun k => take batch_rows (drop (k * batch_rows) values))
        (seq 0 (batch_count values)).
Proof.
  unfold make_batches, py_range, batch_count.
  rewrite ceil_div_alt by reflexivity.
  replace (len values - 0 + BATCH_SIZE - 1) with (len values + BATCH_SIZE - 1)
    by lia.
  rewrite map_map. apply map_ext. intros k. unfold py_slice.
  pose proof batch_rows_Z as HB.
  f_equal; [|f_equal]; lia.
Qed.

Lemma length_make_batches (values : list Row) :
  len (make_batches values) = ceil_div (len values) BATCH_SIZE.
Proof.
  rewrite make_batches_chunks. unfold len.
  rewrite length_map, length_seq. unfold batch_count.
  pose proof (ceil_div_covers (len values) BATCH_SIZE ltac:(reflexivity)).
  unfold len, BATCH_SIZE in *. lia.
Qed.

Lemma concat_make_batches (values : list Row) :
  concat (make_batches values) = values.
Proof.
  rewrite make_batches_chunks, concat_chunks. apply take_ge.
  unfold batch_count.
  pose proof (ceil_div_covers (len values) BATCH_SIZE ltac:(reflexivity)).
  pose proof batch_rows_Z. unfold len, BATCH_SIZE in *. lia.
Qed.

Lemma make_batches_lookup (values : list Row) (k : nat) :
  (k < batch_count values)%nat ->
  make_batches values !! k
  = Some (take batch_rows (drop (k * batch_rows) values)).
Proof.
  intros Hk. rewrite make_batches_chunks, list_lookup_fmap.
  rewrite lookup_seq_lt by exact Hk. reflexivity.
Qed.

(** ** One pass over the batches *)

Lemma write_batch_run svc sid ib m :
  write_batch svc sid ib m
  = (match remote m (issued m) with
     | Responds _ => Ok tt
     | Fails e => Raise e
     end,
     advance m 1 [EvCall (batch_request sid ib) (remote m (issued m))]).
Proof.
  destruct ib as [i batch]. unfold write_batch, batch_request. simpl.
  destruct (i =? 0); rewrite bind_run, execute_run;
    destruct (remote m (issued m)); reflexivity.
Qed.

Lemma batch_events_cons sid rem start ib ibs :
  batch_events sid rem start (ib :: ibs)
  = EvCall (batch_request sid ib) (rem start)
    :: batch_events sid rem (S start) ibs.
Proof.
  unfold batch_events. rewrite imap_cons, Nat.add_0_r. f_equal.
  apply imap_ext. intros j x _. simpl. do 2 f_equal. lia.
Qed.

Lemma batch_events_requests sid rem start ibs :
  requests (batch_events sid rem start ibs) = map (batch_request sid) ibs.
Proof.
  revert start. induction ibs as [|ib ibs IH]; intros start; [reflexivity|].
  rewrite batch_events_cons. unfold requests in *. simpl. f_equal. apply IH.
Qed.

Lemma batch_events_sleeps sid rem start ibs :
  sleeps (batch_events sid rem start ibs) = [].
Proof.
  revert start. induction ibs as [|ib ibs IH]; intros start; [reflexivity|].
  rewrite batch_events_cons. apply IH.
Qed.

Lemma batch_events_attempts sid rem start ibs :
  attempts (batch_events sid rem start ibs) = 0%nat.
Proof.
  revert start. induction ibs as [|ib ibs IH]; intros start; [reflexivity|].
  rewrite batch_events_cons. apply IH.
Qed.

Lemma for_each_batches_ok svc sid ibs : forall m,
  (forall j, (j < length ibs)%nat ->
             exists r, remote m (issued m + j)%nat = Responds r) ->
  for_each ibs (write_batch svc sid) m
  = (Ok tt,
     advance m (length ibs) (batch_events sid (remote m) (issued m) ibs)).
Proof.
  induction ibs as [|ib ibs IH]; intros m Hok.
  - simpl. rewrite advance_0. reflexivity.
  - cbn [for_each]. rewrite bind_run, write_batch_run.
    destruct (Hok 0%nat ltac:(simpl; lia)) as [r Hr].
    rewrite Nat.add_0_r in Hr. rewrite Hr.
    rewrite IH.
    + rewrite advance_advance, batch_events_cons, Hr. simpl.
      rewrite Nat.add_1_r. reflexivity.
    + intros j Hj. simpl.
      destruct (Hok (S j) ltac:(simpl; lia)) as [r' Hr'].
      exists r'. rewrite <- Hr'. f_equal. lia.
Qed.

Lemma for_each_batches_fail svc sid ibs : forall m k e,
  (k < length ibs)%nat ->
  (forall j, (j < k)%nat ->
             exists r, remote m (issued m + j)%nat = Responds r) ->
  remote m (issued m + k)%nat = Fails e ->
  for_each ibs (write_batch svc sid) m
  = (Raise e,
     advance m (S k)
       (batch_events sid (remote m) (issued m) (take (S k) ibs))).
Proof.
  induction ibs as [|ib ibs IH]; intros m k e Hk Hok Hbad;
    [simpl in Hk; lia|].
  cbn [for_each]. rewrite bind_run, write_batch_run.
  destruct k as [|k].
  - rewrite Nat.add_0_r in Hbad. rewrite Hbad. simpl take. rewrite take_0.
    rewrite batch_events_cons, Hbad. reflexivity.
  - destruct (Hok 0%nat ltac:(lia)) as [r Hr].
    rewrite Nat.add_0_r in Hr. rewrite Hr.
    rewrite (IH _ k e).
    + rewrite advance_advance. simpl take.
      rewrite batch_events_cons, Hr. simpl.
      rewrite Nat.add_1_r. reflexivity.
    + simpl in Hk. lia.
    + intros j Hj. simpl.
      destruct (Hok (S j) ltac:(lia)) as [r' Hr'].
      exists r'. rewrite <- Hr'. f_equal. lia.
    + simpl. rewrite <- Hbad. f_equal. lia.
Qed.

Lemma for_each_batches_effects svc sid ibs : forall m,
  exists evs,
    effects_of m (for_each ibs (write_batch svc sid) m).2 evs
    /\ attempts evs = 0%nat
    /\ (length (requests evs) <= length ibs)%nat
    /\ sleeps evs = [].
Proof.
  induction ibs as [|ib ibs IH]; intros m.
  - exists []. split; [apply effects_of_refl|]. simpl. auto.
  - cbn [for_each]. rewrite bind_run, write_batch_run.
    set (ev := EvCall (batch_request sid ib) (remote m (issued m))).
    assert (H1 : effects_of m (advance m 1 [ev]) [ev])
      by apply (effects_of_advance m [ev]).
    destruct (remote m (issued m)) as [r|e].
    + destruct (IH (advance m 1 [ev])) as (evs & He & Ha & Hr & Hs).
      exists ([ev] ++ evs). split; [eapply effects_of_trans; eassumption|].
      rewrite attempts_app, requests_app, length_app, sleeps_app, Ha, Hs.
      split; [reflexivity|]. split; [simpl; lia | reflexivity].
    + exists [ev]. split; [exact H1|].
      split; [reflexivity|]. split; [simpl; lia | reflexivity].
Qed.

(** ** What [prepare_dataframe_for_sheets] leaves alone *)

Lemma extends_refl m : extends m m.
Proof. unfold extends. auto. Qed.

Section Keeps.
Context (m0 : Machine).

Lemma keeps_ret {A} (a : A) (Q : A -> Prop) : Q a -> keeps m0 (mret a) Q.
Proof. intros HQ m Hm. split; [exact Hm|]. intros a' [= <-]. exact HQ. Qed.

Lemma keeps_lift {A} (r : Result A) : keeps m0 (lift r) (fun _ => True).
Proof. intros m Hm. split; [exact Hm | auto]. Qed.

Lemma keeps_bind {A B} (c : M A) (k : A -> M B) Q R :
  keeps m0 c Q -> (forall a, Q a -> keeps m0 (k a) R) ->
  keeps m0 (c ≫= k) R.
Proof.
  intros Hc Hk m Hm. rewrite bind_run.
  destruct (Hc m Hm) as [Hext HQ].
  destruct (c m) as [[a|e] m']; simpl in *.
  - apply (Hk a (HQ a eq_refl) m' Hext).
  - split; [exact Hext | discriminate].
Qed.

Lemma keeps_deref d : keeps m0 (deref d) (fun _ => True).
Proof.
  intros m Hm. unfold deref. destruct (heap m !! d); simpl; auto.
Qed.

Lemma keeps_alloc f : keeps m0 (alloc f) (owned m0).
Proof.
  intros m (Hh & Hr & Hi & Hl). unfold alloc. simpl.
  assert (Hfresh : heap m !! fresh (dom (heap m)) = None)
    by (apply not_elem_of_dom, is_fresh).
  split.
  - split; [|auto]. simpl.
    etransitivity; [exact Hh|]. apply insert_subseteq. exact Hfresh.
  - intros a [= <-]. unfold owned.
    eapply lookup_weaken_None; eassumption.
Qed.

Lemma keeps_store d f : owned m0 d -> keeps m0 (store d f) (fun _ => True).
Proof.
  intros Hd m (Hh & Hr & Hi & Hl). unfold store. simpl.
  split; [|auto]. split; [|auto]. simpl.
  apply insert_subseteq_r; assumption.
Qed.

Lemma keeps_try {A} (body : M A) catches (handler : Exn -> M A) Q :
  keeps m0 body Q -> (forall e, keeps m0 (handler e) Q) ->
  keeps m0 (try_except body catches handler) Q.
Proof.
  intros Hb Hh m Hm. unfold try_except.
  destruct (Hb m Hm) as [Hext HQ].
  destruct (body m) as [[a|e] m']; simpl in *.
  - split; [exact Hext | exact HQ].
  - destruct (catches e).
    + apply (Hh e m' Hext).
    + split; [exact Hext | discriminate].
Qed.

Lemma keeps_for_each {A} (l : list A) (body : A -> M unit) :
  (forall x, keeps m0 (body x) (fun _ => True)) ->
  keeps m0 (for_each l body) (fun _ => True).
Proof.
  intros Hb. induction l as [|x l IH]; simpl.
  - apply keeps_ret. exact I.
  - eapply keeps_bind; [apply Hb|]. intros _ _. exact IH.
Qed.

Lemma keeps_column_to_str d col :
  owned m0 d -> keeps m0 (column_to_str d col) (fun _ => True).
Proof.
  intros Hd. unfold column_to_str, df_getitem, df_setitem.
  eapply keeps_bind.
  - eapply keeps_bind; [apply keeps_deref|]. intros f _. apply keeps_lift.
  - intros it _. eapply keeps_bind; [apply keeps_deref|].
    intros f _. apply keeps_store, Hd.
Qed.

Lemma keeps_frame_map g d : keeps m0 (frame_map g d) (owned m0).
Proof.
  unfold frame_map. eapply keeps_bind; [apply keeps_deref|].
  intros f _. apply keeps_alloc.
Qed.

Lemma keeps_labels {A} (g : DataFrame -> A) d :
  keeps m0 (f ← deref d; mret (g f)) (fun _ => True).
Proof.
  eapply keeps_bind; [apply keeps_deref|]. intros f _.
  apply keeps_ret. exact I.
Qed.

Lemma keeps_prepare df :
  keeps m0 (prepare_dataframe_for_sheets df) (owned m0).
Proof.
  unfold prepare_dataframe_for_sheets, copy_deep.
  eapply keeps_bind.
  { eapply keeps_bind; [apply keeps_deref|]. intros f _. apply keeps_alloc. }
  intros d1 Hd1.
  eapply keeps_bind; [apply keeps_labels|]. intros date_cols _.
  eapply keeps_bind.
  { apply keeps_for_each. intros col. apply keeps_column_to_str, Hd1. }
  intros _ _.
  eapply keeps_bind; [apply keeps_frame_map|]. intros d2 Hd2.
  eapply keeps_bind; [apply keeps_frame_map|]. intros d3 Hd3.
  eapply keeps_bind; [apply keeps_labels|]. intros cols _.
  eapply keeps_bind.
  { apply keeps_for_each. intros col. apply keeps_try.
    - unfold dumps_column, df_getitem.
      eapply keeps_bind.
      { eapply keeps_bind; [apply keeps_deref|]. intros f _. apply keeps_lift. }
      intros it _. eapply keeps_bind; [apply keeps_lift|]. intros l _.
      eapply keeps_bind; [apply keeps_lift|]. intros j _.
      apply keeps_ret. exact I.
    - intros _. apply keeps_column_to_str, Hd3. }
  intros _ _.
  eapply keeps_bind with (Q := fun _ : unit => True).
  { unfold last_resort. apply keeps_try.
    - unfold dumps_frame.
      eapply keeps_bind; [apply keeps_deref|]. intros f _.
      eapply keeps_bind; [apply keeps_lift|]. intros j _.
      apply keeps_ret. exact I.
    - intros _. eapply keeps_bind; [apply keeps_labels|]. intros cols' _.
      apply keeps_for_each. intros col. apply keeps_column_to_str, Hd3. }
  intros _ _. apply keeps_ret. exact Hd3.
Qed.
End Keeps.

(** C9: [prepare_dataframe_for_sheets] never changes its input.  Whatever
    the heap and whatever the outcome (a returned frame or an exception),
    the object [df] holds the same frame after the call as before, and so
    does every other object that existed before the call; the frame the
    function returns is a new object, distinct from all of them: the
    function only writes to the copies it makes. *)
Theorem prepare_dataframe_for_sheets_keeps_input :
  forall (df : nat) (m : Machine),
    heap (prepare_dataframe_for_sheets df m).2 !! df = heap m !! df
    /\ heap m ⊆ heap (prepare_dataframe_for_sheets df m).2
    /\ (forall df', (prepare_dataframe_for_sheets df m).1 = Ok df' ->
                    heap m !! df' = None /\ df' <> df).
Proof.
  intros df m.
  destruct (keeps_prepare m df m (extends_refl m)) as [(Hh & _) Hnew].
  assert (Hin : heap (prepare_dataframe_for_sheets df m).2 !! df = heap m !! df).
  { destruct (heap m !! df) as [f|] eqn:Hdf.
    - eapply lookup_weaken; eassumption.
    - unfold prepare_dataframe_for_sheets, copy_deep.
      rewrite !bind_run. unfold deref at 1. rewrite Hdf. simpl. exact Hdf. }
  split; [exact Hin|]. split; [exact Hh|].
  intros df' Hret. pose proof (Hnew df' Hret) as Hown. unfold owned in Hown.
  split; [exact Hown|]. intros ->.
  revert Hret. unfold prepare_dataframe_for_sheets, copy_deep.
  rewrite !bind_run. unfold deref at 1. rewrite Hown. simpl. discriminate.
Qed.

(** ** The batched write *)

Lemma enumerate_cons {A} (x : A) (l : list A) :
  enumerate (x :: l) = (0, x) :: imap (fun i y => (Z.of_nat (S i), y)) l.
Proof. reflexivity. Qed.

Lemma enumerate_snd {A} (l : list A) : map snd (enumerate l) = l.
Proof.
  unfold enumerate. apply list_eq. intros i.
  rewrite list_lookup_fmap, list_lookup_imap.
  destruct (l !! i); reflexivity.
Qed.

Lemma tail_snd {A} (l : list A) :
  map snd (imap (fun i y => (Z.of_nat (S i), y)) l) = l.
Proof.
  apply list_eq. intros i.
  rewrite list_lookup_fmap, list_lookup_imap.
  destruct (l !! i); reflexivity.
Qed.

Lemma tail_indices {A} (l : list A) :
  Forall (fun ib => (ib.1 =? 0) = false)
         (imap (fun i y => (Z.of_nat (S i), y)) l).
Proof.
  apply Forall_forall. intros [i y] Hin.
  apply elem_of_lookup_imap in Hin.
  destruct Hin as (j & z & Heq & _). inversion Heq; subst. simpl. lia.
Qed.

Lemma payload_batch_request sid ib : payload (batch_request sid ib) = ib.2.
Proof. unfold batch_request. destruct (ib.1 =? 0); reflexivity. Qed.

Lemma batch_requests_payloads sid values :
  concat (map payload (batch_requests sid values)) = values.
Proof.
  unfold batch_requests. rewrite map_map.
  rewrite (map_ext _ snd) by (intros; apply payload_batch_request).
  rewrite enumerate_snd. apply concat_make_batches.
Qed.

Lemma batch_requests_length sid values :
  len (batch_requests sid values) = ceil_div (len values) BATCH_SIZE.
Proof.
  unfold batch_requests, len, enumerate.
  rewrite length_map, length_imap. apply length_make_batches.
Qed.

Lemma batch_count_pos values : BATCH_SIZE < len values ->
  (2 <= batch_count values)%nat.
Proof.
  intros H. unfold batch_count.
  pose proof (ceil_div_covers (len values) BATCH_SIZE ltac:(reflexivity)).
  unfold BATCH_SIZE in *. lia.
Qed.

(** The first batch, and the others. *)
Lemma make_batches_split values : BATCH_SIZE < len values ->
  exists bs,
    make_batches values = take batch_rows values :: bs
    /\ (1 <= length bs)%nat.
Proof.
  intros H. pose proof (batch_count_pos values H) as Hc.
  pose proof (make_batches_lookup values 0 ltac:(lia)) as H0.
  pose proof (length_make_batches values) as Hl.
  destruct (make_batches values) as [|b0 bs]; [discriminate H0|].
  simpl in H0. rewrite drop_0 in H0. inversion H0; subst.
  exists bs. split; [reflexivity|].
  unfold batch_count, len in *. cbn [length] in Hl. lia.
Qed.

Lemma batch_requests_split sid values : BATCH_SIZE < len values ->
  exists rest,
    batch_requests sid values
    = ValuesUpdate sid "Sheet1!A1" "RAW" (take batch_rows values) :: rest
    /\ Forall (fun req => is_append req = true) rest.
Proof.
  intros H. destruct (make_batches_split values H) as (bs & Hb & _).
  unfold batch_requests. rewrite Hb, enumerate_cons. cbn [map].
  eexists. split; [reflexivity|].
  apply Forall_map. eapply Forall_impl; [apply tail_indices|].
  intros [i y] Hi. unfold batch_request. simpl in *. rewrite Hi. reflexivity.
Qed.

Lemma batched_attempt_ok cr sid ibs m :
  (forall j, (j < length ibs)%nat ->
             exists r, remote m (issued m + j)%nat = Responds r) ->
  (sheets_service ← build "sheets" "v4" cr;
   for_each ibs (write_batch sheets_service sid)) m
  = (Ok tt,
     advance m (length ibs)
       (EvBuild "sheets" "v4" :: batch_events sid (remote m) (issued m) ibs)).
Proof.
  intros Hok. rewrite bind_run, build_run.
  rewrite for_each_batches_ok.
  - rewrite advance_advance. simpl. rewrite Nat.add_0_r. reflexivity.
  - intros j Hj. simpl. rewrite Nat.add_0_r. apply Hok, Hj.
Qed.

Lemma batched_attempt_fail cr sid ibs m k e :
  (k < length ibs)%nat ->
  (forall j, (j < k)%nat ->
             exists r, remote m (issued m + j)%nat = Responds r) ->
  remote m (issued m + k)%nat = Fails e ->
  (sheets_service ← build "sheets" "v4" cr;
   for_each ibs (write_batch sheets_service sid)) m
  = (Raise e,
     advance m (S k)
       (EvBuild "sheets" "v4"
        :: batch_events sid (remote m) (issued m) (take (S k) ibs))).
Proof.
  intros Hk Hok Hbad. rewrite bind_run, build_run.
  rewrite (for_each_batches_fail _ _ _ _ k e).
  - rewrite advance_advance. simpl. rewrite Nat.add_0_r. reflexivity.
  - exact Hk.
  - intros j Hj. simpl. rewrite Nat.add_0_r. apply Hok, Hj.
  - simpl. rewrite Nat.add_0_r. exact Hbad.
Qed.

(** *** The sheet after a pass *)

Lemma sheet_after_app e1 e2 s :
  sheet_after (e1 ++ e2) s = sheet_after e2 (sheet_after e1 s).
Proof. apply foldl_app. Qed.

Lemma overwrite_first_rows b rest :
  overwrite_rows (range_row "Sheet1!A1") b (b ++ rest) = b ++ rest.
Proof.
  unfold overwrite_rows. change (Z.to_nat (range_row "Sheet1!A1" - 1)) with 0%nat.
  rewrite take_0. simpl. rewrite drop_app_length. reflexivity.
Qed.

Lemma overwrite_empty b : overwrite_rows (range_row "Sheet1!A1") b [] = b.
Proof.
  unfold overwrite_rows. change (Z.to_nat (range_row "Sheet1!A1" - 1)) with 0%nat.
  simpl. rewrite drop_nil, app_nil_r. reflexivity.
Qed.

Lemma sheet_after_appends sid rem ibs : forall start s,
  Forall (fun ib => (ib.1 =? 0) = false) ibs ->
  (forall j, (j < length ibs)%nat -> exists r, rem (start + j)%nat = Responds r) ->
  sheet_after (batch_events sid rem start ibs) s = s ++ concat (map snd ibs).
Proof.
  induction ibs as [|ib ibs IH]; intros start s Hne Hok.
  - simpl. rewrite app_nil_r. reflexivity.
  - rewrite batch_events_cons. inversion Hne as [|? ? Hi Hne']; subst.
    destruct (Hok 0%nat ltac:(simpl; lia)) as [r Hr].
    rewrite Nat.add_0_r in Hr. rewrite Hr.
    unfold sheet_after. cbn [foldl]. fold (sheet_after).
    unfold sink_step at 2, batch_request. rewrite Hi.
    unfold sheet_after in IH. rewrite IH.
    + simpl. rewrite <- app_assoc. reflexivity.
    + exact Hne'.
    + intros j Hj. destruct (Hok (S j) ltac:(simpl; lia)) as [r' Hr'].
      exists r'. rewrite <- Hr'. f_equal. lia.
Qed.

Lemma sheet_after_appends_until sid rem ibs : forall start s k e,
  Forall (fun ib => (ib.1 =? 0) = false) ibs ->
  (k < length ibs)%nat ->
  (forall j, (j < k)%nat -> exists r, rem (start + j)%nat = Responds r) ->
  rem (start + k)%nat = Fails e ->
  sheet_after (batch_events sid rem start (take (S k) ibs)) s
  = s ++ concat (map snd (take k ibs)).
Proof.
  induction ibs as [|ib ibs IH]; intros start s k e Hne Hk Hok Hbad;
    [simpl in Hk; lia|].
  inversion Hne as [|? ? Hi Hne']; subst.
  simpl take. rewrite batch_events_cons.
  destruct k as [|k].
  - rewrite Nat.add_0_r in Hbad. rewrite Hbad, take_0. simpl.
    rewrite app_nil_r. unfold batch_request. destruct (ib.1 =? 0); reflexivity.
  - destruct (Hok 0%nat ltac:(lia)) as [r Hr].
    rewrite Nat.add_0_r in Hr. rewrite Hr.
    unfold sheet_after. cbn [foldl].
    unfold sink_step at 2, batch_request. rewrite Hi.
    unfold sheet_after in IH. rewrite (IH _ _ k e).
    + simpl. rewrite <- app_assoc. reflexivity.
    + exact Hne'.
    + simpl in Hk. lia.
    + intros j Hj. destruct (Hok (S j) ltac:(lia)) as [r' Hr'].
      exists r'. rewrite <- Hr'. f_equal. lia.
    + rewrite <- Hbad. f_equal. lia.
Qed.

(** *** Runs of [write_values] *)

Lemma write_values_large cr sid values m :
  BATCH_SIZE < len values ->
  write_values cr sid values m
  = retry_loop "Failed to write data to Google Sheet"
      (sheets_service ← build "sheets" "v4" cr;
       for_each (enumerate (make_batches values))
                (write_batch sheets_service sid))
      (seqZ 0 5) m.
Proof.
  intros H. unfold write_values.
  destruct (Z.ltb_spec BATCH_SIZE (len values)); [reflexivity | lia].
Qed.

Lemma write_values_small cr sid values m :
  len values <= BATCH_SIZE ->
  write_values cr sid values m
  = retry_loop "Failed to write data to Google Sheet"
      (sheets_service ← build "sheets" "v4" cr;
       execute sheets_service (ValuesUpdate sid "Sheet1!A1" "RAW" values);;
       mret tt)
      (seqZ 0 5) m.
Proof.
  intros H. unfold write_values.
  destruct (Z.ltb_spec BATCH_SIZE (len values)); [lia | reflexivity].
Qed.

Lemma attempts_build api v evs :
  attempts (EvBuild api v :: evs) = S (attempts evs).
Proof. reflexivity. Qed.

Lemma requests_build api v evs :
  requests (EvBuild api v :: evs) = requests evs.
Proof. reflexivity. Qed.

Lemma sleeps_build api v evs : sleeps (EvBuild api v :: evs) = sleeps evs.
Proof. reflexivity. Qed.

Lemma sheet_after_build api v evs s :
  sheet_after (EvBuild api v :: evs) s = sheet_after evs s.
Proof. reflexivity. Qed.

Lemma sheet_after_nil s : sheet_after [] s = s.
Proof. reflexivity. Qed.

Lemma sheet_after_sleep w evs s :
  sheet_after (EvSleep w :: evs) s = sheet_after evs s.
Proof. reflexivity. Qed.

Lemma sheet_after_first sid b r evs s :
  sheet_after (EvCall (batch_request sid (0, b)) (Responds r) :: evs) s
  = sheet_after evs (overwrite_rows (range_row "Sheet1!A1") b s).
Proof. reflexivity. Qed.

Lemma write_values_batched_run cr sid values m :
  BATCH_SIZE < len values ->
  always_responds m ->
  exists evs,
    write_values cr sid values m
    = (Ok tt, advance m (length (requests evs)) evs)
    /\ requests evs = batch_requests sid values
    /\ attempts evs = 1%nat
    /\ sleeps evs = []
    /\ sheet_after evs [] = values.
Proof.
  intros Hbig Hok.
  set (ibs := enumerate (make_batches values)).
  assert (Hresp : forall j, exists r, remote m (issued m + j)%nat = Responds r)
    by (intros j; apply Hok; lia).
  exists (EvBuild "sheets" "v4" :: batch_events sid (remote m) (issued m) ibs).
  assert (Hreq : requests (EvBuild "sheets" "v4"
                           :: batch_events sid (remote m) (issued m) ibs)
                 = batch_requests sid values)
    by apply batch_events_requests.
  split; [|split; [exact Hreq|split; [|split]]].
  - rewrite Hreq, write_values_large by exact Hbig.
    rewrite seqZ_cons by lia.
    erewrite retry_loop_returns; [reflexivity|].
    fold ibs. rewrite batched_attempt_ok by (intros; apply Hresp).
    unfold batch_requests. fold ibs. rewrite length_map. reflexivity.
  - rewrite attempts_build, batch_events_attempts. reflexivity.
  - rewrite sleeps_build. apply batch_events_sleeps.
  - rewrite sheet_after_build. subst ibs.
    destruct (make_batches_split values Hbig) as (bs & Hb & _).
    pose proof (concat_make_batches values) as Hcat.
    rewrite Hb in *. rewrite enumerate_cons, batch_events_cons.
    destruct (Hresp 0%nat) as [r Hr]. rewrite Nat.add_0_r in Hr. rewrite Hr.
    rewrite sheet_after_first, overwrite_empty.
    rewrite sheet_after_appends.
    + rewrite tail_snd. exact Hcat.
    + apply tail_indices.
    + intros j _. destruct (Hresp (S j)) as [r' Hr']. exists r'.
      rewrite <- Hr'. f_equal. lia.
Qed.

Lemma write_values_retry_run cr sid values m k status text :
  BATCH_SIZE < len values ->
  (1 <= k < length (make_batches values))%nat ->
  status_in status retryable_statuses = true ->
  remote m (issued m + k)%nat = Fails (HttpError status text) ->
  (forall j, j <> (issued m + k)%nat -> exists r, remote m j = Responds r) ->
  exists evs,
    write_values cr sid values m
    = (Ok tt, advance m (length (requests evs)) evs)
    /\ requests evs
       = take (S k) (batch_requests sid values) ++ batch_requests sid values
    /\ sleeps evs = [1]
    /\ attempts evs = 2%nat
    /\ sheet_after evs []
       = concat (take k (make_batches values))
         ++ concat (drop 1 (make_batches values)).
Proof.
  intros Hbig [Hk1 Hk] Hst Hbad Hok.
  set (ibs := enumerate (make_batches values)).
  set (i0 := issued m).
  set (pass1 := EvBuild "sheets" "v4"
                :: batch_events sid (remote m) i0 (take (S k) ibs)).
  set (pass2 := EvBuild "sheets" "v4"
                :: batch_events sid (remote m) (i0 + S k) ibs).
  assert (Hlen : length ibs = length (make_batches values))
    by (unfold ibs, enumerate; apply length_imap).
  assert (Hr1 : requests pass1 = take (S k) (batch_requests sid values)).
  { unfold pass1. rewrite requests_build, batch_events_requests. unfold batch_requests. fold ibs.
    apply fmap_take. }
  assert (Hr2 : requests pass2 = batch_requests sid values)
    by apply batch_events_requests.
  exists (pass1 ++ [EvSleep (INITIAL_RETRY_DELAY * 2 ^ 0)] ++ pass2).
  assert (Hreq : requests (pass1 ++ [EvSleep (INITIAL_RETRY_DELAY * 2 ^ 0)] ++ pass2)
                 = take (S k) (batch_requests sid values)
                   ++ batch_requests sid values).
  { rewrite !requests_app, Hr1, Hr2. reflexivity. }
  split; [|split; [exact Hreq|split; [|split]]].
  - rewrite Hreq, write_values_large by exact Hbig.
    rewrite seqZ_cons by lia. fold ibs.
    erewrite retry_loop_again;
      [ | apply (batched_attempt_fail cr sid ibs m k (HttpError status text));
          [lia | intros j Hj; apply Hok; lia | exact Hbad]
        | exact Hst | reflexivity ].
    rewrite advance_advance.
    rewrite seqZ_cons by lia.
    erewrite retry_loop_returns; [|apply batched_attempt_ok].
    + rewrite advance_advance. f_equal. f_equal.
      * unfold batch_requests. fold ibs.
        rewrite length_app, length_take, !length_map. lia.
      * unfold pass1, pass2, i0. cbn [advance remote issued].
        replace (issued m + (S k + 0))%nat with (issued m + S k)%nat by lia.
        rewrite <- !app_assoc. reflexivity.
    + intros j Hj. simpl. apply Hok. lia.
  - rewrite !sleeps_app. unfold pass1, pass2.
    rewrite !sleeps_build, !batch_events_sleeps. reflexivity.
  - rewrite !attempts_app. unfold pass1, pass2.
    rewrite !attempts_build, !batch_events_attempts. reflexivity.
  - rewrite !sheet_after_app. unfold pass1, pass2.
    rewrite !sheet_after_build. subst ibs.
    destruct (make_batches_split values Hbig) as (bs & Hb & _).
    rewrite Hb in *. rewrite enumerate_cons.
    set (tl := imap (fun i y => (Z.of_nat (S i), y)) bs).
    assert (Htl : length tl = length bs) by apply length_imap.
    destruct k as [|k]; [lia|].
    cbn [take]. rewrite !batch_events_cons.
    destruct (Hok i0 ltac:(unfold i0; lia)) as [r Hr]. rewrite Hr.
    rewrite sheet_after_first, overwrite_empty.
    rewrite (sheet_after_appends_until sid (remote m) tl (S i0) _ k
               (HttpError status text)).
    + rewrite sheet_after_sleep.
      destruct (Hok (i0 + S (S k))%nat ltac:(unfold i0; lia)) as [r2 Hr2'].
      rewrite Hr2'. rewrite sheet_after_first, sheet_after_nil.
      rewrite overwrite_first_rows.
      rewrite sheet_after_appends.
      * unfold tl. rewrite fmap_take, !tail_snd. simpl.
        rewrite drop_0, <- app_assoc. reflexivity.
      * apply tail_indices.
      * intros j _. apply Hok. unfold i0. lia.
    + apply tail_indices.
    + simpl in Hk. lia.
    + intros j Hj. apply Hok. unfold i0. lia.
    + rewrite <- Hbad. unfold i0. f_equal. lia.
Qed.

(** ** [write_dataframe_to_sheet] *)

Lemma prepare_extends df m r m1 :
  prepare_dataframe_for_sheets df m = (r, m1) -> extends m m1.
Proof.
  intros H. destruct (keeps_prepare m df m (extends_refl m)) as [Hext _].
  rewrite H in Hext. exact Hext.
Qed.

Lemma write_dataframe_to_sheet_run cr sid df m df' m1 f :
  prepare_dataframe_for_sheets df m = (Ok df', m1) ->
  heap m1 !! df' = Some f ->
  write_dataframe_to_sheet cr sid df m = write_values cr sid (values_of f) m1.
Proof.
  intros Hp Hf. unfold write_dataframe_to_sheet.
  rewrite bind_run, Hp, bind_run. unfold deref. rewrite Hf. reflexivity.
Qed.

Lemma effects_after_prepare m m1 evs :
  extends m m1 -> effects_of m (advance m1 (length (requests evs)) evs) evs.
Proof.
  intros (_ & Hr & Hi & Hl). unfold effects_of, advance. simpl.
  rewrite Hr, Hi, Hl. auto.
Qed.

Lemma always_responds_extends m m1 :
  extends m m1 -> always_responds m -> always_responds m1.
Proof.
  intros (_ & Hr & Hi & _) H k Hk. rewrite Hr. apply H. lia.
Qed.

Lemma values_of_split f :
  take batch_rows (values_of f)
  = map CStr (labels f) :: take (Z.to_nat 4999) (values_tolist f)
  /\ drop batch_rows (values_of f) = drop (Z.to_nat 4999) (values_tolist f).
Proof.
  replace batch_rows with (S (Z.to_nat 4999))
    by (unfold batch_rows, BATCH_SIZE; lia).
  unfold values_of. split; reflexivity.
Qed.

Lemma batch_requests_two sid values :
  len values = 5201 ->
  batch_requests sid values
  = [ ValuesUpdate sid "Sheet1!A1" "RAW" (take batch_rows values);
      ValuesAppend sid "Sheet1!A5001" "RAW" "INSERT_ROWS"
                   (drop batch_rows values) ]
  /\ len (take batch_rows values) = 5000
  /\ len (drop batch_rows values) = 201.
Proof.
  intros H. pose proof batch_rows_Z as HB. unfold BATCH_SIZE in HB.
  assert (Hc : batch_count values = 2%nat)
    by (unfold batch_count; rewrite H; reflexivity).
  assert (Hl1 : len (take batch_rows values) = 5000)
    by (unfold len in *; rewrite length_take; lia).
  assert (Hl2 : len (drop batch_rows values) = 201)
    by (unfold len in *; rewrite length_drop; lia).
  split; [|split; assumption].
  unfold batch_requests. rewrite make_batches_chunks, Hc.
  cbn [seq map]. rewrite Nat.mul_0_l, Nat.mul_1_l, drop_0.
  rewrite (take_ge (drop batch_rows values))
    by (unfold len in Hl2; lia).
  reflexivity.
Qed.

(** The batched write, from what the normalisation returned. *)
Lemma write_batches_after_prepare :
  forall (cr : Credentials) (sid : string) (df : nat) (m : Machine)
         (df' : nat) (m1 : Machine) (f : DataFrame),
    prepare_dataframe_for_sheets df m = (Ok df', m1) ->
    heap m1 !! df' = Some f ->
    BATCH_SIZE < len (values_of f) ->
    always_responds m ->
    exists m2 evs,
      write_dataframe_to_sheet cr sid df m = (Ok tt, m2)
      /\ effects_of m m2 evs
      /\ attempts evs = 1%nat
      /\ len (requests evs) = ceil_div (len (values_of f)) BATCH_SIZE
      /\ (exists rest,
            requests evs
            = ValuesUpdate sid "Sheet1!A1" "RAW" (take batch_rows (values_of f))
              :: rest
            /\ Forall (fun req => is_append req = true) rest)
      /\ concat (map payload (requests evs)) = values_of f
      /\ sheet_after evs [] = values_of f
      /\ (len (values_of f) = 5201 ->
          requests evs
          = [ ValuesUpdate sid "Sheet1!A1" "RAW"
                (map CStr (labels f) :: take (Z.to_nat 4999) (values_tolist f));
              ValuesAppend sid "Sheet1!A5001" "RAW" "INSERT_ROWS"
                (drop (Z.to_nat 4999) (values_tolist f)) ]
          /\ len (take (Z.to_nat 4999) (values_tolist f)) = 4999
          /\ len (drop (Z.to_nat 4999) (values_tolist f)) = 201).
Proof.
  intros cr sid df m df' m1 f Hp Hf Hbig Hok.
  pose proof (prepare_extends _ _ _ _ Hp) as Hext.
  destruct (write_values_batched_run cr sid (values_of f) m1 Hbig
              (always_responds_extends _ _ Hext Hok))
    as (evs & Hrun & Hreq & Hatt & Hsl & Hsheet).
  exists (advance m1 (length (requests evs)) evs), evs.
  split; [rewrite (write_dataframe_to_sheet_run _ _ _ _ _ _ _ Hp Hf); exact Hrun|].
  split; [apply effects_after_prepare, Hext|].
  split; [exact Hatt|]. rewrite Hreq.
  split; [apply batch_requests_length|].
  split; [apply batch_requests_split, Hbig|].
  split; [apply batch_requests_payloads|].
  split; [exact Hsheet|].
  intros H5201.
  destruct (batch_requests_two sid (values_of f) H5201) as (Htwo & Hl1 & Hl2).
  destruct (values_of_split f) as [Ht Hd].
  rewrite Htwo, Ht, Hd. split; [reflexivity|].
  rewrite Hd in Hl2. split; [|exact Hl2].
  rewrite Ht in Hl1. unfold len in *. cbn [length] in Hl1. lia.
Qed.

Lemma small_attempt_run cr sid values m :
  (sheets_service ← build "sheets" "v4" cr;
   execute sheets_service (ValuesUpdate sid "Sheet1!A1" "RAW" values);;
   mret tt) m
  = (match remote m (issued m) with
     | Responds r => Ok tt
     | Fails e => Raise e
     end,
     advance m 1 [EvBuild "sheets" "v4";
                  EvCall (ValuesUpdate sid "Sheet1!A1" "RAW" values)
                         (remote m (issued m))]).
Proof.
  rewrite bind_run, build_run, bind_run, execute_run. simpl.
  rewrite advance_advance, Nat.add_0_r. simpl.
  destruct (remote m (issued m)); reflexivity.
Qed.

(** The single write, from what the normalisation returned. *)
Lemma write_single_after_prepare :
  forall (cr : Credentials) (sid : string) (df : nat) (m : Machine)
         (df' : nat) (m1 : Machine) (f : DataFrame) (r : Response),
    prepare_dataframe_for_sheets df m = (Ok df', m1) ->
    heap m1 !! df' = Some f ->
    len (values_of f) <= BATCH_SIZE ->
    remote m (issued m) = Responds r ->
    exists m2 evs,
      write_dataframe_to_sheet cr sid df m = (Ok tt, m2)
      /\ effects_of m m2 evs
      /\ evs = [EvBuild "sheets" "v4";
                EvCall (ValuesUpdate sid "Sheet1!A1" "RAW" (values_of f))
                       (Responds r)]
      /\ requests evs = [ValuesUpdate sid "Sheet1!A1" "RAW" (values_of f)]
      /\ sheet_after evs [] = values_of f.
Proof.
  intros cr sid df m df' m1 f r Hp Hf Hsmall Hr.
  pose proof (prepare_extends _ _ _ _ Hp) as Hext.
  pose proof Hext as (Hh & Hrem & Hi & Hl).
  set (evs := [EvBuild "sheets" "v4";
               EvCall (ValuesUpdate sid "Sheet1!A1" "RAW" (values_of f))
                      (Responds r)]).
  exists (advance m1 (length (requests evs)) evs), evs.
  split.
  { rewrite (write_dataframe_to_sheet_run _ _ _ _ _ _ _ Hp Hf).
    rewrite write_values_small by exact Hsmall.
    rewrite seqZ_cons by lia.
    erewrite retry_loop_returns; [reflexivity|].
    rewrite small_attempt_run, Hrem, Hi, Hr. reflexivity. }
  split; [apply effects_after_prepare, Hext|].
  split; [reflexivity|]. split; [reflexivity|].
  unfold sheet_after. cbn [foldl sink_step]. apply overwrite_empty.
Qed.

(** The batched write with one refused request, from what the
    normalisation returned. *)
Lemma write_retry_after_prepare :
  forall (cr : Credentials) (sid : string) (df : nat) (m : Machine)
         (df' : nat) (m1 : Machine) (f : DataFrame)
         (k : nat) (status : Z) (text : string),
    prepare_dataframe_for_sheets df m = (Ok df', m1) ->
    heap m1 !! df' = Some f ->
    BATCH_SIZE < len (values_of f) ->
    (1 <= k < length (make_batches (values_of f)))%nat ->
    status_in status retryable_statuses = true ->
    remote m (issued m + k)%nat = Fails (HttpError status text) ->
    (forall j, j <> (issued m + k)%nat -> exists r, remote m j = Responds r) ->
    exists m2 evs,
      write_dataframe_to_sheet cr sid df m = (Ok tt, m2)
      /\ effects_of m m2 evs
      /\ requests evs
         = take (S k) (batch_requests sid (values_of f))
           ++ batch_requests sid (values_of f)
      /\ sleeps evs = [1]
      /\ attempts evs = 2%nat
      /\ sheet_after evs []
         = concat (take k (make_batches (values_of f)))
           ++ concat (drop 1 (make_batches (values_of f)))
      /\ len (sheet_after evs [])
         = len (values_of f) + (Z.of_nat k - 1) * BATCH_SIZE.
Proof.
  intros cr sid df m df' m1 f k status text Hp Hf Hbig Hk Hst Hbad Hok.
  pose proof (prepare_extends _ _ _ _ Hp) as Hext.
  pose proof Hext as (Hh & Hrem & Hi & Hl).
  destruct (write_values_retry_run cr sid (values_of f) m1 k status text
              Hbig Hk Hst)
    as (evs & Hrun & Hreq & Hsl & Hatt & Hsheet).
  { rewrite Hrem, Hi. exact Hbad. }
  { intros j Hj. rewrite Hrem. apply Hok. rewrite <- Hi. exact Hj. }
  exists (advance m1 (length (requests evs)) evs), evs.
  split; [rewrite (write_dataframe_to_sheet_run _ _ _ _ _ _ _ Hp Hf); exact Hrun|].
  split; [apply effects_after_prepare, Hext|].
  split; [exact Hreq|]. split; [exact Hsl|]. split; [exact Hatt|].
  split; [exact Hsheet|].
  rewrite Hsheet. set (values := values_of f) in *.
  pose proof (concat_make_batches values) as Hcat.
  pose proof (length_make_batches values) as Hn.
  pose proof (ceil_div_covers (len values) BATCH_SIZE ltac:(reflexivity)) as Hcov.
  pose proof batch_rows_Z as HB.
  assert (Hfirst : concat (take k (make_batches values))
                   = take (k * batch_rows) values).
  { rewrite make_batches_chunks, <- fmap_take, take_seq.
    replace (k `min` batch_count values)%nat with k.
    - apply concat_chunks.
    - unfold batch_count. unfold len in *. lia. }
  destruct (make_batches_split values Hbig) as (bs & Hb & _).
  rewrite Hfirst. rewrite Hb in Hcat |- *. cbn [concat] in Hcat.
  rewrite skipn_cons, drop_0.
  assert (Hrest : length (concat bs) = (length values - batch_rows)%nat).
  { pose proof (f_equal length Hcat) as HL.
    rewrite length_app, length_take in HL.
    unfold len, BATCH_SIZE in *. lia. }
  unfold len in *. rewrite length_app, length_take, Hrest.
  unfold BATCH_SIZE in *. nia.
Qed.

(** The write within the threshold goes through the same loop as the
    creation of the sheet: it returns after transient failures, and it
    raises the wrapped failure on a permanent one or on the fifth. *)
Lemma write_values_retries_then_returns cr sid values m errs r :
  len values <= BATCH_SIZE ->
  len errs < MAX_RETRIES ->
  Forall (fun e => retryable e = true) errs ->
  fails_with m errs ->
  remote m (issued m + length errs)%nat = Responds r ->
  write_values cr sid values m
  = (Ok tt,
     advance m (S (length errs))
       (backoff_trace
          (fun e => [EvBuild "sheets" "v4";
                     EvCall (ValuesUpdate sid "Sheet1!A1" "RAW" values) (Fails e)])
          0 errs
        ++ [EvBuild "sheets" "v4";
            EvCall (ValuesUpdate sid "Sheet1!A1" "RAW" values) (Responds r)])).
Proof.
  intros Hsmall Hlen Hre Hf Hok.
  rewrite write_values_small by exact Hsmall.
  change (seqZ 0 5) with (seqZ 0 (MAX_RETRIES - 0)).
  apply (single_loop_succeeds _ _ (fun _ => tt)
           (fun out => [EvBuild "sheets" "v4";
                        EvCall (ValuesUpdate sid "Sheet1!A1" "RAW" values) out])
           (small_attempt_run cr sid values) errs 0 m r);
    [lia | exact Hlen | assumption..].
Qed.

Lemma write_values_raises_wrapped cr sid values m errs e :
  len values <= BATCH_SIZE ->
  len errs < MAX_RETRIES ->
  Forall (fun e => retryable e = true) errs ->
  fails_with m errs ->
  remote m (issued m + length errs)%nat = Fails e ->
  retryable e = false \/ len errs = MAX_RETRIES - 1 ->
  write_values cr sid values m
  = (Raise (PyExc RuntimeError
              ("Failed to write data to Google Sheet: " +:+ exc_str e)),
     advance m (S (length errs))
       (backoff_trace
          (fun e => [EvBuild "sheets" "v4";
                     EvCall (ValuesUpdate sid "Sheet1!A1" "RAW" values) (Fails e)])
          0 errs
        ++ [EvBuild "sheets" "v4";
            EvCall (ValuesUpdate sid "Sheet1!A1" "RAW" values) (Fails e)])).
Proof.
  intros Hsmall Hlen Hre Hf Hbad Hstop.
  rewrite write_values_small by exact Hsmall.
  change (seqZ 0 5) with (seqZ 0 (MAX_RETRIES - 0)).
  rewrite (single_loop_fails "Failed to write data to Google Sheet" _
             (fun _ => tt)
             (fun out => [EvBuild "sheets" "v4";
                          EvCall (ValuesUpdate sid "Sheet1!A1" "RAW" values) out])
             (small_attempt_run cr sid values) errs 0 m e);
    [reflexivity | lia | exact Hlen | assumption | assumption | assumption | ].
  destruct Hstop as [Hn|Hl]; [left; exact Hn | right; exact Hl].
Qed.

(** ** The budget of the three wrapped operations *)

Lemma create_attempt_effects cr title m :
  exists evs,
    effects_of m
      ((sheets_service ← build "sheets" "v4" cr;
        response ← execute sheets_service
                     (SpreadsheetsCreate title "spreadsheetId");
        mret (resp_spreadsheetId response)) m).2 evs
    /\ attempts evs = 1%nat
    /\ (length (requests evs) <= 1)%nat
    /\ sleeps evs = [].
Proof.
  rewrite create_attempt_run. simpl.
  exists (create_attempt title (remote m (issued m))).
  split; [apply (effects_of_advance m (create_attempt title _))|].
  split; [reflexivity|]. split; [simpl; lia | reflexivity].
Qed.

Lemma small_attempt_effects cr sid values m :
  exists evs,
    effects_of m
      ((sheets_service ← build "sheets" "v4" cr;
        execute sheets_service (ValuesUpdate sid "Sheet1!A1" "RAW" values);;
        mret tt) m).2 evs
    /\ attempts evs = 1%nat
    /\ (length (requests evs) <= 1)%nat
    /\ sleeps evs = [].
Proof.
  rewrite small_attempt_run. simpl.
  set (evs := [EvBuild "sheets" "v4";
               EvCall (ValuesUpdate sid "Sheet1!A1" "RAW" values)
                      (remote m (issued m))]).
  exists evs.
  split; [apply (effects_of_advance m evs)|].
  split; [reflexivity|]. split; [simpl; lia | reflexivity].
Qed.

Lemma batched_attempt_effects cr sid ibs m :
  exists evs,
    effects_of m
      ((sheets_service ← build "sheets" "v4" cr;
        for_each ibs (write_batch sheets_service sid)) m).2 evs
    /\ attempts evs = 1%nat
    /\ (length (requests evs) <= length ibs)%nat
    /\ sleeps evs = [].
Proof.
  rewrite bind_run, build_run.
  destruct (for_each_batches_effects (mkService "sheets" "v4" cr) sid ibs
              (advance m 0 [EvBuild "sheets" "v4"]))
    as (evs & He & Ha & Hr & Hs).
  exists ([EvBuild "sheets" "v4"] ++ evs).
  split.
  { eapply effects_of_trans; [|exact He].
    apply (effects_of_advance m [EvBuild "sheets" "v4"]). }
  rewrite attempts_app, requests_app, sleeps_app, Ha, Hs, length_app.
  split; [reflexivity|]. split; [simpl; lia | reflexivity].
Qed.

Lemma move_attempt_effects cr file_id folder_id m :
  exists evs,
    effects_of m
      ((drive_service ← build "drive" "v3" cr;
        file ← execute drive_service (FilesGet file_id "parents");
        let previous_parents :=
          String.concat "," (default [] (resp_parents file)) in
        execute drive_service
          (FilesUpdate file_id folder_id previous_parents "id, parents");;
        mret tt) m).2 evs
    /\ attempts evs = 1%nat
    /\ (length (requests evs) <= 2)%nat
    /\ sleeps evs = [].
Proof.
  rewrite bind_run, build_run, bind_run, execute_run. cbn [advance remote issued].
  rewrite advance_advance, Nat.add_0_r.
  set (get := EvCall (FilesGet file_id "parents") (remote m (issued m))).
  destruct (remote m (issued m)) as [file|e].
  - rewrite bind_run, execute_run, advance_advance. cbn [advance remote issued].
    set (upd := EvCall _ _).
    exists [EvBuild "drive" "v3"; get; upd].
    split.
    { destruct (remote m (issued m + (0 + 1))); simpl;
        apply (effects_of_advance m [EvBuild "drive" "v3"; get; upd]). }
    split; [reflexivity|]. split; [simpl; lia | reflexivity].
  - exists [EvBuild "drive" "v3"; get]. simpl.
    split; [apply (effects_of_advance m [EvBuild "drive" "v3"; get])|].
    split; [reflexivity|]. split; [simpl; lia | reflexivity].
Qed.

(** C6, as the code has it: every wrapped operation makes at most
    [MAX_RETRIES = 5] attempts, and an attempt sends one request for
    the creation of the sheet and for a write within the threshold, one
    request per batch for a batched write, and two (read the parents,
    update them) for the move.  So the creation and the small write send
    at most 5 requests, the batched write at most 5 per batch, the move
    at most 10.  In every case the waits are the first terms of 1, 2, 4,
    8, so the total wait is at most 15; a run of five retryable failures
    waits exactly 15. *)
Theorem retry_loops_within_budget :
  forall (cr : Credentials) (m : Machine),
    (forall title, exists evs,
        effects_of m (create_google_sheet cr title m).2 evs
        /\ (attempts evs <= 5)%nat
        /\ (length (requests evs) <= 5)%nat
        /\ sleeps evs `prefix_of` [1; 2; 4; 8]
        /\ total_wait evs <= 15)
    /\ (forall sid values, exists evs,
        effects_of m (write_values cr sid values m).2 evs
        /\ (attempts evs <= 5)%nat
        /\ (len values <= BATCH_SIZE -> (length (requests evs) <= 5)%nat)
        /\ (BATCH_SIZE < len values ->
            (length (requests evs) <= length (make_batches values) * 5)%nat)
        /\ sleeps evs `prefix_of` [1; 2; 4; 8]
        /\ total_wait evs <= 15)
    /\ (forall file_id folder_id, exists evs,
        effects_of m (move_sheet_to_folder cr file_id folder_id m).2 evs
        /\ (attempts evs <= 5)%nat
        /\ (length (requests evs) <= 10)%nat
        /\ sleeps evs `prefix_of` [1; 2; 4; 8]
        /\ total_wait evs <= 15)
    /\ total_wait (log (create_google_sheet cr "export" always_unavailable).2)
       = 15.
Proof.
  intros cr m. split; [|split; [|split]].
  - intros title. unfold create_google_sheet.
    destruct (retry_loop_within_budget "Failed to create Google Sheet" _ 1
                (create_attempt_effects cr title) m)
      as (evs & He & Ha & Hr & Hs & Ht).
    exists evs. repeat (split; [first [assumption | lia]|]). exact Ht.
  - intros sid values. unfold write_values.
    destruct (Z.ltb_spec BATCH_SIZE (len values)) as [Hbig|Hsmall].
    + destruct (retry_loop_within_budget
                  "Failed to write data to Google Sheet" _ _
                  (batched_attempt_effects cr sid
                     (enumerate (make_batches values))) m)
        as (evs & He & Ha & Hr & Hs & Ht).
      exists evs. split; [exact He|]. split; [exact Ha|].
      split; [lia|]. split; [|split; assumption].
      intros _. unfold enumerate in Hr. rewrite length_imap in Hr. exact Hr.
    + destruct (retry_loop_within_budget
                  "Failed to write data to Google Sheet" _ 1
                  (small_attempt_effects cr sid values) m)
        as (evs & He & Ha & Hr & Hs & Ht).
      exists evs. split; [exact He|]. split; [exact Ha|].
      split; [intros _; lia|]. split; [lia|]. split; assumption.
  - intros file_id folder_id. unfold move_sheet_to_folder.
    destruct (retry_loop_within_budget
                "Failed to move Google Sheet to folder" _ 2
                (move_attempt_effects cr file_id folder_id) m)
      as (evs & He & Ha & Hr & Hs & Ht).
    exists evs. repeat (split; [first [assumption | lia]|]). exact Ht.
  - reflexivity.
Qed.

(** C6, as the claim has it, fails: when the services answer the read of
    the parents and refuse every update with status 503,
    [move_sheet_to_folder] sends ten requests in its five attempts, not
    at most five. *)
Lemma move_sheet_to_folder_sends_ten_requests :
  let run := move_sheet_to_folder (mkCredentials "tok") "sheet-1" "folder-1"
               moves_refused in
  run.1 = Raise (PyExc RuntimeError
                   "Failed to move Google Sheet to folder: unavailable")
  /\ issued run.2 = 10%nat
  /\ length (requests (log run.2)) = 10%nat
  /\ attempts (log run.2) = 5%nat
  /\ ~ (length (requests (log run.2)) <= 5)%nat.
Proof.
  vm_compute. repeat split. lia.
Qed.

(** ** [load_config] *)

Lemma truthy_false (v : option string) :
  truthy v = false <-> v = None \/ v = Some "".
Proof.
  destruct v as [s|]; simpl.
  - rewrite negb_false_iff, bool_decide_eq_true. split.
    + intros ->. right. reflexivity.
    + intros [H|H]; [discriminate | congruence].
  - split; auto.
Qed.

(** C10, as the code has it: the eight variables of [required_vars] are
    required, and the password ([TRINO_PASSWORD]) is not among them.  A
    variable counts as missing when it is unset or empty.  Whenever one
    is missing, [load_config] raises [ValueError] with a message that
    lists every missing required variable, in the order of
    [required_vars]; it makes no external call (it is a function of the
    environment alone).  When none is missing and [TRINO_PORT] reads as
    an integer, it returns the configuration assembled from the
    environment, the password as found there (possibly absent). *)
Theorem load_config_required_vars :
  forall (environ : gmap string string),
    (forall var,
        var ∈ missing_vars environ
        <-> var ∈ required_vars
            /\ (getenv environ var = None \/ getenv environ var = Some ""))
    /\ (missing_vars environ <> [] ->
        load_config environ
        = Raise (PyExc ValueError
                   ("Missing required environment variables: "
                    +:+ String.concat ", " (missing_vars environ))))
    /\ (missing_vars environ = [] ->
        forall p,
          py_int (default "" (getenv environ "TRINO_PORT")) = Ok p ->
          load_config environ
          = Ok {| trino := {| host := getenv environ "TRINO_HOST";
                              port := p;
                              user := getenv environ "TRINO_USER";
                              password := getenv environ "TRINO_PASSWORD";
                              catalog := getenv environ "TRINO_CATALOG";
                              schema := getenv environ "TRINO_SCHEMA" |};
                  google := {| client_secret_file :=
                                 getenv environ "GOOGLE_CLIENT_SECRET_FILE";
                               token_path := getenv environ "TOKEN_PATH";
                               drive_folder_id :=
                                 getenv environ "DRIVE_FOLDER_ID" |} |})
    /\ ("TRINO_PASSWORD" ∉ required_vars)
    /\ length required_vars = 8%nat.
Proof.
  intros environ. split; [|split; [|split; [|split]]].
  - intros var. unfold missing_vars.
    rewrite list_elem_of_filter, truthy_false. tauto.
  - intros Hne. unfold load_config.
    destruct (missing_vars environ); [congruence | reflexivity].
  - intros Hnone p Hp. unfold load_config. rewrite Hnone, Hp. reflexivity.
  - unfold required_vars. rewrite !elem_of_cons, elem_of_nil.
    intros H. repeat (destruct H as [H|H]; [discriminate H|]). exact H.
  - reflexivity.
Qed.

(** C10, as the claim has it, fails: the credentials are not all
    required.  With the eight required variables set and no
    [TRINO_PASSWORD], [load_config] does not fail; it returns a
    configuration whose password is absent. *)
Lemma load_config_without_password :
  getenv environ_without_password "TRINO_PASSWORD" = None
  /\ load_config environ_without_password
     = Ok {| trino := {| host := Some "trino.example.org";
                         port := 8443;
                         user := Some "etl";
                         password := None;
                         catalog := Some "hive";
                         schema := Some "default" |};
             google := {| client_secret_file := Some "client_secret.json";
                          token_path := Some "token.json";
                          drive_folder_id := Some "folder-1" |} |}.
Proof. split; vm_compute; reflexivity. Qed.

(** ** Frames: pure facts *)

Lemma astype_str_idem s : astype_str (astype_str s) = astype_str s.
Proof.
  unfold astype_str. simpl. f_equal. rewrite map_map. reflexivity.
Qed.

Lemma dumps_items_ok {A} (enc : A -> Result JSON) (l : list A) :
  Forall (fun x => is_Ok (enc x) = true) l ->
  exists js, json_dumps_items enc l = Ok js.
Proof.
  induction 1 as [|x l Hx _ [js IH]]; simpl; [eexists; reflexivity|].
  destruct (enc x); [|discriminate]. rewrite IH. eexists. reflexivity.
Qed.

Lemma dumps_items_raise {A} (enc : A -> Result JSON) (l : list A) e :
  json_dumps_items enc l = Raise e -> exists x, x ∈ l /\ enc x = Raise e.
Proof.
  induction l as [|x l IH]; simpl; [discriminate|].
  destruct (enc x) as [j|e'] eqn:Hx.
  - destruct (json_dumps_items enc l) as [js|e'']; [discriminate|].
    intros [= <-]. destruct (IH eq_refl) as (y & Hy & He).
    exists y. split; [right; exact Hy | exact He].
  - intros [= <-]. exists x. split; [left | exact Hx].
Qed.

Lemma dumps_list_ok (l : list Cell) :
  Forall (fun c => is_Ok (json_dumps_cell c) = true) l ->
  is_Ok (json_dumps_list l) = true.
Proof.
  intros H. unfold json_dumps_list.
  destruct (dumps_items_ok _ _ H) as [js ->]. reflexivity.
Qed.

Lemma dumps_list_cells (l : list Cell) :
  is_Ok (json_dumps_list l) = true ->
  Forall (fun c => is_Ok (json_dumps_cell c) = true) l.
Proof.
  unfold json_dumps_list. induction l as [|c l IH]; simpl; [constructor|].
  destruct (json_dumps_cell c) eqn:Hc; [|discriminate].
  destruct (json_dumps_items json_dumps_cell l); [|discriminate].
  intros _. constructor; [rewrite Hc; reflexivity | apply IH; reflexivity].
Qed.

Lemma dumps_list_raise (l : list Cell) e :
  json_dumps_list l = Raise e ->
  exists c, c ∈ l /\ json_dumps_cell c = Raise e.
Proof.
  unfold json_dumps_list.
  destruct (json_dumps_items json_dumps_cell l) eqn:H; [discriminate|].
  intros [= <-]. apply dumps_items_raise, H.
Qed.

Lemma astype_str_encodes s : encodes (astype_str s) = true.
Proof.
  unfold encodes. apply dumps_list_ok. simpl.
  apply Forall_map, Forall_forall. reflexivity.
Qed.

Lemma coerce_unencodable_name s : name (coerce_unencodable s) = name s.
Proof. unfold coerce_unencodable. destruct (encodes s); reflexivity. Qed.

Lemma coerce_unencodable_encodes s : encodes (coerce_unencodable s) = true.
Proof.
  unfold coerce_unencodable. destruct (encodes s) eqn:H; [exact H|].
  apply astype_str_encodes.
Qed.

Lemma coerce_unencodable_idem s :
  coerce_unencodable (coerce_unencodable s) = coerce_unencodable s.
Proof.
  unfold coerce_unencodable at 1. rewrite coerce_unencodable_encodes.
  reflexivity.
Qed.

(** *** Item access *)

Lemma assign_cols_astype col cols :
  assign_cols col (map astype_str (filter (fun s => has_label col s = true) cols))
              cols
  = map (on_label col astype_str) cols.
Proof.
  induction cols as [|s cols IH]; [reflexivity|].
  cbn [map assign_cols]. unfold on_label at 1.
  destruct (has_label col s) eqn:Hs.
  - rewrite filter_cons_True by exact Hs. cbn [map]. rewrite IH. reflexivity.
  - rewrite filter_cons_False by (rewrite Hs; discriminate).
    rewrite IH. reflexivity.
Qed.

Lemma filter_singleton_eq col cols s s' :
  filter (fun s => has_label col s = true) cols = [s] ->
  s' ∈ cols -> has_label col s' = true -> s' = s.
Proof.
  intros Hf Hin Hl.
  assert (H : s' ∈ filter (fun s => has_label col s = true) cols)
    by (apply list_elem_of_filter; auto).
  rewrite Hf in H. apply list_elem_of_singleton in H. exact H.
Qed.

Lemma setitem_astype f col it :
  getitem f col = Ok it ->
  setitem f col (item_astype_str it)
  = map_columns (on_label col astype_str) f.
Proof.
  unfold getitem, setitem, map_columns.
  destruct (filter (fun s => has_label col s = true) (columns f))
    as [|s [|s2 rest]] eqn:Hf; [discriminate| |].
  - intros [= <-]. simpl. f_equal.
    apply map_ext_in. intros s' Hin. unfold on_label.
    destruct (has_label col s') eqn:Hl; [|reflexivity].
    rewrite (filter_singleton_eq col (columns f) s s' Hf); auto.
    apply list_elem_of_In, Hin.
  - intros [= <-]. simpl item_astype_str. cbv iota. f_equal.
    rewrite <- (assign_cols_astype col (columns f)), Hf. reflexivity.
Qed.

Lemma getitem_in f col :
  col ∈ labels f -> exists it, getitem f col = Ok it.
Proof.
  intros Hin. unfold getitem.
  destruct (filter (fun s => has_label col s = true) (columns f))
    as [|s [|s2 rest]] eqn:Hf; [|eexists; reflexivity..].
  exfalso. unfold labels in Hin. apply list_elem_of_fmap in Hin.
  destruct Hin as (s & Hname & Hs).
  assert (H : s ∈ filter (fun s => has_label col s = true) (columns f)).
  { apply list_elem_of_filter. split; [|exact Hs].
    unfold has_label. apply bool_decide_eq_true. auto. }
  rewrite Hf in H. inversion H.
Qed.

Lemma filter_none {A} (P : A -> Prop) `{forall x, Decision (P x)} (l : list A) :
  (forall x, x ∈ l -> ~ P x) -> filter P l = [].
Proof.
  induction l as [|x l IH]; intros Hno; [reflexivity|].
  rewrite filter_cons_False by (apply Hno; left).
  apply IH. intros y Hy. apply Hno. right. exact Hy.
Qed.

Lemma filter_label_unique col cols :
  NoDup (map name cols) -> col ∈ map name cols ->
  exists s, filter (fun s => has_label col s = true) cols = [s]
            /\ s ∈ cols /\ name s = col.
Proof.
  induction cols as [|s cols IH]; intros Hnd Hin; [inversion Hin|].
  cbn [map] in *. apply NoDup_cons in Hnd. destruct Hnd as [Hfresh Hnd].
  destruct (decide (name s = col)) as [Heq|Hne].
  - exists s. split; [|split; [left | exact Heq]].
    rewrite filter_cons_True
      by (unfold has_label; apply bool_decide_eq_true; exact Heq).
    f_equal. apply filter_none. intros s' Hs' Hl.
    unfold has_label in Hl. apply bool_decide_eq_true in Hl.
    apply Hfresh. rewrite Heq, <- Hl. apply list_elem_of_fmap_2, Hs'.
  - apply elem_of_cons in Hin. destruct Hin as [Hin|Hin]; [congruence|].
    destruct (IH Hnd Hin) as (s' & Hf & Hs' & Hn).
    exists s'. split; [|split; [right; exact Hs' | exact Hn]].
    rewrite filter_cons_False; [exact Hf|].
    unfold has_label. rewrite bool_decide_eq_true. exact Hne.
Qed.

Lemma getitem_unique f col :
  NoDup (labels f) -> col ∈ labels f ->
  exists s, getitem f col = Ok (ISeries s) /\ s ∈ columns f /\ name s = col
            /\ forall s', s' ∈ columns f -> has_label col s' = true -> s' = s.
Proof.
  intros Hnd Hin. destruct (filter_label_unique col (columns f) Hnd Hin)
    as (s & Hf & Hs & Hn).
  exists s. unfold getitem. rewrite Hf.
  split; [reflexivity|]. split; [exact Hs|]. split; [exact Hn|].
  intros s' Hs' Hl. eapply filter_singleton_eq; eassumption.
Qed.

(** *** Folding a column transformer over labels *)

Lemma on_labels_cons col cols g s :
  (forall s, name (g s) = name s) -> (forall s, g (g s) = g s) ->
  on_labels cols g (on_label col g s) = on_labels (col :: cols) g s.
Proof.
  intros Hname Hidem. unfold on_labels, on_label, has_label.
  destruct (decide (name s = col)) as [Heq|Hne].
  - rewrite (bool_decide_eq_true_2 _ Heq), Hname.
    rewrite (bool_decide_eq_true_2 (name s ∈ col :: cols))
      by (rewrite Heq; left).
    destruct (bool_decide (name s ∈ cols)); [apply Hidem | reflexivity].
  - rewrite (bool_decide_eq_false_2 _ Hne).
    destruct (decide (name s ∈ cols)) as [Hin|Hnin].
    + rewrite (bool_decide_eq_true_2 _ Hin).
      rewrite (bool_decide_eq_true_2 (name s ∈ col :: cols))
        by (right; exact Hin).
      reflexivity.
    + rewrite (bool_decide_eq_false_2 _ Hnin).
      rewrite (bool_decide_eq_false_2 (name s ∈ col :: cols)); [reflexivity|].
      rewrite elem_of_cons. intros [H|H]; [congruence | contradiction].
Qed.

Lemma on_labels_all g f :
  map_columns (on_labels (labels f) g) f = map_columns g f.
Proof.
  unfold map_columns. f_equal. apply map_ext_in. intros s Hs.
  unfold on_labels. rewrite bool_decide_eq_true_2; [reflexivity|].
  unfold labels. apply list_elem_of_fmap_2, list_elem_of_In, Hs.
Qed.

Lemma labels_map_columns g f :
  (forall s, name (g s) = name s) -> labels (map_columns g f) = labels f.
Proof.
  intros Hname. unfold labels, map_columns. simpl. rewrite map_map.
  apply map_ext. exact Hname.
Qed.

Lemma on_label_name col g s :
  (forall s, name (g s) = name s) -> name (on_label col g s) = name s.
Proof. intros H. unfold on_label. destruct (has_label col s); auto. Qed.

(** ** Running the normalisation *)

Lemma with_frame_lookup m d f : heap (with_frame m d f) !! d = Some f.
Proof. simpl. apply lookup_insert_eq. Qed.

Lemma with_frame_id m d f : heap m !! d = Some f -> with_frame m d f = m.
Proof.
  intros H. destruct m as [h r i l]. unfold with_frame. simpl in *.
  rewrite insert_id by exact H. reflexivity.
Qed.

Lemma with_frame_twice m d f g :
  with_frame (with_frame m d f) d g = with_frame m d g.
Proof. unfold with_frame. simpl. rewrite insert_insert_eq. reflexivity. Qed.

Lemma deref_run m d f : heap m !! d = Some f -> deref d m = (Ok f, m).
Proof. intros H. unfold deref. rewrite H. reflexivity. Qed.

Lemma alloc_run m f :
  alloc f m = (Ok (fresh (dom (heap m))), with_frame m (fresh (dom (heap m))) f).
Proof. reflexivity. Qed.

Lemma map_columns_id f : map_columns (fun s => s) f = f.
Proof. destruct f as [n cs]. unfold map_columns. simpl. rewrite map_id. reflexivity. Qed.

Lemma map_columns_ext g h f :
  (forall s, s ∈ columns f -> g s = h s) -> map_columns g f = map_columns h f.
Proof.
  intros H. unfold map_columns. f_equal. apply map_ext_in.
  intros s Hs. apply H, list_elem_of_In, Hs.
Qed.

Lemma map_columns_compose g h f :
  map_columns g (map_columns h f) = map_columns (fun s => g (h s)) f.
Proof. unfold map_columns. simpl. rewrite map_map. reflexivity. Qed.

Lemma column_to_str_run m d f col :
  heap m !! d = Some f -> col ∈ labels f ->
  column_to_str d col m
  = (Ok tt, with_frame m d (map_columns (on_label col astype_str) f)).
Proof.
  intros Hf Hin. destruct (getitem_in f col Hin) as [it Hit].
  unfold column_to_str, df_getitem, df_setitem.
  rewrite !bind_run, (deref_run _ _ _ Hf). unfold lift. rewrite Hit.
  rewrite bind_run, (deref_run _ _ _ Hf).
  rewrite (setitem_astype _ _ _ Hit). reflexivity.
Qed.

Lemma for_each_column_to_str d cols : forall m f,
  heap m !! d = Some f ->
  (forall col, col ∈ cols -> col ∈ labels f) ->
  for_each cols (column_to_str d) m
  = (Ok tt, with_frame m d (map_columns (on_labels cols astype_str) f)).
Proof.
  induction cols as [|col cols IH]; intros m f Hf Hsub.
  - simpl. rewrite (map_columns_ext _ (fun s => s)) by reflexivity.
    rewrite map_columns_id, with_frame_id by exact Hf. reflexivity.
  - cbn [for_each]. rewrite bind_run.
    rewrite (column_to_str_run m d f col Hf) by (apply Hsub; left).
    rewrite (IH _ (map_columns (on_label col astype_str) f)).
    + rewrite with_frame_twice, map_columns_compose. do 2 f_equal.
      apply map_columns_ext. intros s _.
      apply on_labels_cons; [reflexivity | apply astype_str_idem].
    + apply with_frame_lookup.
    + intros c Hc. rewrite labels_map_columns
        by (intros; apply on_label_name; reflexivity).
      apply Hsub. right. exact Hc.
Qed.

Lemma dumps_frame_run m d f :
  heap m !! d = Some f ->
  dumps_frame d m
  = (match json_dumps_table (values_tolist f) with
     | Ok _ => Ok tt
     | Raise e => Raise e
     end, m).
Proof.
  intros Hf. unfold dumps_frame. rewrite bind_run, (deref_run _ _ _ Hf).
  rewrite bind_run. unfold lift.
  destruct (json_dumps_table (values_tolist f)); reflexivity.
Qed.

(** *** Catchable frames *)

Lemma catchable_astype s :
  Forall (fun c => cell_catchable c = true) (cells (astype_str s)).
Proof. simpl. apply Forall_map, Forall_forall. reflexivity. Qed.

Lemma catchable_map_columns g f :
  (forall s, Forall (fun c => cell_catchable c = true) (cells s) ->
             Forall (fun c => cell_catchable c = true) (cells (g s))) ->
  catchable f -> catchable (map_columns g f).
Proof.
  intros Hg Hf. unfold catchable, map_columns in *. simpl.
  apply Forall_map. eapply Forall_impl; [exact Hf|]. exact Hg.
Qed.

Lemma catchable_coerce col f :
  catchable f -> catchable (map_columns (on_label col coerce_unencodable) f).
Proof.
  apply catchable_map_columns. intros s Hs. unfold on_label, coerce_unencodable.
  destruct (has_label col s); [|exact Hs].
  destruct (encodes s); [exact Hs | apply catchable_astype].
Qed.

Lemma catchable_raise f s e :
  catchable f -> s ∈ columns f -> json_dumps_list (cells s) = Raise e ->
  type_or_overflow e = true.
Proof.
  intros Hf Hs He. destruct (dumps_list_raise _ _ He) as (c & Hc & Hce).
  unfold catchable in Hf. rewrite Forall_forall in Hf.
  specialize (Hf s Hs). rewrite Forall_forall in Hf. specialize (Hf c Hc).
  unfold cell_catchable in Hf. rewrite Hce in Hf. exact Hf.
Qed.

(** *** The per-column trial *)

Lemma trial_run m d f col :
  heap m !! d = Some f -> NoDup (labels f) -> col ∈ labels f -> catchable f ->
  try_except (dumps_column d col) type_or_overflow
             (fun _ => column_to_str d col) m
  = (Ok tt, with_frame m d (map_columns (on_label col coerce_unencodable) f)).
Proof.
  intros Hf Hnd Hin Hcatch.
  destruct (getitem_unique f col Hnd Hin) as (s & Hget & Hs & Hname & Huniq).
  unfold try_except, dumps_column, df_getitem.
  rewrite !bind_run, (deref_run _ _ _ Hf). unfold lift. rewrite Hget.
  simpl item_tolist. cbv iota. rewrite bind_run.
  destruct (json_dumps_list (cells s)) as [j|e] eqn:Henc.
  - simpl. rewrite (map_columns_ext _ (fun s => s)).
    + rewrite map_columns_id, with_frame_id by exact Hf. reflexivity.
    + intros s' Hs'. unfold on_label.
      destruct (has_label col s') eqn:Hl; [|reflexivity].
      rewrite (Huniq s' Hs' Hl). unfold coerce_unencodable, encodes.
      rewrite Henc. reflexivity.
  - simpl. rewrite (catchable_raise f s e Hcatch Hs Henc).
    rewrite (column_to_str_run m d f col Hf Hin). do 2 f_equal.
    apply map_columns_ext. intros s' Hs'. unfold on_label.
    destruct (has_label col s') eqn:Hl; [|reflexivity].
    rewrite (Huniq s' Hs' Hl). unfold coerce_unencodable, encodes.
    rewrite Henc. reflexivity.
Qed.

Lemma for_each_trial d cols : forall m f,
  heap m !! d = Some f -> NoDup (labels f) -> catchable f ->
  (forall col, col ∈ cols -> col ∈ labels f) ->
  for_each cols
    (fun col => try_except (dumps_column d col) type_or_overflow
                           (fun _ => column_to_str d col)) m
  = (Ok tt,
     with_frame m d (map_columns (on_labels cols coerce_unencodable) f)).
Proof.
  induction cols as [|col cols IH]; intros m f Hf Hnd Hcatch Hsub.
  - simpl. rewrite (map_columns_ext _ (fun s => s)) by reflexivity.
    rewrite map_columns_id, with_frame_id by exact Hf. reflexivity.
  - cbn [for_each]. rewrite bind_run.
    rewrite (trial_run m d f col Hf Hnd) by (auto; apply Hsub; left).
    assert (Hlab : labels (map_columns (on_label col coerce_unencodable) f)
                   = labels f)
      by (apply labels_map_columns; intros; apply on_label_name;
          apply coerce_unencodable_name).
    rewrite (IH _ (map_columns (on_label col coerce_unencodable) f)).
    + rewrite with_frame_twice, map_columns_compose. do 2 f_equal.
      apply map_columns_ext. intros s _.
      apply on_labels_cons;
        [apply coerce_unencodable_name | apply coerce_unencodable_idem].
    + apply with_frame_lookup.
    + rewrite Hlab. exact Hnd.
    + apply catchable_coerce, Hcatch.
    + intros c Hc. rewrite Hlab. apply Hsub. right. exact Hc.
Qed.

(** *** Encoding a whole frame *)

Lemma cast_of_encodes f c :
  is_Ok (json_dumps_cell c) = true ->
  is_Ok (json_dumps_cell (cast_of f c)) = true.
Proof.
  unfold cast_of. destruct (upcasts f); [|auto].
  destruct c; simpl; auto.
Qed.

Lemma row_encodes f i :
  Forall (fun s => encodes s = true) (columns f) ->
  is_Ok (json_dumps_list
           (map (fun s => cast_of f (default CNone (cells s !! i)))
                (columns f))) = true.
Proof.
  intros H. apply dumps_list_ok, Forall_map.
  eapply Forall_impl; [exact H|]. intros s Hs. simpl.
  apply cast_of_encodes.
  destruct (cells s !! i) as [c|] eqn:Hc; [|reflexivity]. simpl.
  apply dumps_list_cells in Hs. rewrite Forall_forall in Hs.
  apply Hs. eapply list_elem_of_lookup_2, Hc.
Qed.

Lemma frame_encodes f :
  Forall (fun s => encodes s = true) (columns f) ->
  is_Ok (json_dumps_table (values_tolist f)) = true.
Proof.
  intros H. unfold json_dumps_table, values_tolist.
  destruct (dumps_items_ok json_dumps_list
              (map (fun i => map (fun s => cast_of f (default CNone (cells s !! i)))
                                 (columns f)) (seq 0 (nrows f))))
    as [js ->]; [|reflexivity].
  apply Forall_map, Forall_forall. intros i _. apply row_encodes, H.
Qed.

Lemma header_encodes (l : list string) :
  is_Ok (json_dumps_list (map CStr l)) = true.
Proof. apply dumps_list_ok, Forall_map, Forall_forall. reflexivity. Qed.

Lemma values_of_encodes f :
  is_Ok (json_dumps_table (values_tolist f)) = true ->
  is_Ok (json_dumps_table (values_of f)) = true.
Proof.
  unfold json_dumps_table, values_of. cbn [json_dumps_items].
  pose proof (header_encodes (labels f)) as Hh.
  destruct (json_dumps_list (map CStr (labels f))); [|discriminate].
  destruct (json_dumps_items json_dumps_list (values_tolist f));
    [reflexivity | discriminate].
Qed.

Lemma all_str_encodes f :
  Forall (fun s => encodes s = true) (columns (map_columns astype_str f)).
Proof.
  unfold map_columns. simpl. apply Forall_map, Forall_forall.
  intros s _. apply astype_str_encodes.
Qed.

(** *** The last resort *)

Lemma read_frame_run {A} m d f (g : DataFrame -> A) :
  heap m !! d = Some f -> (f ← deref d; mret (g f)) m = (Ok (g f), m).
Proof. intros Hf. rewrite bind_run, (deref_run _ _ _ Hf). reflexivity. Qed.

Lemma last_resort_run m d f :
  heap m !! d = Some f ->
  last_resort d m
  = match json_dumps_table (values_tolist f) with
    | Ok _ => (Ok tt, m)
    | Raise e =>
        if type_or_overflow e
        then (Ok tt, with_frame m d (map_columns astype_str f))
        else (Raise e, m)
    end.
Proof.
  intros Hf. unfold last_resort, try_except.
  rewrite (dumps_frame_run m d f Hf).
  destruct (json_dumps_table (values_tolist f)) as [j|e]; [reflexivity|].
  destruct (type_or_overflow e); [|reflexivity].
  rewrite bind_run, (read_frame_run m d f labels Hf).
  rewrite (for_each_column_to_str d (labels f) m f Hf) by auto.
  rewrite on_labels_all. reflexivity.
Qed.

Lemma last_resort_returns m d m' :
  last_resort d m = (Ok tt, m') ->
  exists f', heap m' !! d = Some f'
             /\ is_Ok (json_dumps_table (values_tolist f')) = true.
Proof.
  destruct (heap m !! d) as [f|] eqn:Hf.
  - rewrite (last_resort_run m d f Hf).
    destruct (json_dumps_table (values_tolist f)) as [j|e] eqn:Hj.
    + intros [= <-]. exists f. rewrite Hj. auto.
    + destruct (type_or_overflow e); [|discriminate].
      intros [= <-]. exists (map_columns astype_str f).
      split; [apply with_frame_lookup | apply frame_encodes, all_str_encodes].
  - unfold last_resort, try_except, dumps_frame.
    rewrite bind_run. unfold deref. rewrite Hf. simpl. discriminate.
Qed.

Ltac bind_inv H :=
  rewrite bind_run in H;
  match type of H with
  | context [match ?c ?m with _ => _ end] =>
      let a := fresh "a" in
      let e := fresh "e" in
      let m' := fresh "m" in
      let E := fresh "E" in
      destruct (c m) as [[a|e] m'] eqn:E; [|discriminate H]
  end.

Lemma prepare_returns_encodable df m df' m' :
  prepare_dataframe_for_sheets df m = (Ok df', m') ->
  exists f', heap m' !! df' = Some f'
             /\ is_Ok (json_dumps_table (values_tolist f')) = true
             /\ is_Ok (json_dumps_table (values_of f')) = true.
Proof.
  intros H. unfold prepare_dataframe_for_sheets in H.
  do 8 bind_inv H. inversion H; subst.
  destruct a6. destruct (last_resort_returns _ _ _ E6) as (f' & Hf' & Henc).
  exists f'. split; [exact Hf'|]. split; [exact Henc|].
  apply values_of_encodes, Henc.
Qed.

(** *** The normal form of a frame with distinct labels *)

Lemma name_injective cols s s' :
  NoDup (map name cols) -> s ∈ cols -> s' ∈ cols -> name s = name s' ->
  s = s'.
Proof.
  induction cols as [|c cols IH]; intros Hnd Hs Hs' Hn; [inversion Hs|].
  cbn [map] in Hnd. apply NoDup_cons in Hnd. destruct Hnd as [Hfresh Hnd].
  apply elem_of_cons in Hs. apply elem_of_cons in Hs'.
  destruct Hs as [->|Hs], Hs' as [->|Hs'].
  - reflexivity.
  - exfalso. apply Hfresh. rewrite Hn. apply list_elem_of_fmap_2, Hs'.
  - exfalso. apply Hfresh. rewrite <- Hn. apply list_elem_of_fmap_2, Hs.
  - apply IH; assumption.
Qed.

Lemma date_labels_subset f col :
  col ∈ select_dtypes_datetime f -> col ∈ labels f.
Proof.
  unfold select_dtypes_datetime, labels. intros H.
  apply list_elem_of_fmap in H. destruct H as (s & -> & Hs).
  apply list_elem_of_filter in Hs. apply list_elem_of_fmap_2, Hs.
Qed.

Lemma dates_on_labels f :
  NoDup (labels f) ->
  map_columns (on_labels (select_dtypes_datetime f) astype_str) f
  = map_columns dates_to_str f.
Proof.
  intros Hnd. apply map_columns_ext. intros s Hs.
  unfold on_labels, dates_to_str, select_dtypes_datetime.
  destruct (is_datetime (dtype s)) eqn:Hd.
  - rewrite bool_decide_eq_true_2; [reflexivity|].
    apply list_elem_of_fmap_2, list_elem_of_filter. auto.
  - rewrite bool_decide_eq_false_2; [reflexivity|].
    intros Hin. apply list_elem_of_fmap in Hin.
    destruct Hin as (s' & Hn & Hs'). apply list_elem_of_filter in Hs'.
    destruct Hs' as [Hd' Hs'].
    rewrite (name_injective (columns f) s s' Hnd Hs Hs' Hn) in Hd. congruence.
Qed.

Lemma nulls_on_cells f :
  map_cells where_notnull (map_cells replace_na_nat f)
  = map_columns nulls_to_none f.
Proof.
  unfold map_cells, map_columns, nulls_to_none. simpl. f_equal.
  rewrite map_map. apply map_ext. intros s. simpl. rewrite map_map.
  reflexivity.
Qed.

Lemma cell_catchable_nulls d c :
  cell_catchable c = true ->
  cell_catchable (where_notnull d (replace_na_nat d c)) = true.
Proof. destruct d, c; simpl; auto. Qed.

Lemma catchable_stage2 f :
  catchable f ->
  catchable (map_columns nulls_to_none (map_columns dates_to_str f)).
Proof.
  intros H. apply catchable_map_columns.
  - intros s Hs. simpl. apply Forall_map. eapply Forall_impl; [exact Hs|].
    intros c. apply cell_catchable_nulls.
  - apply catchable_map_columns; [|exact H].
    intros s Hs. unfold dates_to_str.
    destruct (is_datetime (dtype s)); [apply catchable_astype | exact Hs].
Qed.

Lemma dates_to_str_name s : name (dates_to_str s) = name s.
Proof. unfold dates_to_str. destruct (is_datetime (dtype s)); reflexivity. Qed.

Lemma normalize_encodes f :
  Forall (fun s => encodes s = true) (columns (normalize f)).
Proof.
  unfold normalize, map_columns. simpl. apply Forall_map, Forall_forall.
  intros s _. apply coerce_unencodable_encodes.
Qed.

Lemma catchableb_catchable f : catchableb f = true -> catchable f.
Proof.
  unfold catchableb, catchable. intros H.
  apply Forall_forall. intros s Hs. apply Forall_forall. intros c Hc.
  rewrite forallb_forall in H.
  specialize (H s (proj1 (list_elem_of_In _ _) Hs)).
  rewrite forallb_forall in H.
  apply H, list_elem_of_In, Hc.
Qed.

(** From a frame with distinct labels and catchable cells the function
    returns, and what it returns is a new object holding [normalize f]. *)
Lemma prepare_run df m f :
  heap m !! df = Some f -> NoDup (labels f) -> catchable f ->
  exists df' m',
    prepare_dataframe_for_sheets df m = (Ok df', m')
    /\ heap m' !! df' = Some (normalize f).
Proof.
  intros Hf Hnd Hcatch.
  unfold prepare_dataframe_for_sheets, copy_deep, frame_map.
  rewrite bind_run, bind_run, (deref_run _ _ _ Hf), alloc_run.
  set (d1 := fresh (dom (heap m))). set (m1 := with_frame m d1 f).
  assert (H1 : heap m1 !! d1 = Some f) by apply with_frame_lookup.
  rewrite bind_run, (read_frame_run m1 d1 f select_dtypes_datetime H1).
  rewrite bind_run, (for_each_column_to_str d1 _ m1 f H1)
    by apply date_labels_subset.
  rewrite (dates_on_labels f Hnd).
  set (f1 := map_columns dates_to_str f).
  set (m2 := with_frame m1 d1 f1).
  assert (H2 : heap m2 !! d1 = Some f1) by apply with_frame_lookup.
  rewrite bind_run, bind_run, (deref_run _ _ _ H2), alloc_run.
  set (d2 := fresh (dom (heap m2))).
  set (m3 := with_frame m2 d2 (map_cells replace_na_nat f1)).
  assert (H3 : heap m3 !! d2 = Some (map_cells replace_na_nat f1))
    by apply with_frame_lookup.
  rewrite bind_run, bind_run, (deref_run _ _ _ H3), alloc_run.
  rewrite nulls_on_cells.
  set (d3 := fresh (dom (heap m3))).
  set (f3 := map_columns nulls_to_none f1).
  set (m4 := with_frame m3 d3 f3).
  assert (H4 : heap m4 !! d3 = Some f3) by apply with_frame_lookup.
  assert (Hlab : labels f3 = labels f).
  { unfold f3, f1. rewrite !labels_map_columns; auto using dates_to_str_name. }
  rewrite bind_run, (read_frame_run m4 d3 f3 labels H4).
  rewrite bind_run, (for_each_trial d3 (labels f3) m4 f3 H4);
    [ | rewrite Hlab; exact Hnd | apply catchable_stage2, Hcatch | auto ].
  rewrite on_labels_all.
  set (f4 := map_columns coerce_unencodable f3).
  assert (Hnorm : f4 = normalize f).
  { unfold f4, f3, f1, normalize. rewrite !map_columns_compose. reflexivity. }
  set (m5 := with_frame m4 d3 f4).
  assert (H5 : heap m5 !! d3 = Some f4) by apply with_frame_lookup.
  rewrite bind_run, (last_resort_run m5 d3 f4 H5).
  pose proof (frame_encodes f4) as Henc. rewrite Hnorm in Henc.
  specialize (Henc (normalize_encodes f)). rewrite Hnorm.
  destruct (json_dumps_table (values_tolist (normalize f))); [|discriminate].
  exists d3, m5. split; [reflexivity|]. rewrite <- Hnorm. exact H5.
Qed.

(** *** A missing timestamp *)

(** C7: the function run on [nullable_dates], a frame with a column of
    dtype datetime64[ns] that holds a timestamp and a [NaT], and an
    integer column.  It returns a frame that can be JSON-encoded, with
    and without the header row, and in which the timestamp is its
    string; but the missing marker [NaT] of the input is no absence
    value in the frame returned: it is the text [NaT], a string like
    any other.  The column was turned into strings (line 166) before the
    missing markers were replaced (lines 169 and 170), and these lines
    find no missing marker in it any more. *)
Theorem prepare_dataframe_for_sheets_nat_becomes_text :
  exists df' m' f',
    prepare_dataframe_for_sheets 0
      (run_with nullable_dates (fun _ => answers)) = (Ok df', m')
    /\ heap m' !! df' = Some f'
    /\ is_Ok (json_dumps_table (values_tolist f')) = true
    /\ is_Ok (json_dumps_table (values_of f')) = true
    /\ (columns nullable_dates !! 0%nat ≫= fun s => cells s !! 0%nat)
       = Some (CTimestamp "2024-01-15")
    /\ (columns f' !! 0%nat ≫= fun s => cells s !! 0%nat)
       = Some (CStr "2024-01-15")
    /\ (columns nullable_dates !! 0%nat ≫= fun s => cells s !! 1%nat)
       = Some CNaT
    /\ notnull CNaT = false
    /\ (columns f' !! 0%nat ≫= fun s => cells s !! 1%nat)
       = Some (CStr "NaT")
    /\ notnull (CStr "NaT") = true
    /\ json_dumps_cell (CStr "NaT") = Ok (JStr "NaT")
    /\ json_dumps_cell CNone = Ok JNull.
Proof.
  exists 3%nat,
    (prepare_dataframe_for_sheets 0
       (run_with nullable_dates (fun _ => answers))).2,
    (normalize nullable_dates).
  split; [vm_compute; reflexivity|].
  split; [vm_compute; reflexivity|].
  split; [vm_compute; reflexivity|].
  split; [vm_compute; reflexivity|].
  repeat split; reflexivity.
Qed.

(** ** Encoding, then decoding *)

(** C8: the round trip run on [nullable_dates], a table that holds a
    timestamp, a null (the [NaT] of the timestamp column) and a
    primitive value (the integers of the second column).  Normalising
    and encoding succeed, and decoding gives the canonical string at the
    place of the timestamp and the integer unchanged at the place of the
    primitive value; at the place of the null it gives the text [NaT],
    not the absence marker.  The column was turned into strings (line
    166) before the replacement of [pd.NaT] by [None] (line 169), which
    then finds nothing to replace. *)
Theorem nat_in_date_column_comes_back_as_text :
  exists df' m' j,
    prepare_dataframe_for_sheets 0
      (run_with nullable_dates (fun _ => answers)) = (Ok df', m')
    /\ heap m' !! df' = Some (normalize nullable_dates)
    /\ json_dumps_table (values_tolist (normalize nullable_dates)) = Ok j
    /\ json_loads j
       = PList [ PList [PStr "2024-01-15"; PInt 1];
                 PList [PStr "NaT"; PInt 2] ]
    /\ (columns nullable_dates !! 0%nat ≫= fun s => cells s !! 1%nat)
       = Some CNaT
    /\ notnull CNaT = false
    /\ decoded_cell (json_loads j) 1 0 = Some (PStr "NaT")
    /\ decoded_cell (json_loads j) 1 0 <> Some PNone
    /\ decoded_cell (json_loads j) 0 0 = Some (PStr "2024-01-15")
    /\ decoded_cell (json_loads j) 0 1 = Some (PInt 1).
Proof.
  exists 3%nat,
    (prepare_dataframe_for_sheets 0
       (run_with nullable_dates (fun _ => answers))).2,
    (JArr [ JArr [JStr "2024-01-15"; JInt 1]; JArr [JStr "NaT"; JInt 2] ]).
  split; [vm_compute; reflexivity|].
  split; [vm_compute; reflexivity|].
  split; [vm_compute; reflexivity|].
  split; [reflexivity|]. split; [reflexivity|]. split; [reflexivity|].
  split; [reflexivity|]. split; [discriminate|].
  split; reflexivity.
Qed.

(** *** Frames from which the function does not return *)

(** Two columns of the same label: [df_copy[col]] is then a sub-frame,
    which has no [tolist]. *)
Example prepare_rejects_repeated_labels :
  (prepare_dataframe_for_sheets 0
     (run_with {| nrows := 1;
                  columns := [ {| name := "id"; dtype := int64;
                                  cells := [CInt 1] |};
                               {| name := "id"; dtype := int64;
                                  cells := [CInt 2] |} ] |}
               (fun _ => answers))).1
  = Raise (PyExc AttributeError "'DataFrame' object has no attribute 'tolist'").
Proof. vm_compute. reflexivity. Qed.

(** An object on which [json.dumps] raises [ValueError] (a list that
    contains itself): the handlers of the function do not catch it. *)
Example prepare_propagates_value_error :
  (prepare_dataframe_for_sheets 0
     (run_with {| nrows := 1;
                  columns := [ {| name := "tags"; dtype := object_;
                                  cells := [CObj "[[...]]"
                                              (Raise (PyExc ValueError
                                                 "Circular reference detected"))] |} ] |}
               (fun _ => answers))).1
  = Raise (PyExc ValueError "Circular reference detected").
Proof. vm_compute. reflexivity. Qed.

(** ** The three write scenarios *)

(** C1: let the frame have distinct labels and catchable cells, so that
    the function prepares it, and let the prepared table (header row,
    then data rows) have more than 5000 rows.  When every request is
    answered, [write_dataframe_to_sheet] returns after one attempt that
    sends exactly [ceil(rows / 5000)] requests: the first an update at
    [Sheet1!A1], every other one an append; the payloads, concatenated in
    the order sent, are the table itself - no row moved, repeated or
    lost - and so is the sheet they leave.  For 5201 rows the requests
    are two: an update carrying the header and 4999 data rows, and an
    append carrying the last 201. *)
Theorem write_dataframe_to_sheet_batches :
  forall (cr : Credentials) (sid : string) (df : nat) (m : Machine)
         (f : DataFrame),
    heap m !! df = Some f ->
    NoDup (labels f) -> catchableb f = true ->
    BATCH_SIZE < len (values_of (normalize f)) ->
    always_responds m ->
    let values := values_of (normalize f) in
    exists m2 evs,
      write_dataframe_to_sheet cr sid df m = (Ok tt, m2)
      /\ effects_of m m2 evs
      /\ attempts evs = 1%nat
      /\ len (requests evs) = ceil_div (len values) BATCH_SIZE
      /\ (exists rest,
            requests evs
            = ValuesUpdate sid "Sheet1!A1" "RAW" (take batch_rows values)
              :: rest
            /\ Forall (fun req => is_append req = true) rest)
      /\ concat (map payload (requests evs)) = values
      /\ sheet_after evs [] = values
      /\ (len values = 5201 ->
          requests evs
          = [ ValuesUpdate sid "Sheet1!A1" "RAW"
                (map CStr (labels (normalize f))
                 :: take (Z.to_nat 4999) (values_tolist (normalize f)));
              ValuesAppend sid "Sheet1!A5001" "RAW" "INSERT_ROWS"
                (drop (Z.to_nat 4999) (values_tolist (normalize f))) ]
          /\ len (take (Z.to_nat 4999) (values_tolist (normalize f))) = 4999
          /\ len (drop (Z.to_nat 4999) (values_tolist (normalize f))) = 201).
Proof.
  intros cr sid df m f Hf Hnd Hcatch Hbig Hok values.
  destruct (prepare_run df m f Hf Hnd (catchableb_catchable f Hcatch))
    as (df' & m1 & Hp & Hh).
  exact (write_batches_after_prepare cr sid df m df' m1 (normalize f)
           Hp Hh Hbig Hok).
Qed.

Lemma write_dataframe_to_sheet_batches_witness :
  exists m2 evs,
    write_dataframe_to_sheet (mkCredentials "tok") "sheet-1" 0
      (run_with (int_table 5200) (fun _ => answers)) = (Ok tt, m2)
    /\ effects_of (run_with (int_table 5200) (fun _ => answers)) m2 evs
    /\ len (requests evs) = 2
    /\ concat (map payload (requests evs))
       = values_of (normalize (int_table 5200)).
Proof.
  destruct (write_dataframe_to_sheet_batches
              (mkCredentials "tok") "sheet-1" 0
              (run_with (int_table 5200) (fun _ => answers))
              (int_table 5200))
    as (m2 & evs & Hrun & Heff & _ & Hlen & _ & Hcat & _).
  - reflexivity.
  - apply (bool_decide_unpack _). vm_compute. exact I.
  - vm_compute. reflexivity.
  - reflexivity.
  - intros k _. eexists. reflexivity.
  - exists m2, evs. split; [exact Hrun|]. split; [exact Heff|].
    split; [|exact Hcat]. rewrite Hlen. reflexivity.
Defined.

(** C5: let the frame have distinct labels and catchable cells, and let
    the prepared table have at most 5000 rows, header included.  When the
    service answers, [write_dataframe_to_sheet] sends exactly one
    request: an update at [Sheet1!A1] that carries the whole table, the
    header row and every data row. *)
Theorem write_dataframe_to_sheet_single :
  forall (cr : Credentials) (sid : string) (df : nat) (m : Machine)
         (f : DataFrame) (r : Response),
    heap m !! df = Some f ->
    NoDup (labels f) -> catchableb f = true ->
    len (values_of (normalize f)) <= BATCH_SIZE ->
    remote m (issued m) = Responds r ->
    let values := values_of (normalize f) in
    exists m2 evs,
      write_dataframe_to_sheet cr sid df m = (Ok tt, m2)
      /\ effects_of m m2 evs
      /\ evs = [EvBuild "sheets" "v4";
                EvCall (ValuesUpdate sid "Sheet1!A1" "RAW" values)
                       (Responds r)]
      /\ requests evs = [ValuesUpdate sid "Sheet1!A1" "RAW" values]
      /\ sheet_after evs [] = values.
Proof.
  intros cr sid df m f r Hf Hnd Hcatch Hsmall Hr values.
  destruct (prepare_run df m f Hf Hnd (catchableb_catchable f Hcatch))
    as (df' & m1 & Hp & Hh).
  exact (write_single_after_prepare cr sid df m df' m1 (normalize f) r
           Hp Hh Hsmall Hr).
Qed.

Lemma write_dataframe_to_sheet_single_witness :
  exists m2 evs,
    write_dataframe_to_sheet (mkCredentials "tok") "sheet-1" 0
      (run_with (int_table 2) (fun _ => answers)) = (Ok tt, m2)
    /\ requests evs
       = [ValuesUpdate "sheet-1" "Sheet1!A1" "RAW"
            [[CStr "n"]; [CInt 7]; [CInt 7]]].
Proof.
  destruct (write_dataframe_to_sheet_single
              (mkCredentials "tok") "sheet-1" 0
              (run_with (int_table 2) (fun _ => answers))
              (int_table 2)
              {| resp_spreadsheetId := Some "sheet-1"; resp_parents := None |})
    as (m2 & evs & Hrun & _ & _ & Hreq & _).
  - reflexivity.
  - apply (bool_decide_unpack _). vm_compute. exact I.
  - reflexivity.
  - vm_compute. discriminate.
  - reflexivity.
  - exists m2, evs. split; [exact Hrun | exact Hreq].
Defined.

(** C2: in the batched path, let the request for chunk [k >= 1] fail with
    a retryable HttpError (429, 500, 502, 503, 504) after chunks
    [0 .. k-1] were written, and let every other request be answered.
    The loop waits once and starts over from chunk 0: the requests of the
    run are those of chunks [0 .. k], then those of all the chunks again,
    chunk 0 as an update and every other one as an append.  The call
    returns normally, and the sheet then holds chunks [0 .. k-1] followed
    by chunks [1 .. n-1]: the rows of chunks [1 .. k-1] are there twice,
    and the sheet is [(k-1) * 5000] rows longer than the table. *)
Theorem write_dataframe_to_sheet_retry_repeats_appends :
  forall (cr : Credentials) (sid : string) (df : nat) (m : Machine)
         (f : DataFrame) (k : nat) (status : Z) (text : string),
    heap m !! df = Some f ->
    NoDup (labels f) -> catchableb f = true ->
    BATCH_SIZE < len (values_of (normalize f)) ->
    (1 <= k < length (make_batches (values_of (normalize f))))%nat ->
    status_in status retryable_statuses = true ->
    remote m (issued m + k)%nat = Fails (HttpError status text) ->
    (forall j, j <> (issued m + k)%nat -> exists r, remote m j = Responds r) ->
    let values := values_of (normalize f) in
    exists m2 evs,
      write_dataframe_to_sheet cr sid df m = (Ok tt, m2)
      /\ effects_of m m2 evs
      /\ requests evs
         = take (S k) (batch_requests sid values) ++ batch_requests sid values
      /\ sleeps evs = [1]
      /\ attempts evs = 2%nat
      /\ sheet_after evs []
         = concat (take k (make_batches values))
           ++ concat (drop 1 (make_batches values))
      /\ len (sheet_after evs [])
         = len values + (Z.of_nat k - 1) * BATCH_SIZE.
Proof.
  intros cr sid df m f k status text Hf Hnd Hcatch Hbig Hk Hst Hbad Hok values.
  destruct (prepare_run df m f Hf Hnd (catchableb_catchable f Hcatch))
    as (df' & m1 & Hp & Hh).
  exact (write_retry_after_prepare cr sid df m df' m1 (normalize f)
           k status text Hp Hh Hbig Hk Hst Hbad Hok).
Qed.

Lemma write_dataframe_to_sheet_retry_repeats_appends_witness :
  exists m2 evs,
    write_dataframe_to_sheet (mkCredentials "tok") "sheet-1" 0
      (run_with (int_table 10000) third_refused) = (Ok tt, m2)
    /\ sleeps evs = [1]
    /\ len (values_of (normalize (int_table 10000))) = 10001
    /\ len (sheet_after evs []) = 15001.
Proof.
  destruct (write_dataframe_to_sheet_retry_repeats_appends
              (mkCredentials "tok") "sheet-1" 0
              (run_with (int_table 10000) third_refused)
              (int_table 10000) 2 503 "unavailable")
    as (m2 & evs & Hrun & _ & _ & Hsl & _ & _ & Hlen).
  - reflexivity.
  - apply (bool_decide_unpack _). vm_compute. exact I.
  - vm_compute. reflexivity.
  - reflexivity.
  - lazy. split; repeat constructor.
  - reflexivity.
  - reflexivity.
  - intros j Hj. unfold run_with, third_refused. simpl in *.
    destruct (Nat.eqb_spec j 2) as [->|_]; [lia | eexists; reflexivity].
  - exists m2, evs. split; [exact Hrun|]. split; [exact Hsl|].
    split; [reflexivity|]. rewrite Hlen. reflexivity.
Defined.

(** * Further properties *)

(** ** What a retry loop can raise *)

Section RetryRaises.
Context {A : Type} (what : string) (attempt : M A).

Lemma retry_loop_raises_wrapped (n : nat) : forall k m e,
  0 <= k -> k + Z.of_nat n = MAX_RETRIES -> (0 < n)%nat ->
  (retry_loop what attempt (seqZ k (Z.of_nat n)) m).1 = Raise e ->
  exists text, e = PyExc RuntimeError (what +:+ ": " +:+ text).
Proof.
  unfold MAX_RETRIES.
  induction n as [|n IH]; intros k m e Hk Hkn Hn; [lia|].
  rewrite seqZ_cons by lia. cbn [retry_loop].
  destruct (attempt m) as [[a|[status text|cls text]] m'].
  - discriminate.
  - destruct ((MAX_RETRIES - 1 <=? k)
              || negb (status_in status retryable_statuses)) eqn:Hc.
    + intros [= <-]. eexists. reflexivity.
    + apply orb_false_iff in Hc. destruct Hc as [Hc _].
      apply Z.leb_gt in Hc. unfold MAX_RETRIES in Hc.
      rewrite bind_run, sleep_run.
      replace (Z.pred (Z.of_nat (S n))) with (Z.of_nat n) by lia.
      apply IH; lia.
  - intros [= <-]. eexists. reflexivity.
Qed.

Lemma retry_loop_only_wrapped m e :
  (retry_loop what attempt (py_range 0 MAX_RETRIES 1) m).1 = Raise e ->
  exists text, e = PyExc RuntimeError (what +:+ ": " +:+ text).
Proof.
  rewrite py_range_retries. apply (retry_loop_raises_wrapped 5 0); [lia | reflexivity | lia].
Qed.
End RetryRaises.

(** X3: the three wrapped operations raise nothing but [RuntimeError],
    with a message that starts with the name of the operation: no
    [HttpError] and no other exception of an attempt reaches the caller.
    The statement after each loop, which raises the message that ends in
    [after retries], is never reached: the fifth attempt returns or
    raises. *)
Theorem wrapped_operations_raise_runtime_error :
  forall (cr : Credentials) (m : Machine),
    (forall title e,
        (create_google_sheet cr title m).1 = Raise e ->
        exists text,
          e = PyExc RuntimeError ("Failed to create Google Sheet: " +:+ text)
          /\ e <> PyExc RuntimeError "Failed to create Google Sheet after retries")
    /\ (forall sid values e,
        (write_values cr sid values m).1 = Raise e ->
        exists text,
          e = PyExc RuntimeError
                ("Failed to write data to Google Sheet: " +:+ text)
          /\ e <> PyExc RuntimeError
                    "Failed to write data to Google Sheet after retries")
    /\ (forall file_id folder_id e,
        (move_sheet_to_folder cr file_id folder_id m).1 = Raise e ->
        exists text,
          e = PyExc RuntimeError
                ("Failed to move Google Sheet to folder: " +:+ text)
          /\ e <> PyExc RuntimeError
                    "Failed to move Google Sheet to folder after retries").
Proof.
  intros cr m. split; [|split].
  - intros title e H. unfold create_google_sheet in H.
    destruct (retry_loop_only_wrapped _ _ _ _ H) as [text ->].
    exists text. split; [reflexivity|]. intros E. inversion E.
  - intros sid values e H. unfold write_values in H.
    destruct (BATCH_SIZE <? len values);
      destruct (retry_loop_only_wrapped _ _ _ _ H) as [text ->];
      exists text; (split; [reflexivity|]); intros E; inversion E.
  - intros file_id folder_id e H. unfold move_sheet_to_folder in H.
    destruct (retry_loop_only_wrapped _ _ _ _ H) as [text ->].
    exists text. split; [reflexivity|]. intros E. inversion E.
Qed.

(** ** The size of a batch *)

(** X4: no request of the batched write carries more than 5000 rows and
    none is empty: every batch that [make_batches] cuts has between 1
    and [BATCH_SIZE] rows, and every batch but the last has exactly
    [BATCH_SIZE]. *)
Theorem make_batches_sizes :
  forall (values : list Row),
    Forall (fun batch => 0 < len batch <= BATCH_SIZE) (make_batches values)
    /\ (forall k batch,
          make_batches values !! k = Some batch ->
          (S k < length (make_batches values))%nat ->
          len batch = BATCH_SIZE).
Proof.
  intros values.
  pose proof (ceil_div_covers (len values) BATCH_SIZE ltac:(reflexivity)) as Hcov.
  pose proof batch_rows_Z as HB.
  assert (Hlook : forall k batch,
             make_batches values !! k = Some batch ->
             (k < batch_count values)%nat
             /\ batch = take batch_rows (drop (k * batch_rows) values)).
  { intros k batch Hk.
    assert (Hlt : (k < batch_count values)%nat).
    { apply lookup_lt_Some in Hk. rewrite make_batches_chunks in Hk.
      rewrite length_map, length_seq in Hk. exact Hk. }
    split; [exact Hlt|]. rewrite (make_batches_lookup values k Hlt) in Hk.
    congruence. }
  assert (Hcount : length (make_batches values) = batch_count values)
    by (rewrite make_batches_chunks, length_map, length_seq; reflexivity).
  split.
  - apply Forall_lookup. intros k batch Hk.
    destruct (Hlook k batch Hk) as [Hlt ->].
    unfold len in *. rewrite length_take, length_drop.
    unfold batch_count, len, BATCH_SIZE in *. lia.
  - intros k batch Hk Hnext. destruct (Hlook k batch Hk) as [Hlt ->].
    rewrite Hcount in Hnext.
    unfold len in *. rewrite length_take, length_drop.
    unfold batch_count, len, BATCH_SIZE in *. lia.
Qed.

(** ** The normal form of a frame, once more *)

Lemma nulls_cell_idem (d : DType) (c : Cell) :
  where_notnull d (replace_na_nat d (where_notnull d (replace_na_nat d c)))
  = where_notnull d (replace_na_nat d c).
Proof. destruct d, c; reflexivity. Qed.

Lemma nulls_to_none_idem (s : Series) :
  nulls_to_none (nulls_to_none s) = nulls_to_none s.
Proof.
  unfold nulls_to_none. simpl. f_equal. rewrite map_map.
  apply map_ext. intros c. apply nulls_cell_idem.
Qed.

Lemma nulls_to_none_astype (s : Series) :
  nulls_to_none (astype_str s) = astype_str s.
Proof.
  unfold nulls_to_none, astype_str. simpl. f_equal. rewrite map_map.
  apply map_ext. reflexivity.
Qed.

Lemma normalize_series_not_datetime (s : Series) :
  is_datetime (dtype (normalize_series s)) = false.
Proof.
  unfold normalize_series, coerce_unencodable, dates_to_str.
  destruct (is_datetime (dtype s)) eqn:Hd;
    match goal with |- context [encodes ?x] => destruct (encodes x) end;
    simpl; auto.
Qed.

Lemma normalize_series_nulls (s : Series) :
  nulls_to_none (normalize_series s) = normalize_series s.
Proof.
  unfold normalize_series, coerce_unencodable.
  destruct (encodes (nulls_to_none (dates_to_str s)));
    [apply nulls_to_none_idem | apply nulls_to_none_astype].
Qed.

Lemma normalize_series_idem (s : Series) :
  normalize_series (normalize_series s) = normalize_series s.
Proof.
  unfold normalize_series at 1. unfold dates_to_str at 1.
  rewrite normalize_series_not_datetime, normalize_series_nulls.
  apply coerce_unencodable_idem.
Qed.

Lemma normalize_idem (f : DataFrame) : normalize (normalize f) = normalize f.
Proof.
  unfold normalize. rewrite map_columns_compose.
  apply map_columns_ext. intros s _. apply normalize_series_idem.
Qed.

Lemma normalize_series_name (s : Series) : name (normalize_series s) = name s.
Proof.
  unfold normalize_series. rewrite coerce_unencodable_name. simpl.
  apply dates_to_str_name.
Qed.

Lemma labels_normalize (f : DataFrame) : labels (normalize f) = labels f.
Proof. apply labels_map_columns, normalize_series_name. Qed.

Lemma catchable_normalize (f : DataFrame) : catchable (normalize f).
Proof.
  unfold catchable, normalize, map_columns. simpl.
  apply Forall_map, Forall_forall. intros s _.
  pose proof (coerce_unencodable_encodes (nulls_to_none (dates_to_str s))) as He.
  apply dumps_list_cells in He. fold (normalize_series s) in He.
  eapply Forall_impl; [exact He|]. intros c Hc. simpl in Hc. unfold cell_catchable.
  destruct (json_dumps_cell c); [reflexivity | discriminate Hc].
Qed.

(** X5: preparing is idempotent.  From a frame with distinct labels whose
    cells raise no more than a [TypeError] or an [OverflowError] on
    encoding, [prepare_dataframe_for_sheets] returns a frame that a
    second call returns unchanged, as a new object again: the second
    result is an object distinct from the first, which is distinct from
    the input, and both hold the same frame after the second call.  No
    column is converted twice, no string is quoted a second time. *)
Theorem prepare_dataframe_for_sheets_idempotent :
  forall (df : nat) (m : Machine) (f : DataFrame),
    heap m !! df = Some f -> NoDup (labels f) -> catchableb f = true ->
    exists d1 m1 d2 m2 f1,
      prepare_dataframe_for_sheets df m = (Ok d1, m1)
      /\ heap m1 !! d1 = Some f1
      /\ prepare_dataframe_for_sheets d1 m1 = (Ok d2, m2)
      /\ heap m2 !! d2 = Some f1
      /\ heap m2 !! d1 = Some f1
      /\ d2 <> d1 /\ d1 <> df /\ d2 <> df
      /\ heap m !! d1 = None /\ heap m1 !! d2 = None.
Proof.
  intros df m f Hf Hnd Hc.
  destruct (prepare_run df m f Hf Hnd (catchableb_catchable f Hc))
    as (d1 & m1 & Hrun1 & H1).
  destruct (prepare_run d1 m1 (normalize f) H1) as (d2 & m2 & Hrun2 & H2).
  { rewrite labels_normalize. exact Hnd. }
  { apply catchable_normalize. }
  assert (Hnew1 : heap m !! d1 = None).
  { destruct (keeps_prepare m df m (extends_refl m)) as [_ Hnew].
    apply Hnew. rewrite Hrun1. reflexivity. }
  assert (Hnew2 : heap m1 !! d2 = None).
  { destruct (keeps_prepare m1 d1 m1 (extends_refl m1)) as [_ Hnew].
    apply Hnew. rewrite Hrun2. reflexivity. }
  assert (Hdf1 : heap m1 !! df = Some f).
  { destruct (prepare_extends _ _ _ _ Hrun1) as (Hsub & _).
    eapply lookup_weaken; eassumption. }
  exists d1, m1, d2, m2, (normalize f).
  split; [exact Hrun1|]. split; [exact H1|]. split; [exact Hrun2|].
  rewrite normalize_idem in H2. split; [exact H2|].
  split.
  { destruct (prepare_extends _ _ _ _ Hrun2) as (Hsub & _).
    eapply lookup_weaken; eassumption. }
  split; [intros ->; congruence|]. split; [intros ->; congruence|].
  split; [intros ->; congruence|]. split; assumption.
Qed.

Lemma prepare_dataframe_for_sheets_idempotent_witness :
  exists d1 m1 d2 m2 f1,
    prepare_dataframe_for_sheets 0 (run_with mixed_table (fun _ => answers))
    = (Ok d1, m1)
    /\ heap m1 !! d1 = Some f1
    /\ prepare_dataframe_for_sheets d1 m1 = (Ok d2, m2)
    /\ heap m2 !! d2 = Some f1
    /\ heap m2 !! d1 = Some f1
    /\ d2 <> d1 /\ d1 <> 0%nat /\ d2 <> 0%nat
    /\ heap (run_with mixed_table (fun _ => answers)) !! d1 = None
    /\ heap m1 !! d2 = None.
Proof.
  apply (prepare_dataframe_for_sheets_idempotent
           0 (run_with mixed_table (fun _ => answers)) mixed_table).
  - reflexivity.
  - apply (bool_decide_unpack _). vm_compute. exact I.
  - reflexivity.
Defined.

(** ** The shape of the table that is sent *)

Lemma length_values_tolist (f : DataFrame) :
  length (values_tolist f) = nrows f.
Proof. unfold values_tolist. rewrite length_map, length_seq. reflexivity. Qed.

Lemma rows_values_tolist (f : DataFrame) :
  Forall (fun row : Row => length row = length (columns f)) (values_tolist f).
Proof.
  unfold values_tolist. apply Forall_map, Forall_forall. intros i _.
  simpl. apply length_map.
Qed.

Lemma columns_normalize (f : DataFrame) :
  map (fun s => length (cells s)) (columns (normalize f))
  = map (fun s => length (cells s)) (columns f).
Proof.
  unfold normalize, map_columns. simpl. rewrite map_map.
  apply map_ext. intros s.
  unfold normalize_series, coerce_unencodable, dates_to_str.
  destruct (is_datetime (dtype s));
    match goal with |- context [encodes ?x] => destruct (encodes x) end;
    simpl; rewrite ?length_map; reflexivity.
Qed.

(** X6: preparing keeps the shape of the frame.  The frame returned has
    the labels of the input in the same order, the same number of rows
    and, column by column, the same number of cells; so the table that
    [write_dataframe_to_sheet] builds from it is the header row followed
    by one row for each row of the input, every row with one cell for
    each column. *)
Theorem prepare_dataframe_for_sheets_keeps_shape :
  forall (df : nat) (m : Machine) (f : DataFrame),
    heap m !! df = Some f -> NoDup (labels f) -> catchableb f = true ->
    exists df' m' f',
      prepare_dataframe_for_sheets df m = (Ok df', m')
      /\ heap m' !! df' = Some f'
      /\ labels f' = labels f
      /\ nrows f' = nrows f
      /\ map (fun s => length (cells s)) (columns f')
         = map (fun s => length (cells s)) (columns f)
      /\ head (values_of f') = Some (map CStr (labels f))
      /\ len (values_of f') = Z.of_nat (nrows f) + 1
      /\ Forall (fun row : Row => length row = length (columns f))
                (values_of f').
Proof.
  intros df m f Hf Hnd Hc.
  destruct (prepare_run df m f Hf Hnd (catchableb_catchable f Hc))
    as (df' & m' & Hrun & H').
  exists df', m', (normalize f).
  split; [exact Hrun|]. split; [exact H'|].
  split; [apply labels_normalize|]. split; [reflexivity|].
  split; [apply columns_normalize|].
  assert (Hcols : length (columns (normalize f)) = length (columns f))
    by (unfold normalize, map_columns; simpl; apply length_map).
  unfold values_of. rewrite labels_normalize.
  split; [reflexivity|]. split.
  - unfold len. cbn [length]. rewrite length_values_tolist.
    unfold normalize, map_columns. simpl. lia.
  - constructor.
    + unfold labels. rewrite !length_map. reflexivity.
    + rewrite <- Hcols. apply rows_values_tolist.
Qed.

Lemma prepare_dataframe_for_sheets_keeps_shape_witness :
  exists df' m' f',
    prepare_dataframe_for_sheets 0 (run_with mixed_table (fun _ => answers))
    = (Ok df', m')
    /\ heap m' !! df' = Some f'
    /\ labels f' = ["ts"; "n"; "price"; "x"]
    /\ nrows f' = 2%nat
    /\ len (values_of f') = 3.
Proof.
  destruct (prepare_dataframe_for_sheets_keeps_shape
              0 (run_with mixed_table (fun _ => answers)) mixed_table)
    as (df' & m' & f' & Hrun & Hf' & Hl & Hn & _ & _ & Hlen & _).
  - reflexivity.
  - apply (bool_decide_unpack _). vm_compute. exact I.
  - reflexivity.
  - exists df', m', f'. repeat (split; [assumption|]). exact Hlen.
Defined.

(** ** Frames in which a label repeats *)

Lemma first_repeated (l : list string) :
  ~ NoDup l ->
  exists pre x post,
    l = pre ++ x :: post /\ x ∈ post /\ NoDup pre
    /\ forall y, y ∈ pre -> y ∉ x :: post.
Proof.
  induction l as [|a l IH]; intros Hnd; [destruct Hnd; constructor|].
  destruct (decide (a ∈ l)) as [Hin|Hnin].
  - exists [], a, l. split; [reflexivity|]. split; [exact Hin|].
    split; [constructor|]. intros y Hy. inversion Hy.
  - destruct IH as (pre & x & post & -> & Hx & Hpre & Hout).
    { intros H. apply Hnd. constructor; assumption. }
    exists (a :: pre), x, post. split; [reflexivity|]. split; [exact Hx|].
    split.
    + constructor; [|exact Hpre]. intros Ha. apply Hnin.
      apply elem_of_app. left. exact Ha.
    + intros y Hy. apply elem_of_cons in Hy. destruct Hy as [->|Hy].
      * intros Ha. apply Hnin. apply elem_of_app. right. exact Ha.
      * apply Hout, Hy.
Qed.

Lemma filter_label_map (g : Series -> Series) (col : string) (cols : list Series) :
  (forall s, name (g s) = name s) ->
  filter (fun s => has_label col s = true) (map g cols)
  = map g (filter (fun s => has_label col s = true) cols).
Proof.
  intros Hg. induction cols as [|s cols IH]; [reflexivity|]. cbn [map].
  assert (Hl : has_label col (g s) = has_label col s)
    by (unfold has_label; rewrite Hg; reflexivity).
  destruct (has_label col s) eqn:Hs.
  - rewrite !filter_cons_True by congruence. cbn [map]. rewrite IH. reflexivity.
  - rewrite !filter_cons_False by congruence. exact IH.
Qed.

Lemma occurrences_map_columns (g : Series -> Series) (col : string) (f : DataFrame) :
  (forall s, name (g s) = name s) ->
  occurrences col (map_columns g f) = occurrences col f.
Proof.
  intros Hg. unfold occurrences, map_columns. simpl.
  rewrite filter_label_map by exact Hg. apply length_map.
Qed.

Lemma occurrences_labels (col : string) (f : DataFrame) :
  occurrences col f
  = length (filter (fun c => c = col) (labels f)).
Proof.
  unfold occurrences, labels. induction (columns f) as [|s cols IH]; [reflexivity|].
  cbn [map]. unfold has_label at 1.
  destruct (decide (name s = col)) as [Heq|Hne].
  - rewrite !filter_cons_True
      by (try apply bool_decide_eq_true; exact Heq).
    cbn [length]. f_equal. exact IH.
  - rewrite !filter_cons_False
      by (rewrite ?bool_decide_eq_true; exact Hne).
    exact IH.
Qed.

Lemma occurrences_once (pre post : list string) (x y : string) (f : DataFrame) :
  labels f = pre ++ x :: post -> NoDup pre -> y ∈ pre -> y ∉ x :: post ->
  occurrences y f = 1%nat.
Proof.
  intros Hl Hnd Hy Hout. rewrite occurrences_labels, Hl, filter_app.
  rewrite (filter_none (fun c => c = y) (x :: post))
    by (intros c Hc ->; exact (Hout Hc)).
  rewrite app_nil_r. clear Hl Hout.
  induction Hnd as [|a pre Ha Hnd IH]; [inversion Hy|].
  apply elem_of_cons in Hy. destruct (decide (a = y)) as [->|Hne].
  - rewrite filter_cons_True by reflexivity.
    rewrite (filter_none (fun c => c = y) pre)
      by (intros c Hc ->; exact (Ha Hc)).
    reflexivity.
  - rewrite filter_cons_False by exact Hne.
    destruct Hy as [->|Hy]; [congruence | apply IH, Hy].
Qed.

Lemma occurrences_twice (pre post : list string) (x : string) (f : DataFrame) :
  labels f = pre ++ x :: post -> x ∈ post -> (2 <= occurrences x f)%nat.
Proof.
  intros Hl Hx. rewrite occurrences_labels, Hl, filter_app, length_app.
  rewrite filter_cons_True by reflexivity. cbn [length].
  assert (Hin : x ∈ filter (fun c => c = x) post)
    by (apply list_elem_of_filter; auto).
  destruct (filter (fun c => c = x) post); [inversion Hin | simpl; lia].
Qed.

(** *** The trial of a column whose label is carried once, and of one
    whose label repeats *)

Lemma trial_run_once m d f col :
  heap m !! d = Some f -> occurrences col f = 1%nat -> catchable f ->
  try_except (dumps_column d col) type_or_overflow
             (fun _ => column_to_str d col) m
  = (Ok tt, with_frame m d (map_columns (on_label col coerce_unencodable) f)).
Proof.
  intros Hf Hone Hcatch. unfold occurrences in Hone.
  destruct (filter (fun s => has_label col s = true) (columns f))
    as [|s [|s2 rest]] eqn:Hfil; try discriminate Hone.
  assert (Hs : has_label col s = true /\ s ∈ columns f).
  { apply (list_elem_of_filter (fun s => has_label col s = true)).
    rewrite Hfil. left. }
  destruct Hs as [Hl Hs].
  assert (Hin : col ∈ labels f).
  { unfold has_label in Hl. apply bool_decide_eq_true in Hl. rewrite <- Hl.
    apply list_elem_of_fmap_2, Hs. }
  assert (Huniq : forall s', s' ∈ columns f -> has_label col s' = true -> s' = s)
    by (intros s' Hs' Hl'; eapply filter_singleton_eq; eassumption).
  unfold try_except, dumps_column, df_getitem.
  rewrite !bind_run, (deref_run _ _ _ Hf). unfold lift, getitem. rewrite Hfil.
  simpl item_tolist. cbv iota. rewrite bind_run.
  destruct (json_dumps_list (cells s)) as [j|e] eqn:Henc.
  - simpl. rewrite (map_columns_ext _ (fun s => s)).
    + rewrite map_columns_id, with_frame_id by exact Hf. reflexivity.
    + intros s' Hs'. unfold on_label.
      destruct (has_label col s') eqn:Hl'; [|reflexivity].
      rewrite (Huniq s' Hs' Hl'). unfold coerce_unencodable, encodes.
      rewrite Henc. reflexivity.
  - simpl. rewrite (catchable_raise f s e Hcatch Hs Henc).
    rewrite (column_to_str_run m d f col Hf Hin). do 2 f_equal.
    apply map_columns_ext. intros s' Hs'. unfold on_label.
    destruct (has_label col s') eqn:Hl'; [|reflexivity].
    rewrite (Huniq s' Hs' Hl'). unfold coerce_unencodable, encodes.
    rewrite Henc. reflexivity.
Qed.

Lemma trial_run_repeated m d f col :
  heap m !! d = Some f -> (2 <= occurrences col f)%nat ->
  try_except (dumps_column d col) type_or_overflow
             (fun _ => column_to_str d col) m
  = (Raise no_tolist, m).
Proof.
  intros Hf Htwo. unfold occurrences in Htwo.
  unfold try_except, dumps_column, df_getitem.
  rewrite !bind_run, (deref_run _ _ _ Hf). unfold lift, getitem.
  destruct (filter (fun s => has_label col s = true) (columns f))
    as [|s [|s2 rest]]; simpl in Htwo; try lia.
  reflexivity.
Qed.

Lemma for_each_trial_once d cols : forall m f,
  heap m !! d = Some f -> catchable f ->
  (forall col, col ∈ cols -> occurrences col f = 1%nat) ->
  exists f',
    for_each cols
      (fun col => try_except (dumps_column d col) type_or_overflow
                             (fun _ => column_to_str d col)) m
    = (Ok tt, with_frame m d f')
    /\ forall col, occurrences col f' = occurrences col f.
Proof.
  induction cols as [|col cols IH]; intros m f Hf Hcatch Hone.
  - exists f. simpl. rewrite with_frame_id by exact Hf. auto.
  - cbn [for_each]. rewrite bind_run.
    rewrite (trial_run_once m d f col Hf) by (auto; apply Hone; left).
    set (f1 := map_columns (on_label col coerce_unencodable) f).
    assert (Hocc : forall c, occurrences c f1 = occurrences c f).
    { intros c. apply occurrences_map_columns. intros s.
      apply on_label_name, coerce_unencodable_name. }
    destruct (IH (with_frame m d f1) f1) as (f' & Hrun & Hocc').
    + apply with_frame_lookup.
    + apply catchable_coerce, Hcatch.
    + intros c Hc. rewrite Hocc. apply Hone. right. exact Hc.
    + exists f'. rewrite Hrun, with_frame_twice. split; [reflexivity|].
      intros c. rewrite Hocc'. apply Hocc.
Qed.

Lemma for_each_app {A} (l1 l2 : list A) (body : A -> M unit) (m : Machine) :
  for_each (l1 ++ l2) body m
  = match for_each l1 body m with
    | (Ok _, m') => for_each l2 body m'
    | (Raise e, m') => (Raise e, m')
    end.
Proof.
  revert m. induction l1 as [|x l1 IH]; intros m; [reflexivity|].
  cbn [app for_each]. rewrite !bind_run.
  destruct (body x m) as [[[]|e] m']; [apply IH | reflexivity].
Qed.

Lemma catchable_on_labels cols f :
  catchable f -> catchable (map_columns (on_labels cols astype_str) f).
Proof.
  apply catchable_map_columns. intros s Hs. unfold on_labels.
  destruct (bool_decide (name s ∈ cols)); [apply catchable_astype | exact Hs].
Qed.

Lemma catchable_nulls f :
  catchable f -> catchable (map_columns nulls_to_none f).
Proof.
  apply catchable_map_columns. intros s Hs. simpl. apply Forall_map.
  eapply Forall_impl; [exact Hs|]. intros c. apply cell_catchable_nulls.
Qed.

Lemma on_labels_name cols g s :
  (forall s, name (g s) = name s) -> name (on_labels cols g s) = name s.
Proof. intros H. unfold on_labels. destruct (bool_decide _); auto. Qed.

(** The run of the function on a frame in which a label repeats. *)
Lemma prepare_run_repeated df m f :
  heap m !! df = Some f -> ~ NoDup (labels f) -> catchable f ->
  exists m',
    prepare_dataframe_for_sheets df m = (Raise no_tolist, m').
Proof.
  intros Hf Hnd Hcatch.
  unfold prepare_dataframe_for_sheets, copy_deep, frame_map.
  rewrite bind_run, bind_run, (deref_run _ _ _ Hf), alloc_run.
  set (d1 := fresh (dom (heap m))). set (m1 := with_frame m d1 f).
  assert (H1 : heap m1 !! d1 = Some f) by apply with_frame_lookup.
  rewrite bind_run, (read_frame_run m1 d1 f select_dtypes_datetime H1).
  rewrite bind_run, (for_each_column_to_str d1 _ m1 f H1)
    by apply date_labels_subset.
  set (f1 := map_columns (on_labels (select_dtypes_datetime f) astype_str) f).
  set (m2 := with_frame m1 d1 f1).
  assert (H2 : heap m2 !! d1 = Some f1) by apply with_frame_lookup.
  rewrite bind_run, bind_run, (deref_run _ _ _ H2), alloc_run.
  set (d2 := fresh (dom (heap m2))).
  set (m3 := with_frame m2 d2 (map_cells replace_na_nat f1)).
  assert (H3 : heap m3 !! d2 = Some (map_cells replace_na_nat f1))
    by apply with_frame_lookup.
  rewrite bind_run, bind_run, (deref_run _ _ _ H3), alloc_run.
  rewrite nulls_on_cells.
  set (d3 := fresh (dom (heap m3))).
  set (f3 := map_columns nulls_to_none f1).
  set (m4 := with_frame m3 d3 f3).
  assert (H4 : heap m4 !! d3 = Some f3) by apply with_frame_lookup.
  assert (Hlab : labels f3 = labels f).
  { unfold f3, f1. rewrite !labels_map_columns; auto.
    intros s. apply on_labels_name. reflexivity. }
  assert (Hc3 : catchable f3)
    by (apply catchable_nulls, catchable_on_labels, Hcatch).
  rewrite bind_run, (read_frame_run m4 d3 f3 labels H4).
  destruct (first_repeated (labels f) Hnd)
    as (pre & x & post & Hsplit & Hx & Hpre & Hout).
  rewrite <- Hlab in Hsplit.
  destruct (for_each_trial_once d3 pre m4 f3 H4 Hc3) as (f4 & Hrun & Hocc).
  { intros col Hcol. apply (occurrences_once pre post x col f3 Hsplit Hpre Hcol).
    apply Hout, Hcol. }
  eexists. rewrite Hsplit, bind_run, for_each_app.
  rewrite Hrun. cbn [for_each]. rewrite bind_run.
  rewrite (trial_run_repeated _ d3 f4 x).
  - reflexivity.
  - apply with_frame_lookup.
  - rewrite Hocc. apply (occurrences_twice pre post x f3 Hsplit Hx).
Qed.

(** X7: a frame in which two columns carry the same label is refused,
    when no cell of it raises more than a [TypeError] or an
    [OverflowError] on encoding (a cell that raises another exception
    in a column tried before the repeated label stops the function with
    that exception instead).  For the repeated label [df_copy[col]] is a
    sub-frame, which has no [tolist], and the [AttributeError] is not
    one of the exceptions that the function catches:
    [prepare_dataframe_for_sheets] raises it, and so does
    [write_dataframe_to_sheet], unwrapped, before any request is built or
    sent; the frame of the caller is unchanged. *)
Theorem write_dataframe_to_sheet_repeated_label :
  forall (cr : Credentials) (sid : string) (df : nat) (m : Machine)
         (f : DataFrame),
    heap m !! df = Some f -> ~ NoDup (labels f) -> catchableb f = true ->
    exists m',
      prepare_dataframe_for_sheets df m = (Raise no_tolist, m')
      /\ write_dataframe_to_sheet cr sid df m = (Raise no_tolist, m')
      /\ log m' = log m /\ issued m' = issued m
      /\ heap m' !! df = Some f.
Proof.
  intros cr sid df m f Hf Hnd Hc.
  destruct (prepare_run_repeated df m f Hf Hnd (catchableb_catchable f Hc))
    as (m' & Hrun).
  exists m'. split; [exact Hrun|].
  split; [unfold write_dataframe_to_sheet; rewrite bind_run, Hrun; reflexivity|].
  destruct (prepare_extends _ _ _ _ Hrun) as (Hsub & _ & Hi & Hl).
  split; [exact Hl|]. split; [exact Hi|].
  eapply lookup_weaken; eassumption.
Qed.

Lemma write_dataframe_to_sheet_repeated_label_witness :
  exists m',
    write_dataframe_to_sheet (mkCredentials "tok") "sheet-1" 0
      (run_with repeated_label (fun _ => answers))
    = (Raise no_tolist, m')
    /\ log m' = [] /\ issued m' = 0%nat.
Proof.
  destruct (write_dataframe_to_sheet_repeated_label
              (mkCredentials "tok") "sheet-1" 0
              (run_with repeated_label (fun _ => answers)) repeated_label)
    as (m' & _ & Hrun & Hl & Hi & _).
  - reflexivity.
  - apply (bool_decide_unpack _). vm_compute. exact I.
  - reflexivity.
  - exists m'. split; [exact Hrun|]. split; assumption.
Defined.

(** ** The write within the threshold, attempt after attempt *)

Lemma sheet_after_backoff (failed : Exn -> list Event) (errs : list Exn) :
  (forall e s, sheet_after (failed e) s = s) ->
  forall retry s, sheet_after (backoff_trace failed retry errs) s = s.
Proof.
  intros Hf. induction errs as [|e errs IH]; intros retry s; [reflexivity|].
  cbn [backoff_trace]. rewrite !sheet_after_app, Hf.
  cbn [sheet_after foldl sink_step]. apply IH.
Qed.

(** X8: a table within the threshold is sent whole at every attempt, so
    a retry repeats nothing in the sheet.  When the update fails [n < 5]
    times with a retryable error and is then answered,
    [write_dataframe_to_sheet] returns; it has sent [n + 1] times the same
    request, an update at [Sheet1!A1] carrying the header and every data
    row, and waited 1, 2, 4, ... between the attempts; a sheet that was
    empty holds the table once. *)
Theorem write_dataframe_to_sheet_single_retries :
  forall (cr : Credentials) (sid : string) (df : nat) (m : Machine)
         (f : DataFrame) (errs : list Exn) (r : Response),
    heap m !! df = Some f ->
    NoDup (labels f) -> catchableb f = true ->
    len (values_of (normalize f)) <= BATCH_SIZE ->
    len errs < MAX_RETRIES ->
    Forall (fun e => retryable e = true) errs ->
    fails_with m errs ->
    remote m (issued m + length errs)%nat = Responds r ->
    let values := values_of (normalize f) in
    exists m2 evs,
      write_dataframe_to_sheet cr sid df m = (Ok tt, m2)
      /\ effects_of m m2 evs
      /\ requests evs
         = replicate (S (length errs))
                     (ValuesUpdate sid "Sheet1!A1" "RAW" values)
      /\ attempts evs = S (length errs)
      /\ sleeps evs
         = map (fun k => INITIAL_RETRY_DELAY * 2 ^ k) (seqZ 0 (len errs))
      /\ sheet_after evs [] = values.
Proof.
  intros cr sid df m f errs r Hf Hnd Hcatch Hsmall Hlen Hre Hfail Hok values.
  destruct (prepare_run df m f Hf Hnd (catchableb_catchable f Hcatch))
    as (df' & m1 & Hp & Hh).
  pose proof (prepare_extends _ _ _ _ Hp) as Hext.
  pose proof Hext as (_ & Hrem & Hi & _).
  set (trace := fun out =>
         [EvBuild "sheets" "v4";
          EvCall (ValuesUpdate sid "Sheet1!A1" "RAW" values) out]).
  set (evs := backoff_trace (fun e => trace (Fails e)) 0 errs
              ++ trace (Responds r)).
  assert (Hreq : requests evs
                 = replicate (S (length errs))
                             (ValuesUpdate sid "Sheet1!A1" "RAW" values)).
  { unfold evs. rewrite requests_app,
      (backoff_trace_requests _ (ValuesUpdate sid "Sheet1!A1" "RAW" values))
      by (intros; reflexivity).
    simpl. apply replicate_snoc. }
  exists (advance m1 (length (requests evs)) evs), evs.
  split.
  { rewrite (write_dataframe_to_sheet_run _ _ _ _ _ _ _ Hp Hh).
    rewrite Hreq, length_replicate.
    apply write_values_retries_then_returns; try assumption.
    - intros i e He. rewrite Hrem, Hi. apply Hfail, He.
    - rewrite Hrem, Hi. exact Hok. }
  split; [apply effects_after_prepare, Hext|].
  split; [exact Hreq|]. split; [|split].
  - unfold evs. rewrite attempts_app, backoff_trace_attempts
      by (intros; reflexivity).
    change (attempts (trace (Responds r))) with 1%nat. lia.
  - unfold evs. rewrite sleeps_app, backoff_trace_sleeps
      by (intros; reflexivity).
    simpl. apply app_nil_r.
  - unfold evs. rewrite sheet_after_app, sheet_after_backoff
      by (intros; reflexivity).
    unfold trace, sheet_after. cbn [foldl sink_step]. apply overwrite_empty.
Qed.

Lemma write_dataframe_to_sheet_single_retries_witness :
  exists m2 evs,
    write_dataframe_to_sheet (mkCredentials "tok") "sheet-1" 0
      (run_with (int_table 2) (remote rate_limited_four_times)) = (Ok tt, m2)
    /\ length (requests evs) = 5%nat
    /\ sleeps evs = [1; 2; 4; 8]
    /\ sheet_after evs [] = [[CStr "n"]; [CInt 7]; [CInt 7]].
Proof.
  destruct (write_dataframe_to_sheet_single_retries
              (mkCredentials "tok") "sheet-1" 0
              (run_with (int_table 2) (remote rate_limited_four_times))
              (int_table 2) (replicate 4 (HttpError 429 "rate limit"))
              {| resp_spreadsheetId := Some "sheet-1"; resp_parents := None |})
    as (m2 & evs & Hrun & _ & Hreq & _ & Hsl & Hsheet).
  - reflexivity.
  - apply (bool_decide_unpack _). vm_compute. exact I.
  - reflexivity.
  - vm_compute. discriminate.
  - reflexivity.
  - repeat constructor.
  - finite_lookup.
  - reflexivity.
  - exists m2, evs. split; [exact Hrun|]. rewrite Hreq.
    split; [reflexivity|]. split; [exact Hsl | exact Hsheet].
Defined.

(** X9: a failure of the write that is not retryable ends the call at
    once.  When the update of a table within the threshold is refused
    with an error that is not a retryable [HttpError] (a 403, a 404, a
    lost connection), [write_dataframe_to_sheet] raises [RuntimeError]
    with the message [Failed to write data to Google Sheet: <cause>]
    after that one request, and waits for nothing. *)
Theorem write_dataframe_to_sheet_raises_wrapped :
  forall (cr : Credentials) (sid : string) (df : nat) (m : Machine)
         (f : DataFrame) (e : Exn),
    heap m !! df = Some f ->
    NoDup (labels f) -> catchableb f = true ->
    len (values_of (normalize f)) <= BATCH_SIZE ->
    remote m (issued m) = Fails e ->
    retryable e = false ->
    let values := values_of (normalize f) in
    exists m2 evs,
      write_dataframe_to_sheet cr sid df m
      = (Raise (PyExc RuntimeError
                  ("Failed to write data to Google Sheet: " +:+ exc_str e)),
         m2)
      /\ effects_of m m2 evs
      /\ evs = [EvBuild "sheets" "v4";
                EvCall (ValuesUpdate sid "Sheet1!A1" "RAW" values) (Fails e)].
Proof.
  intros cr sid df m f e Hf Hnd Hcatch Hsmall Hbad Hnr values.
  destruct (prepare_run df m f Hf Hnd (catchableb_catchable f Hcatch))
    as (df' & m1 & Hp & Hh).
  pose proof (prepare_extends _ _ _ _ Hp) as Hext.
  pose proof Hext as (_ & Hrem & Hi & _).
  set (evs := [EvBuild "sheets" "v4";
               EvCall (ValuesUpdate sid "Sheet1!A1" "RAW" values) (Fails e)]).
  exists (advance m1 (length (requests evs)) evs), evs.
  split.
  { rewrite (write_dataframe_to_sheet_run _ _ _ _ _ _ _ Hp Hh).
    apply (write_values_raises_wrapped cr sid values m1 [] e);
      [exact Hsmall | reflexivity | constructor | intros i e' Hi'; inversion Hi'
      | simpl; rewrite Nat.add_0_r, Hrem, Hi; exact Hbad | left; exact Hnr]. }
  split; [apply effects_after_prepare, Hext | reflexivity].
Qed.

Lemma write_dataframe_to_sheet_raises_wrapped_witness :
  exists m2,
    write_dataframe_to_sheet (mkCredentials "tok") "sheet-1" 0
      (run_with (int_table 2) (remote not_found_at_once))
    = (Raise (PyExc RuntimeError
                "Failed to write data to Google Sheet: not found"), m2)
    /\ length (requests (log m2)) = 1%nat.
Proof.
  destruct (write_dataframe_to_sheet_raises_wrapped
              (mkCredentials "tok") "sheet-1" 0
              (run_with (int_table 2) (remote not_found_at_once))
              (int_table 2) (HttpError 404 "not found"))
    as (m2 & evs & Hrun & (Hlog & _) & ->).
  - reflexivity.
  - apply (bool_decide_unpack _). vm_compute. exact I.
  - reflexivity.
  - vm_compute. discriminate.
  - reflexivity.
  - reflexivity.
  - exists m2. split; [exact Hrun|]. rewrite Hlog. reflexivity.
Defined.

(** ** The heap during the write *)

Lemma retry_loop_heap {A} (what : string) (attempt : M A) :
  (forall m, heap (attempt m).2 = heap m) ->
  forall retries m, heap (retry_loop what attempt retries m).2 = heap m.
Proof.
  intros Hatt. induction retries as [|retry rest IH]; intros m; [reflexivity|].
  cbn [retry_loop]. specialize (Hatt m).
  destruct (attempt m) as [[a|[status text|cls text]] m']; simpl in Hatt;
    [exact Hatt | | exact Hatt].
  destruct ((MAX_RETRIES - 1 <=? retry)
            || negb (status_in status retryable_statuses));
    [exact Hatt|].
  rewrite bind_run, sleep_run, IH. exact Hatt.
Qed.

Lemma for_each_batches_heap svc sid ibs : forall m,
  heap (for_each ibs (write_batch svc sid) m).2 = heap m.
Proof.
  induction ibs as [|ib ibs IH]; intros m; [reflexivity|].
  cbn [for_each]. rewrite bind_run, write_batch_run.
  destruct (remote m (issued m)); [rewrite IH|]; reflexivity.
Qed.

Lemma write_values_heap cr sid values m :
  heap (write_values cr sid values m).2 = heap m.
Proof.
  unfold write_values. destruct (BATCH_SIZE <? len values);
    apply retry_loop_heap; intros m0.
  - rewrite bind_run, build_run, for_each_batches_heap. reflexivity.
  - rewrite small_attempt_run. reflexivity.
Qed.

(** X10: writing a frame changes no object of the caller.  Whatever the
    services do and whatever the outcome of [write_dataframe_to_sheet]
    (a return, a wrapped failure, an exception of the normalisation),
    the frame passed in and every other object that existed before the
    call hold afterwards what they held before: the function writes to
    its own copies only. *)
Theorem write_dataframe_to_sheet_keeps_input :
  forall (cr : Credentials) (sid : string) (df : nat) (m : Machine),
    heap m ⊆ heap (write_dataframe_to_sheet cr sid df m).2
    /\ heap (write_dataframe_to_sheet cr sid df m).2 !! df = heap m !! df.
Proof.
  intros cr sid df m.
  assert (Hsub : heap m ⊆ heap (write_dataframe_to_sheet cr sid df m).2).
  { unfold write_dataframe_to_sheet. rewrite bind_run.
    destruct (prepare_dataframe_for_sheets df m) as [[df'|e] m1] eqn:Hp;
      destruct (prepare_extends _ _ _ _ Hp) as (Hsub & _); [|exact Hsub].
    rewrite bind_run. unfold deref.
    destruct (heap m1 !! df'); [|exact Hsub].
    rewrite write_values_heap. exact Hsub. }
  split; [exact Hsub|].
  destruct (heap m !! df) as [f|] eqn:Hdf.
  - eapply lookup_weaken; eassumption.
  - unfold write_dataframe_to_sheet, prepare_dataframe_for_sheets, copy_deep.
    rewrite !bind_run. unfold deref at 1. rewrite Hdf. simpl. exact Hdf.
Qed.

(** ** Moving the sheet *)

Lemma move_attempt_run cr file_id folder_id m :
  (drive_service ← build "drive" "v3" cr;
   file ← execute drive_service (FilesGet file_id "parents");
   let previous_parents :=
     String.concat "," (default [] (resp_parents file)) in
   execute drive_service
     (FilesUpdate file_id folder_id previous_parents "id, parents");;
   mret tt) m
  = match remote m (issued m) with
    | Fails e =>
        (Raise e,
         advance m 1 [EvBuild "drive" "v3";
                      EvCall (FilesGet file_id "parents") (Fails e)])
    | Responds file =>
        (match remote m (S (issued m)) with
         | Responds _ => Ok tt
         | Fails e => Raise e
         end,
         advance m 2
           [EvBuild "drive" "v3";
            EvCall (FilesGet file_id "parents") (Responds file);
            EvCall (FilesUpdate file_id folder_id
                      (String.concat "," (default [] (resp_parents file)))
                      "id, parents")
                   (remote m (S (issued m)))])
    end.
Proof.
  rewrite bind_run, build_run, bind_run, execute_run.
  cbn [advance remote issued]. rewrite advance_advance, Nat.add_0_r.
  destruct (remote m (issued m)) as [file|e]; [|reflexivity].
  rewrite bind_run, execute_run, advance_advance.
  cbn [advance remote issued]. rewrite Nat.add_1_r.
  destruct (remote m (S (issued m))); reflexivity.
Qed.

Lemma move_sheet_to_folder_answered cr file_id folder_id m file r :
  remote m (issued m) = Responds file ->
  remote m (S (issued m)) = Responds r ->
  move_sheet_to_folder cr file_id folder_id m
  = (Ok tt,
     advance m 2
       [EvBuild "drive" "v3";
        EvCall (FilesGet file_id "parents") (Responds file);
        EvCall (move_update file_id folder_id file) (Responds r)]).
Proof.
  intros Hget Hupd. unfold move_sheet_to_folder. rewrite py_range_retries.
  rewrite seqZ_cons by lia.
  erewrite retry_loop_returns; [reflexivity|].
  rewrite move_attempt_run, Hget, Hupd. reflexivity.
Qed.

(** X11: the move is a read followed by an update.  When the service
    answers both, [move_sheet_to_folder] returns after one attempt of
    two requests: it reads the parents of the file, then updates the
    file with the folder as the parent to add and, as the parents to
    remove, the parents it has just read, joined by commas - the empty
    string when the answer names none. *)
Theorem move_sheet_to_folder_reads_then_updates :
  forall (cr : Credentials) (file_id folder_id : string) (m : Machine)
         (file r : Response),
    remote m (issued m) = Responds file ->
    remote m (S (issued m)) = Responds r ->
    move_sheet_to_folder cr file_id folder_id m
    = (Ok tt,
       advance m 2
         [EvBuild "drive" "v3";
          EvCall (FilesGet file_id "parents") (Responds file);
          EvCall (FilesUpdate file_id folder_id
                    (String.concat "," (default [] (resp_parents file)))
                    "id, parents")
                 (Responds r)])
    /\ (resp_parents file = None ->
        requests (log (move_sheet_to_folder cr file_id folder_id m).2)
        = requests (log m)
          ++ [FilesGet file_id "parents";
              FilesUpdate file_id folder_id "" "id, parents"]).
Proof.
  intros cr file_id folder_id m file r Hget Hupd.
  pose proof (move_sheet_to_folder_answered cr file_id folder_id m file r
                Hget Hupd) as Hrun.
  split; [exact Hrun|].
  intros Hnone. rewrite Hrun. unfold move_update. rewrite Hnone. simpl.
  rewrite requests_app. reflexivity.
Qed.

Lemma move_sheet_to_folder_reads_then_updates_witness :
  move_sheet_to_folder (mkCredentials "tok") "sheet-1" "folder-1"
    {| heap := ∅;
       remote := fun _ => Responds {| resp_spreadsheetId := None;
                                      resp_parents := Some ["root"; "old"] |};
       issued := 0; log := [] |}
  = (Ok tt,
     {| heap := ∅;
        remote := fun _ => Responds {| resp_spreadsheetId := None;
                                       resp_parents := Some ["root"; "old"] |};
        issued := 2;
        log := [EvBuild "drive" "v3";
                EvCall (FilesGet "sheet-1" "parents")
                  (Responds {| resp_spreadsheetId := None;
                               resp_parents := Some ["root"; "old"] |});
                EvCall (FilesUpdate "sheet-1" "folder-1" "root,old"
                          "id, parents")
                  (Responds {| resp_spreadsheetId := None;
                               resp_parents := Some ["root"; "old"] |})] |}).
Proof.
  apply (move_sheet_to_folder_reads_then_updates
           (mkCredentials "tok") "sheet-1" "folder-1"
           {| heap := ∅;
              remote := fun _ => Responds {| resp_spreadsheetId := None;
                                             resp_parents := Some ["root"; "old"] |};
              issued := 0; log := [] |}
           {| resp_spreadsheetId := None; resp_parents := Some ["root"; "old"] |}
           {| resp_spreadsheetId := None; resp_parents := Some ["root"; "old"] |});
    reflexivity.
Defined.

(** ** What the log of a retry loop always satisfies *)

Section LogInvariant.
Context {A : Type} (what : string) (attempt : M A).
Context (P : list Event -> Prop).
Hypothesis P_nil : P [].
Hypothesis P_app : forall e1 e2, P e1 -> P e2 -> P (e1 ++ e2).
Hypothesis P_sleep : forall s, P [EvSleep s].
Hypothesis attempt_P : forall m,
  exists evs, effects_of m (attempt m).2 evs /\ P evs.

Lemma retry_loop_invariant (retries : list Z) : forall m,
  exists evs,
    effects_of m (retry_loop what attempt retries m).2 evs /\ P evs.
Proof.
  induction retries as [|retry rest IH]; intros m.
  - exists []. split; [apply effects_of_refl | exact P_nil].
  - cbn [retry_loop].
    destruct (attempt_P m) as (evs & Heff & HP).
    destruct (attempt m) as [[a|[status text|cls text]] m']; simpl in Heff;
      [exists evs; auto | | exists evs; auto].
    destruct ((MAX_RETRIES - 1 <=? retry)
              || negb (status_in status retryable_statuses));
      [exists evs; auto|].
    rewrite bind_run, sleep_run.
    destruct (IH (advance m' 0 [EvSleep (INITIAL_RETRY_DELAY * 2 ^ retry)]))
      as (evs' & Heff' & HP').
    exists (evs ++ [EvSleep (INITIAL_RETRY_DELAY * 2 ^ retry)] ++ evs').
    split.
    + eapply effects_of_trans; [exact Heff|].
      eapply effects_of_trans; [|exact Heff'].
      apply (effects_of_advance m' [EvSleep (INITIAL_RETRY_DELAY * 2 ^ retry)]).
    + apply P_app; [exact HP|]. apply P_app; [apply P_sleep | exact HP'].
Qed.

Lemma retry_loop_returned (retries : list Z) : forall m a m',
  retry_loop what attempt retries m = (Ok a, m') ->
  exists m0, attempt m0 = (Ok a, m').
Proof.
  induction retries as [|retry rest IH]; intros m a m'; [discriminate|].
  cbn [retry_loop].
  destruct (attempt m) as [[a0|[status text|cls text]] m1] eqn:E;
    [intros [= <- <-]; exists m; exact E | | discriminate].
  destruct ((MAX_RETRIES - 1 <=? retry)
            || negb (status_in status retryable_statuses)); [discriminate|].
  rewrite bind_run, sleep_run. apply IH.
Qed.
End LogInvariant.

(** ** The order of the requests of the move *)

Lemma updates_follow_reads_app file_id folder_id e1 e2 :
  updates_follow_reads file_id folder_id e1 ->
  updates_follow_reads file_id folder_id e2 ->
  updates_follow_reads file_id folder_id (e1 ++ e2).
Proof.
  intros H1 H2 i a b c d out Hi.
  destruct (decide (i < length e1)%nat) as [Hlt|Hge].
  - rewrite lookup_app_l in Hi by exact Hlt.
    destruct (H1 i a b c d out Hi) as (j & file & -> & Hj & Hreq).
    exists j, file. split; [reflexivity|]. split; [|exact Hreq].
    rewrite lookup_app_l by lia. exact Hj.
  - rewrite lookup_app_r in Hi by lia.
    destruct (H2 _ a b c d out Hi) as (j & file & Hij & Hj & Hreq).
    exists (length e1 + j)%nat, file. split; [lia|]. split; [|exact Hreq].
    rewrite lookup_app_r by lia.
    replace (length e1 + j - length e1)%nat with j by lia. exact Hj.
Qed.

Lemma move_attempt_follows cr file_id folder_id m :
  exists evs,
    effects_of m
      ((drive_service ← build "drive" "v3" cr;
        file ← execute drive_service (FilesGet file_id "parents");
        let previous_parents :=
          String.concat "," (default [] (resp_parents file)) in
        execute drive_service
          (FilesUpdate file_id folder_id previous_parents "id, parents");;
        mret tt) m).2 evs
    /\ updates_follow_reads file_id folder_id evs.
Proof.
  rewrite move_attempt_run.
  destruct (remote m (issued m)) as [file|e]; eexists;
    (split; [match goal with
             | |- effects_of _ (_, advance _ _ ?l).2 _ =>
                 apply (effects_of_advance m l)
             end|]).
  - intros i a b c d out Hi.
    destruct i as [|[|[|i]]]; try discriminate Hi.
    injection Hi as <- <- <- <- <-.
    exists 1%nat, file. repeat split.
  - intros i a b c d out Hi.
    destruct i as [|[|i]]; discriminate Hi.
Qed.

(** X12: [move_sheet_to_folder] never updates the parents of a file
    without having read them in the same attempt.  In every run,
    whatever the services do, each update request it sends comes right
    after an answered read of the parents of that file, and it names the
    folder as the parent to add and the parents just read as the parents
    to remove: a retry reads the parents anew.  And when the call
    returns, the last two requests of the run are a read and an update
    that the service both answered. *)
Theorem move_sheet_to_folder_updates_follow_reads :
  forall (cr : Credentials) (file_id folder_id : string) (m : Machine),
    (exists evs,
        effects_of m (move_sheet_to_folder cr file_id folder_id m).2 evs
        /\ updates_follow_reads file_id folder_id evs)
    /\ (forall m',
          move_sheet_to_folder cr file_id folder_id m = (Ok tt, m') ->
          exists evs file r,
            log m'
            = evs ++ [EvCall (FilesGet file_id "parents") (Responds file);
                      EvCall (move_update file_id folder_id file)
                             (Responds r)]).
Proof.
  intros cr file_id folder_id m. split.
  - unfold move_sheet_to_folder.
    apply (retry_loop_invariant _ _ (updates_follow_reads file_id folder_id)).
    + intros i a b c d out Hi. discriminate Hi.
    + apply updates_follow_reads_app.
    + intros s i a b c d out Hi. destruct i as [|i]; discriminate Hi.
    + apply move_attempt_follows.
  - intros m' Hrun. unfold move_sheet_to_folder in Hrun.
    apply retry_loop_returned in Hrun. destruct Hrun as (m0 & Hrun).
    rewrite move_attempt_run in Hrun.
    destruct (remote m0 (issued m0)) as [file|e]; [|discriminate Hrun].
    destruct (remote m0 (S (issued m0))) as [r|e]; [|discriminate Hrun].
    injection Hrun as <-.
    exists (log m0 ++ [EvBuild "drive" "v3"]), file, r.
    simpl. rewrite <- app_assoc. reflexivity.
Qed.

(** ** What a return of the write means *)

Section Returned.
Context {A : Type} (what : string) (attempt : M A).
Hypothesis attempt_log : forall m, exists evs, log (attempt m).2 = log m ++ evs.

Lemma retry_loop_returned_after (retries : list Z) : forall m a m',
  retry_loop what attempt retries m = (Ok a, m') ->
  exists m0 evs, attempt m0 = (Ok a, m') /\ log m0 = log m ++ evs.
Proof.
  induction retries as [|retry rest IH]; intros m a m'; [discriminate|].
  cbn [retry_loop]. destruct (attempt_log m) as (evs & Hlog).
  destruct (attempt m) as [[a0|[status text|cls text]] m1] eqn:E;
    [ intros [= <- <-]; exists m, []; rewrite app_nil_r; auto
    | | discriminate ].
  destruct ((MAX_RETRIES - 1 <=? retry)
            || negb (status_in status retryable_statuses)); [discriminate|].
  rewrite bind_run, sleep_run. intros H.
  destruct (IH _ _ _ H) as (m0 & evs0 & Hrun & Hlog0).
  exists m0. eexists. split; [exact Hrun|].
  rewrite Hlog0. simpl in *. rewrite Hlog, <- !app_assoc. reflexivity.
Qed.
End Returned.

Lemma for_each_batches_returned svc sid ibs : forall m m',
  for_each ibs (write_batch svc sid) m = (Ok tt, m') ->
  exists final,
    log m' = log m ++ final
    /\ Forall2 (fun ev req => exists r, ev = EvCall req (Responds r))
               final (map (batch_request sid) ibs).
Proof.
  induction ibs as [|ib ibs IH]; intros m m'.
  - intros [= <-]. exists []. rewrite app_nil_r. split; [reflexivity | constructor].
  - cbn [for_each]. rewrite bind_run, write_batch_run.
    destruct (remote m (issued m)) as [r|e]; [|discriminate].
    intros H. destruct (IH _ _ H) as (final & Hlog & Hall).
    exists (EvCall (batch_request sid ib) (Responds r) :: final).
    split.
    + rewrite Hlog. simpl. rewrite <- app_assoc. reflexivity.
    + constructor; [exists r; reflexivity | exact Hall].
Qed.

Lemma effects_log m m' evs : effects_of m m' evs -> log m' = log m ++ evs.
Proof. intros (H & _). exact H. Qed.

(** X13: [write_dataframe_to_sheet] returns only after a pass in which
    the service accepted every request.  Whenever the call returns, for
    any input and whatever the services did before, the log ends with
    one attempt - a client built, then the requests of the whole table,
    each of them answered: the single update at [Sheet1!A1] for a table
    within the threshold, the update and the appends of all the batches
    otherwise.  Their payloads, in order, are the header and the rows of
    the frame the normalisation returned, which can be JSON-encoded. *)
Theorem write_dataframe_to_sheet_returns_after_full_pass :
  forall (cr : Credentials) (sid : string) (df : nat) (m m' : Machine),
    write_dataframe_to_sheet cr sid df m = (Ok tt, m') ->
    exists df' m1 f' evs final reqs,
      prepare_dataframe_for_sheets df m = (Ok df', m1)
      /\ heap m1 !! df' = Some f'
      /\ is_Ok (json_dumps_table (values_of f')) = true
      /\ log m' = log m ++ evs ++ EvBuild "sheets" "v4" :: final
      /\ Forall2 (fun ev req => exists r, ev = EvCall req (Responds r))
                 final reqs
      /\ reqs = (if BATCH_SIZE <? len (values_of f')
                 then batch_requests sid (values_of f')
                 else [ValuesUpdate sid "Sheet1!A1" "RAW" (values_of f')])
      /\ concat (map payload reqs) = values_of f'.
Proof.
  intros cr sid df m m' Hrun. unfold write_dataframe_to_sheet in Hrun.
  rewrite bind_run in Hrun.
  destruct (prepare_dataframe_for_sheets df m) as [[df'|e] m1] eqn:Hp;
    [|discriminate Hrun].
  destruct (prepare_returns_encodable _ _ _ _ Hp) as (f' & Hf' & _ & Henc).
  destruct (prepare_extends _ _ _ _ Hp) as (_ & _ & _ & Hlog1).
  rewrite bind_run, (deref_run _ _ _ Hf') in Hrun.
  exists df', m1, f'. unfold write_values in Hrun.
  destruct (BATCH_SIZE <? len (values_of f')) eqn:Hsize.
  - apply retry_loop_returned_after in Hrun.
    + destruct Hrun as (m0 & evs & Hatt & Hlog0).
      rewrite bind_run, build_run in Hatt.
      apply for_each_batches_returned in Hatt.
      destruct Hatt as (final & Hlog & Hall).
      exists evs, final, (batch_requests sid (values_of f')).
      split; [reflexivity|]. split; [exact Hf'|]. split; [exact Henc|].
      split; [|split; [exact Hall|split; [reflexivity|]]].
      * rewrite Hlog. simpl. rewrite Hlog0, Hlog1, <- !app_assoc. reflexivity.
      * apply batch_requests_payloads.
    + intros m0.
      destruct (batched_attempt_effects cr sid
                  (enumerate (make_batches (values_of f'))) m0)
        as (evs & Heff & _).
      exists evs. apply (effects_log _ _ _ Heff).
  - apply retry_loop_returned_after in Hrun.
    + destruct Hrun as (m0 & evs & Hatt & Hlog0).
      rewrite small_attempt_run in Hatt.
      destruct (remote m0 (issued m0)) as [r|e]; [|discriminate Hatt].
      injection Hatt as <-.
      exists evs,
        [EvCall (ValuesUpdate sid "Sheet1!A1" "RAW" (values_of f')) (Responds r)],
        [ValuesUpdate sid "Sheet1!A1" "RAW" (values_of f')].
      split; [reflexivity|]. split; [exact Hf'|]. split; [exact Henc|].
      split; [|split; [|split; [reflexivity|]]].
      * simpl. rewrite Hlog0, Hlog1, <- !app_assoc. reflexivity.
      * constructor; [exists r; reflexivity | constructor].
      * cbn [map payload concat]. apply app_nil_r.
    + intros m0.
      destruct (small_attempt_effects cr sid (values_of f') m0)
        as (evs & Heff & _).
      exists evs. apply (effects_log _ _ _ Heff).
Qed.

Lemma write_dataframe_to_sheet_returns_after_full_pass_witness :
  exists df' m1 f' evs final,
    prepare_dataframe_for_sheets 0
      (run_with (int_table 2) (remote rate_limited_four_times))
    = (Ok df', m1)
    /\ heap m1 !! df' = Some f'
    /\ log (write_dataframe_to_sheet (mkCredentials "tok") "sheet-1" 0
              (run_with (int_table 2) (remote rate_limited_four_times))).2
       = evs ++ EvBuild "sheets" "v4" :: final
    /\ Forall2 (fun ev req => exists r, ev = EvCall req (Responds r))
               final
               [ValuesUpdate "sheet-1" "Sheet1!A1" "RAW" (values_of f')].
Proof.
  destruct (write_dataframe_to_sheet_returns_after_full_pass
              (mkCredentials "tok") "sheet-1" 0
              (run_with (int_table 2) (remote rate_limited_four_times))
              (write_dataframe_to_sheet (mkCredentials "tok") "sheet-1" 0
                 (run_with (int_table 2) (remote rate_limited_four_times))).2)
    as (df' & m1 & f' & evs & final & reqs & Hp & Hf' & _ & Hlog & Hall & Hreqs & _).
  - vm_compute. reflexivity.
  - exists df', m1, f', evs, final.
    split; [exact Hp|]. split; [exact Hf'|]. split; [exact Hlog|].
    rewrite Hreqs in Hall.
    assert (Hsmall : (BATCH_SIZE <? len (values_of f')) = false).
    { vm_compute in Hp. injection Hp as <- <-. vm_compute in Hf'.
      injection Hf' as <-. reflexivity. }
    rewrite Hsmall in Hall. exact Hall.
Defined.

(** X14: [create_google_sheet] returns only what an answered create
    request carried.  Whenever the call returns, the log ends with one
    attempt - a client built and the create request for [title],
    answered - and the value returned is the [spreadsheetId] of that
    answer: no identifier when the answer has none, which the function
    does not treat as an error. *)
Theorem create_google_sheet_returns_answer :
  forall (cr : Credentials) (title : string) (m m' : Machine)
         (spreadsheet_id : option string),
    create_google_sheet cr title m = (Ok spreadsheet_id, m') ->
    exists evs r,
      log m' = log m ++ evs ++ create_attempt title (Responds r)
      /\ spreadsheet_id = resp_spreadsheetId r.
Proof.
  intros cr title m m' x Hrun. unfold create_google_sheet in Hrun.
  apply retry_loop_returned_after in Hrun.
  - destruct Hrun as (m0 & evs & Hatt & Hlog0).
    rewrite create_attempt_run in Hatt.
    destruct (remote m0 (issued m0)) as [r|e]; [|discriminate Hatt].
    injection Hatt as <- <-. exists evs, r. split; [|reflexivity].
    simpl. rewrite Hlog0, <- app_assoc. reflexivity.
  - intros m0. destruct (create_attempt_effects cr title m0) as (evs & Heff & _).
    exists evs. apply (effects_log _ _ _ Heff).
Qed.

Lemma create_google_sheet_returns_answer_witness :
  exists evs r,
    log (create_google_sheet (mkCredentials "tok") "export"
           {| heap := ∅;
              remote := fun _ => Responds {| resp_spreadsheetId := None;
                                             resp_parents := None |};
              issued := 0; log := [] |}).2
    = [] ++ evs ++ create_attempt "export" (Responds r)
    /\ None = resp_spreadsheetId r.
Proof.
  apply (create_google_sheet_returns_answer (mkCredentials "tok") "export"
           {| heap := ∅;
              remote := fun _ => Responds {| resp_spreadsheetId := None;
                                             resp_parents := None |};
              issued := 0; log := [] |}).
  reflexivity.
Defined.

(** ** At the threshold *)

Lemma batch_requests_pair sid values :
  BATCH_SIZE < len values <= 2 * BATCH_SIZE ->
  batch_requests sid values
  = [ ValuesUpdate sid "Sheet1!A1" "RAW" (take batch_rows values);
      ValuesAppend sid "Sheet1!A5001" "RAW" "INSERT_ROWS"
                   (drop batch_rows values) ].
Proof.
  intros H. pose proof batch_rows_Z as HB. unfold BATCH_SIZE in *.
  assert (Hc : batch_count values = 2%nat).
  { unfold batch_count.
    pose proof (ceil_div_covers (len values) BATCH_SIZE ltac:(reflexivity)) as Hcov.
    unfold BATCH_SIZE in *. lia. }
  unfold batch_requests. rewrite make_batches_chunks, Hc.
  cbn [seq map]. rewrite Nat.mul_0_l, Nat.mul_1_l, drop_0.
  rewrite (take_ge (drop batch_rows values))
    by (unfold len in *; rewrite length_drop; lia).
  reflexivity.
Qed.

(** X15: the threshold counts the header row.  A frame of exactly 5000
    rows makes a table of 5001 rows, and [write_dataframe_to_sheet]
    takes the batched path for it: when the service answers, it sends
    two requests in one attempt, an update at [Sheet1!A1] with the header
    and the first 4999 rows, and an append at [Sheet1!A5001] that carries
    the last row alone.  A frame of 4999 rows is the largest that is sent
    in one request. *)
Theorem write_dataframe_to_sheet_at_threshold :
  forall (cr : Credentials) (sid : string) (df : nat) (m : Machine)
         (f : DataFrame),
    heap m !! df = Some f ->
    NoDup (labels f) -> catchableb f = true ->
    always_responds m ->
    (Z.of_nat (nrows f) = BATCH_SIZE ->
     exists m2 evs last_row,
       write_dataframe_to_sheet cr sid df m = (Ok tt, m2)
       /\ effects_of m m2 evs
       /\ attempts evs = 1%nat
       /\ last (values_tolist (normalize f)) = Some last_row
       /\ requests evs
          = [ ValuesUpdate sid "Sheet1!A1" "RAW"
                (map CStr (labels f)
                 :: take (Z.to_nat 4999) (values_tolist (normalize f)));
              ValuesAppend sid "Sheet1!A5001" "RAW" "INSERT_ROWS"
                [last_row] ])
    /\ (Z.of_nat (nrows f) < BATCH_SIZE ->
        exists m2 evs,
          write_dataframe_to_sheet cr sid df m = (Ok tt, m2)
          /\ effects_of m m2 evs
          /\ requests evs
             = [ValuesUpdate sid "Sheet1!A1" "RAW" (values_of (normalize f))]).
Proof.
  intros cr sid df m f Hf Hnd Hcatch Hok.
  destruct (prepare_run df m f Hf Hnd (catchableb_catchable f Hcatch))
    as (df' & m1 & Hp & Hh).
  pose proof (prepare_extends _ _ _ _ Hp) as Hext.
  assert (Hlen : len (values_of (normalize f)) = Z.of_nat (nrows f) + 1).
  { unfold len, values_of. cbn [length]. rewrite length_values_tolist.
    unfold normalize, map_columns. simpl. lia. }
  split.
  - intros Hn.
    destruct (write_values_batched_run cr sid (values_of (normalize f)) m1)
      as (evs & Hrun & Hreq & Hatt & _).
    { rewrite Hlen. lia. }
    { apply (always_responds_extends _ _ Hext Hok). }
    assert (Hrows : length (values_tolist (normalize f)) = S (Z.to_nat 4999)).
    { rewrite length_values_tolist. unfold normalize, map_columns. simpl.
      unfold BATCH_SIZE in Hn. lia. }
    assert (Hlast : exists last_row,
               drop (Z.to_nat 4999) (values_tolist (normalize f)) = [last_row]
               /\ last (values_tolist (normalize f)) = Some last_row).
    { pose proof (take_drop (Z.to_nat 4999) (values_tolist (normalize f))) as Htd.
      assert (Hd : length (drop (Z.to_nat 4999) (values_tolist (normalize f)))
                   = 1%nat)
        by (rewrite length_drop, Hrows; lia).
      destruct (drop (Z.to_nat 4999) (values_tolist (normalize f)))
        as [|x [|y l]]; try discriminate Hd.
      exists x. split; [reflexivity|]. rewrite <- Htd. apply last_snoc. }
    destruct Hlast as (last_row & Hdrop & Hlast).
    exists (advance m1 (length (requests evs)) evs), evs, last_row.
    split; [rewrite (write_dataframe_to_sheet_run _ _ _ _ _ _ _ Hp Hh);
            exact Hrun|].
    split; [apply effects_after_prepare, Hext|].
    split; [exact Hatt|]. split; [exact Hlast|].
    rewrite Hreq, batch_requests_pair by (rewrite Hlen; unfold BATCH_SIZE in *; lia).
    destruct (values_of_split (normalize f)) as [Ht Hd].
    rewrite Ht, Hd, Hdrop, labels_normalize. reflexivity.
  - intros Hn.
    destruct (write_single_after_prepare cr sid df m df' m1 (normalize f))
      with (r := match remote m (issued m) with
                 | Responds r => r
                 | Fails _ => {| resp_spreadsheetId := None;
                                 resp_parents := None |}
                 end)
      as (m2 & evs & Hrun & Heff & _ & Hreq & _); try assumption.
    { rewrite Hlen. lia. }
    { destruct (Hok (issued m) ltac:(lia)) as [r Hr]. rewrite Hr. reflexivity. }
    exists m2, evs. auto.
Qed.

Lemma write_dataframe_to_sheet_at_threshold_witness :
  exists m2 evs last_row,
    write_dataframe_to_sheet (mkCredentials "tok") "sheet-1" 0
      (run_with (int_table 5000) (fun _ => answers)) = (Ok tt, m2)
    /\ effects_of (run_with (int_table 5000) (fun _ => answers)) m2 evs
    /\ length (requests evs) = 2%nat
    /\ last (values_tolist (normalize (int_table 5000))) = Some last_row.
Proof.
  destruct (write_dataframe_to_sheet_at_threshold
              (mkCredentials "tok") "sheet-1" 0
              (run_with (int_table 5000) (fun _ => answers))
              (int_table 5000))
    as (Hat & _).
  - reflexivity.
  - apply (bool_decide_unpack _). vm_compute. exact I.
  - vm_compute. reflexivity.
  - intros k _. eexists. reflexivity.
  - destruct Hat as (m2 & evs & last_row & Hrun & Heff & _ & Hlast & Hreq);
      [reflexivity|].
    exists m2, evs, last_row. rewrite Hreq. auto.
Defined.

(** ** Exceptions of the encoder that the function does not catch *)

Lemma trial_run_uncaught m d f col s e :
  heap m !! d = Some f ->
  filter (fun s => has_label col s = true) (columns f) = [s] ->
  json_dumps_list (cells s) = Raise e -> type_or_overflow e = false ->
  try_except (dumps_column d col) type_or_overflow
             (fun _ => column_to_str d col) m
  = (Raise e, m).
Proof.
  intros Hf Hfil Henc He.
  unfold try_except, dumps_column, df_getitem.
  rewrite !bind_run, (deref_run _ _ _ Hf). unfold lift, getitem. rewrite Hfil.
  simpl item_tolist. cbv iota. rewrite bind_run, Henc. simpl. rewrite He.
  reflexivity.
Qed.

Lemma trial_run_column m d f col s :
  heap m !! d = Some f ->
  filter (fun s => has_label col s = true) (columns f) = [s] ->
  Forall (fun c => cell_catchable c = true) (cells s) ->
  try_except (dumps_column d col) type_or_overflow
             (fun _ => column_to_str d col) m
  = (Ok tt, with_frame m d (map_columns (on_label col coerce_unencodable) f)).
Proof.
  intros Hf Hfil Hcatch.
  assert (Hs : has_label col s = true /\ s ∈ columns f).
  { apply (list_elem_of_filter (fun s => has_label col s = true)).
    rewrite Hfil. left. }
  destruct Hs as [Hl Hs].
  assert (Hin : col ∈ labels f).
  { unfold has_label in Hl. apply bool_decide_eq_true in Hl. rewrite <- Hl.
    apply list_elem_of_fmap_2, Hs. }
  assert (Huniq : forall s', s' ∈ columns f -> has_label col s' = true -> s' = s)
    by (intros s' Hs' Hl'; eapply filter_singleton_eq; eassumption).
  assert (Hmap : map_columns (on_label col coerce_unencodable) f
                 = map_columns
                     (on_label col (fun _ => coerce_unencodable s)) f).
  { apply map_columns_ext. intros s' Hs'. unfold on_label.
    destruct (has_label col s') eqn:Hl'; [|reflexivity].
    rewrite (Huniq s' Hs' Hl'). reflexivity. }
  unfold try_except, dumps_column, df_getitem.
  rewrite !bind_run, (deref_run _ _ _ Hf). unfold lift, getitem. rewrite Hfil.
  simpl item_tolist. cbv iota. rewrite bind_run.
  destruct (json_dumps_list (cells s)) as [j|e] eqn:Henc.
  - simpl. rewrite (map_columns_ext _ (fun s => s)).
    + rewrite map_columns_id, with_frame_id by exact Hf. reflexivity.
    + intros s' Hs'. unfold on_label.
      destruct (has_label col s') eqn:Hl'; [|reflexivity].
      rewrite (Huniq s' Hs' Hl'). unfold coerce_unencodable, encodes.
      rewrite Henc. reflexivity.
  - simpl.
    assert (He : type_or_overflow e = true).
    { destruct (dumps_list_raise _ _ Henc) as (c & Hc & Hce).
      rewrite Forall_forall in Hcatch. specialize (Hcatch c Hc).
      unfold cell_catchable in Hcatch. rewrite Hce in Hcatch. exact Hcatch. }
    rewrite He, (column_to_str_run m d f col Hf Hin). do 2 f_equal.
    apply map_columns_ext. intros s' Hs'. unfold on_label.
    destruct (has_label col s') eqn:Hl'; [|reflexivity].
    rewrite (Huniq s' Hs' Hl'). unfold coerce_unencodable, encodes.
    rewrite Henc. reflexivity.
Qed.

Lemma catchable_coerce_series s :
  Forall (fun c => cell_catchable c = true) (cells s) ->
  Forall (fun c => cell_catchable c = true) (cells (coerce_unencodable s)).
Proof.
  intros Hs. unfold coerce_unencodable.
  destruct (encodes s); [exact Hs | apply catchable_astype].
Qed.

Lemma for_each_trial_columns d cols : forall m f,
  heap m !! d = Some f -> NoDup (labels f) ->
  (forall col, col ∈ cols -> col ∈ labels f) ->
  (forall s, s ∈ columns f -> name s ∈ cols ->
             Forall (fun c => cell_catchable c = true) (cells s)) ->
  for_each cols
    (fun col => try_except (dumps_column d col) type_or_overflow
                           (fun _ => column_to_str d col)) m
  = (Ok tt,
     with_frame m d (map_columns (on_labels cols coerce_unencodable) f)).
Proof.
  induction cols as [|col cols IH]; intros m f Hf Hnd Hsub Hcatch.
  - simpl. rewrite (map_columns_ext _ (fun s => s)) by reflexivity.
    rewrite map_columns_id, with_frame_id by exact Hf. reflexivity.
  - cbn [for_each]. rewrite bind_run.
    destruct (filter_label_unique col (columns f) Hnd (Hsub col ltac:(left)))
      as (s & Hfil & Hs & Hname).
    rewrite (trial_run_column m d f col s Hf Hfil)
      by (apply Hcatch; [exact Hs | rewrite Hname; left]).
    assert (Hlab : labels (map_columns (on_label col coerce_unencodable) f)
                   = labels f)
      by (apply labels_map_columns; intros; apply on_label_name;
          apply coerce_unencodable_name).
    rewrite (IH _ (map_columns (on_label col coerce_unencodable) f)).
    + rewrite with_frame_twice, map_columns_compose. do 2 f_equal.
      apply map_columns_ext. intros s0 _.
      apply on_labels_cons;
        [apply coerce_unencodable_name | apply coerce_unencodable_idem].
    + apply with_frame_lookup.
    + rewrite Hlab. exact Hnd.
    + intros c Hc. rewrite Hlab. apply Hsub. right. exact Hc.
    + intros s1 Hs1 Hn1. unfold map_columns in Hs1. simpl in Hs1.
      apply list_elem_of_fmap in Hs1. destruct Hs1 as (s0 & -> & Hs0).
      rewrite on_label_name in Hn1 by apply coerce_unencodable_name.
      assert (H0 : Forall (fun c => cell_catchable c = true) (cells s0))
        by (apply Hcatch; [exact Hs0 | right; exact Hn1]).
      unfold on_label. destruct (has_label col s0);
        [apply catchable_coerce_series, H0 | exact H0].
Qed.

Lemma catchable_stage2_series s :
  Forall (fun c => cell_catchable c = true) (cells s) ->
  Forall (fun c => cell_catchable c = true)
         (cells (nulls_to_none (dates_to_str s))).
Proof.
  intros Hs. simpl. apply Forall_map.
  assert (H1 : Forall (fun c => cell_catchable c = true)
                      (cells (dates_to_str s))).
  { unfold dates_to_str.
    destruct (is_datetime (dtype s)); [apply catchable_astype | exact Hs]. }
  eapply Forall_impl; [exact H1|]. intros c. apply cell_catchable_nulls.
Qed.

(** The run of the function when the trial of a column raises an
    exception that the function does not catch. *)
Lemma prepare_run_uncaught df m f pre s post e :
  heap m !! df = Some f -> NoDup (labels f) ->
  columns f = pre ++ s :: post ->
  Forall (fun s' => Forall (fun c => cell_catchable c = true) (cells s')) pre ->
  json_dumps_list (cells (nulls_to_none (dates_to_str s))) = Raise e ->
  type_or_overflow e = false ->
  exists m', prepare_dataframe_for_sheets df m = (Raise e, m').
Proof.
  intros Hf Hnd Hcols Hpre Henc He.
  unfold prepare_dataframe_for_sheets, copy_deep, frame_map.
  rewrite bind_run, bind_run, (deref_run _ _ _ Hf), alloc_run.
  set (d1 := fresh (dom (heap m))). set (m1 := with_frame m d1 f).
  assert (H1 : heap m1 !! d1 = Some f) by apply with_frame_lookup.
  rewrite bind_run, (read_frame_run m1 d1 f select_dtypes_datetime H1).
  rewrite bind_run, (for_each_column_to_str d1 _ m1 f H1)
    by apply date_labels_subset.
  rewrite (dates_on_labels f Hnd).
  set (f1 := map_columns dates_to_str f).
  set (m2 := with_frame m1 d1 f1).
  assert (H2 : heap m2 !! d1 = Some f1) by apply with_frame_lookup.
  rewrite bind_run, bind_run, (deref_run _ _ _ H2), alloc_run.
  set (d2 := fresh (dom (heap m2))).
  set (m3 := with_frame m2 d2 (map_cells replace_na_nat f1)).
  assert (H3 : heap m3 !! d2 = Some (map_cells replace_na_nat f1))
    by apply with_frame_lookup.
  rewrite bind_run, bind_run, (deref_run _ _ _ H3), alloc_run.
  rewrite nulls_on_cells.
  set (d3 := fresh (dom (heap m3))).
  set (f3 := map_columns nulls_to_none f1).
  set (m4 := with_frame m3 d3 f3).
  assert (H4 : heap m4 !! d3 = Some f3) by apply with_frame_lookup.
  set (g := fun s => nulls_to_none (dates_to_str s)).
  assert (Hf3 : columns f3 = map g (columns f)).
  { unfold f3, f1, map_columns. simpl. rewrite map_map. reflexivity. }
  assert (Hgname : forall s0, name (g s0) = name s0)
    by (intros s0; unfold g; simpl; apply dates_to_str_name).
  assert (Hlab : labels f3 = labels f).
  { unfold labels. rewrite Hf3, map_map. apply map_ext. exact Hgname. }
  assert (Hsplit : labels f3 = map name pre ++ name s :: map name post).
  { rewrite Hlab. unfold labels. rewrite Hcols, map_app. reflexivity. }
  assert (Hnd3 : NoDup (labels f3)) by (rewrite Hlab; exact Hnd).
  rewrite bind_run, (read_frame_run m4 d3 f3 labels H4).
  eexists. rewrite Hsplit at 1. rewrite bind_run, for_each_app.
  rewrite (for_each_trial_columns d3 (map name pre) m4 f3 H4 Hnd3).
  - cbn [for_each]. rewrite bind_run.
    set (f4 := map_columns (on_labels (map name pre) coerce_unencodable) f3).
    assert (Hfresh : name s ∉ map name pre).
    { rewrite Hsplit in Hnd3. apply NoDup_app in Hnd3.
      destruct Hnd3 as (_ & Hdis & _). intros Hin.
      apply (Hdis _ Hin). left. }
    assert (Hin3 : g s ∈ columns f3).
    { rewrite Hf3, Hcols. apply list_elem_of_fmap_2.
      apply elem_of_app. right. left. }
    assert (Hin4 : g s ∈ columns f4).
    { unfold f4, map_columns. cbn [columns]. apply list_elem_of_fmap.
      exists (g s). split; [|exact Hin3].
      unfold on_labels. rewrite Hgname.
      rewrite bool_decide_eq_false_2 by exact Hfresh. reflexivity. }
    assert (Hnd4 : NoDup (labels f4)).
    { unfold f4. rewrite labels_map_columns; [exact Hnd3|].
      intros s0. apply on_labels_name, coerce_unencodable_name. }
    destruct (filter_label_unique (name s) (columns f4) Hnd4)
      as (s4 & Hfil & Hs4 & Hname4).
    { rewrite <- (Hgname s). apply list_elem_of_fmap_2, Hin4. }
    assert (Heq : g s = s4).
    { apply (filter_singleton_eq (name s) (columns f4) s4 (g s) Hfil Hin4).
      unfold has_label. apply bool_decide_eq_true. apply Hgname. }
    rewrite (trial_run_uncaught _ d3 f4 (name s) s4 e);
      [reflexivity | apply with_frame_lookup | exact Hfil
      | rewrite <- Heq; exact Henc | exact He].
  - intros col Hcol. rewrite Hsplit. apply elem_of_app. left. exact Hcol.
  - intros s3 Hs3 Hn3. rewrite Hf3 in Hs3.
    apply list_elem_of_fmap in Hs3. destruct Hs3 as (s0 & -> & Hs0).
    rewrite Hgname in Hn3. apply list_elem_of_fmap in Hn3.
    destruct Hn3 as (s1 & Hn & Hs1).
    assert (H10 : s0 = s1).
    { apply (name_injective (columns f) s0 s1 Hnd Hs0); [|exact Hn].
      rewrite Hcols. apply elem_of_app. left. exact Hs1. }
    subst s1. rewrite Forall_forall in Hpre.
    apply catchable_stage2_series, Hpre, Hs1.
Qed.

(** X16: an exception of the encoder other than [TypeError] and
    [OverflowError] escapes.  Take a frame with distinct labels and the
    first of its columns whose trial encoding raises, the columns before
    it being ones that the function can prepare.  When the exception
    raised for that column - as it stands after the dates and the
    missing markers were handled - is neither a [TypeError] nor an
    [OverflowError] (the [ValueError] of a circular reference, say),
    [prepare_dataframe_for_sheets] raises it, and so does
    [write_dataframe_to_sheet], unwrapped and before any request: the
    column is not turned into strings. *)
Theorem prepare_dataframe_for_sheets_uncaught :
  forall (cr : Credentials) (sid : string) (df : nat) (m : Machine)
         (f : DataFrame) (pre : list Series) (s : Series)
         (post : list Series) (e : Exn),
    heap m !! df = Some f -> NoDup (labels f) ->
    columns f = pre ++ s :: post ->
    forallb (fun s' => forallb cell_catchable (cells s')) pre = true ->
    json_dumps_list (cells (nulls_to_none (dates_to_str s))) = Raise e ->
    type_or_overflow e = false ->
    exists m',
      prepare_dataframe_for_sheets df m = (Raise e, m')
      /\ write_dataframe_to_sheet cr sid df m = (Raise e, m')
      /\ log m' = log m /\ issued m' = issued m
      /\ heap m' !! df = Some f.
Proof.
  intros cr sid df m f pre s post e Hf Hnd Hcols Hpre Henc He.
  assert (Hpre' : Forall (fun s' => Forall (fun c => cell_catchable c = true)
                                           (cells s')) pre).
  { apply Forall_forall. intros s' Hs'. apply Forall_forall. intros c Hc.
    rewrite forallb_forall in Hpre.
    specialize (Hpre s' (proj1 (list_elem_of_In _ _) Hs')).
    rewrite forallb_forall in Hpre. apply Hpre, list_elem_of_In, Hc. }
  destruct (prepare_run_uncaught df m f pre s post e Hf Hnd Hcols Hpre' Henc He)
    as (m' & Hrun).
  exists m'. split; [exact Hrun|].
  split; [unfold write_dataframe_to_sheet; rewrite bind_run, Hrun; reflexivity|].
  destruct (prepare_extends _ _ _ _ Hrun) as (Hsub & _ & Hi & Hl).
  split; [exact Hl|]. split; [exact Hi|].
  eapply lookup_weaken; eassumption.
Qed.

Lemma prepare_dataframe_for_sheets_uncaught_witness :
  exists m',
    write_dataframe_to_sheet (mkCredentials "tok") "sheet-1" 0
      (run_with circular_table (fun _ => answers))
    = (Raise (PyExc ValueError "Circular reference detected"), m')
    /\ log m' = [].
Proof.
  destruct (prepare_dataframe_for_sheets_uncaught
              (mkCredentials "tok") "sheet-1" 0
              (run_with circular_table (fun _ => answers)) circular_table
              [ {| name := "n"; dtype := int64; cells := [CInt 1] |} ]
              {| name := "tags"; dtype := object_;
                 cells := [CObj "[[...]]"
                             (Raise (PyExc ValueError
                                       "Circular reference detected"))] |}
              [] (PyExc ValueError "Circular reference detected"))
    as (m' & _ & Hrun & Hl & _); try reflexivity.
  - apply (bool_decide_unpack _). vm_compute. exact I.
  - exists m'. split; assumption.
Defined.

(** ** Frames that need no preparation *)







(** ** What the function returns can be encoded *)

(** X29: the frame that [prepare_dataframe_for_sheets] returns can always
    be JSON-encoded.  Whatever the input, when the function returns,
    [json.dumps] raises nothing on the values of the frame returned,
    with or without the header row of the labels: the last block of the
    function sees to it.  And the function does return when the labels
    of the input are distinct and no cell of it raises more than a
    [TypeError] or an [OverflowError] on encoding. *)
Theorem prepare_dataframe_for_sheets_result_encodes :
  forall (df : nat) (m : Machine) (f : DataFrame),
    heap m !! df = Some f ->
    (forall df' m',
        prepare_dataframe_for_sheets df m = (Ok df', m') ->
        exists f', heap m' !! df' = Some f'
                   /\ is_Ok (json_dumps_table (values_tolist f')) = true
                   /\ is_Ok (json_dumps_table (values_of f')) = true)
    /\ (NoDup (labels f) -> catchableb f = true ->
        exists df' m' f',
          prepare_dataframe_for_sheets df m = (Ok df', m')
          /\ heap m' !! df' = Some f'
          /\ is_Ok (json_dumps_table (values_of f')) = true).
Proof.
  intros df m f Hf.
  split; [intros df' m'; apply prepare_returns_encodable|].
  intros Hnd Hc.
  destruct (prepare_run df m f Hf Hnd (catchableb_catchable f Hc))
    as (df' & m' & Hrun & Hheap).
  destruct (prepare_returns_encodable _ _ _ _ Hrun) as (f' & Hf' & _ & Henc).
  exists df', m', f'. auto.
Qed.

Lemma prepare_dataframe_for_sheets_result_encodes_witness :
  exists df' m' f',
    prepare_dataframe_for_sheets 0 (run_with mixed_table (fun _ => answers))
    = (Ok df', m')
    /\ heap m' !! df' = Some f'
    /\ is_Ok (json_dumps_table (values_of f')) = true.
Proof.
  destruct (prepare_dataframe_for_sheets_result_encodes
              0 (run_with mixed_table (fun _ => answers)) mixed_table)
    as (_ & Hrun).
  - reflexivity.
  - apply Hrun.
    + apply (bool_decide_unpack _). vm_compute. exact I.
    + reflexivity.
Defined.

(** ** Running a computation of the world *)

Lemma world_bind_run {A B} (c : W A) (k : A -> W B) (w : World) :
  (c ≫= k) w =
  match c w with
  | (Ok a, w') => k a w'
  | (Raise e, w') => (Raise e, w')
  end.
Proof. reflexivity. Qed.

Lemma with_machine_id (w : World) : with_machine w (machine w) = w.
Proof. destruct w. reflexivity. Qed.

Lemma with_files_id (w : World) : with_files w (files w) = w.
Proof. destruct w. reflexivity. Qed.

(** ** [get_google_credentials] *)

Lemma load_token_run (token_path : string) (w : World) :
  (found ← path_exists token_path;
   if found : bool then
     try_except_Exception
       (text ← read_text token_path;
        c ← call (fun w => authorized_user w text);
        mret (Some c))
       (fun _ => mret None)
   else mret None) w
  = (Ok (stored_credentials w token_path), w).
Proof.
  rewrite world_bind_run. unfold path_exists, ask, stored_credentials.
  destruct (files w !! token_path) as [[text|e]|] eqn:Hfile.
  - rewrite bool_decide_eq_true_2 by (eexists; reflexivity).
    unfold try_except_Exception. rewrite world_bind_run.
    unfold read_text, call at 1. rewrite Hfile.
    rewrite world_bind_run. unfold call.
    destruct (authorized_user w text); reflexivity.
  - rewrite bool_decide_eq_true_2 by (eexists; reflexivity).
    unfold try_except_Exception. rewrite world_bind_run.
    unfold read_text, call at 1. rewrite Hfile. reflexivity.
  - rewrite bool_decide_eq_false_2 by (intros [x Hx]; discriminate Hx).
    reflexivity.
Qed.

Lemma new_credentials_run (client_secret_file token_path : string) (w : World) :
  (c ← try_except_Exception (run_local_server client_secret_file)
         (fun e => throw (PyExc RuntimeError
                            ("Failed to authenticate with Google: "
                             +:+ exc_str e)));
   write_text token_path (to_json c);;
   mret c) w
  = match local_server w client_secret_file with
    | Raise e =>
        (Raise (PyExc RuntimeError
                  ("Failed to authenticate with Google: " +:+ exc_str e)),
         after w [ActFlow client_secret_file])
    | Ok c =>
        match write_error w token_path with
        | Some e => (Raise e, after w [ActFlow client_secret_file])
        | None =>
            match write_fault w token_path (to_json c) with
            | Some (e, written) =>
                (Raise e,
                 with_files (after w [ActFlow client_secret_file])
                   (<[token_path := Ok (String.substring 0 written (to_json c))]>
                      (files w)))
            | None =>
                (Ok c,
                 with_files (after w [ActFlow client_secret_file])
                            (<[token_path := Ok (to_json c)]> (files w)))
            end
        end
    end.
Proof.
  rewrite world_bind_run. unfold try_except_Exception, run_local_server.
  rewrite world_bind_run. unfold act at 1, call. cbn [local_server with_trail].
  fold (after w [ActFlow client_secret_file]).
  destruct (local_server w client_secret_file) as [c|e]; [|reflexivity].
  rewrite world_bind_run. unfold write_text.
  cbn [write_error write_fault files after with_trail].
  destruct (write_error w token_path); [reflexivity|].
  destruct (write_fault w token_path (to_json c)) as [[e written]|];
    reflexivity.
Qed.

Lemma get_google_credentials_run (client_secret_file token_path : string)
    (w : World) :
  get_google_credentials client_secret_file token_path w
  = let new_credentials :=
      (c ← try_except_Exception (run_local_server client_secret_file)
             (fun e => throw (PyExc RuntimeError
                                ("Failed to authenticate with Google: "
                                 +:+ exc_str e)));
       write_text token_path (to_json c);;
       mret c) in
    match stored_credentials w token_path with
    | None => new_credentials w
    | Some c =>
        if valid c then (Ok c, w)
        else if expired c && truthy (refresh_token c) then
          match refreshed w c with
          | Ok c' =>
              if valid c' then (Ok c', after w [ActRefresh c])
              else new_credentials (after w [ActRefresh c])
          | Raise _ => new_credentials (after w [ActRefresh c])
          end
        else new_credentials w
    end.
Proof.
  unfold get_google_credentials. rewrite world_bind_run, load_token_run.
  cbv zeta.
  destruct (stored_credentials w token_path) as [c|]; [|reflexivity].
  destruct (valid c) eqn:Hv; [reflexivity|].
  destruct (expired c && truthy (refresh_token c)).
  - rewrite world_bind_run. unfold try_except_Exception at 1.
    rewrite world_bind_run. unfold refresh. rewrite world_bind_run.
    unfold act at 1, call at 1. cbn [refreshed with_trail].
    fold (after w [ActRefresh c]).
    destruct (refreshed w c) as [c'|e];
      [cbn; destruct (valid c'); reflexivity | reflexivity].
  - rewrite world_bind_run. cbn. rewrite Hv. reflexivity.
Qed.

Lemma stored_credentials_file w token_path text c :
  files w !! token_path = Some (Ok text) -> authorized_user w text = Ok c ->
  stored_credentials w token_path = Some c.
Proof. intros Hf Hp. unfold stored_credentials. rewrite Hf, Hp. reflexivity. Qed.

(** Getting the credentials touches neither the Google machine nor the
    database. *)
Lemma get_google_credentials_local secret_file token_file w :
  let w' := (get_google_credentials secret_file token_file w).2 in
  machine w' = machine w /\ database w' = database w
  /\ today w' = today w.
Proof.
  rewrite get_google_credentials_run. cbv zeta.
  assert (Hflow : forall w0,
             machine w0 = machine w -> database w0 = database w ->
             today w0 = today w ->
             let w' := ((c ← try_except_Exception (run_local_server secret_file)
                              (fun e => throw (PyExc RuntimeError
                                 ("Failed to authenticate with Google: "
                                  +:+ exc_str e)));
                         write_text token_file (to_json c);;
                         mret c) w0).2 in
             machine w' = machine w /\ database w' = database w
             /\ today w' = today w).
  { intros w0 Hm Hd Ht. rewrite new_credentials_run.
    destruct (local_server w0 secret_file) as [a|e0]; [|cbn; auto].
    destruct (write_error w0 token_file); [cbn; auto|].
    destruct (write_fault w0 token_file (to_json a)) as [[e n]|]; cbn; auto. }
  destruct (stored_credentials w token_file) as [c|]; [|apply Hflow; auto].
  destruct (valid c); [cbn; auto|].
  destruct (expired c && truthy (refresh_token c)); [|apply Hflow; auto].
  destruct (refreshed w c) as [c'|e]; [|apply Hflow; auto].
  destruct (valid c'); [cbn; auto | apply Hflow; auto].
Qed.

(** What a return of [get_google_credentials] leaves in the files:
    nothing new, and then the OAuth flow was not run; or the JSON text
    of the credentials that the flow gave, in the token file. *)
Lemma get_google_credentials_files secret_file token_file w c w1 :
  get_google_credentials secret_file token_file w = (Ok c, w1) ->
  (files w1 = files w
   /\ ActFlow secret_file ∉ drop (length (trail w)) (trail w1))
  \/ (local_server w secret_file = Ok c
      /\ files w1 = <[token_file := Ok (to_json c)]> (files w)).
Proof.
  rewrite get_google_credentials_run. cbv zeta.
  assert (Hflow : forall w0,
             files w0 = files w -> local_server w0 = local_server w ->
             (c0 ← try_except_Exception (run_local_server secret_file)
                     (fun e => throw (PyExc RuntimeError
                                        ("Failed to authenticate with Google: "
                                         +:+ exc_str e)));
              write_text token_file (to_json c0);;
              mret c0) w0 = (Ok c, w1) ->
             local_server w secret_file = Ok c
             /\ files w1 = <[token_file := Ok (to_json c)]> (files w)).
  { intros w0 Hf Hl. rewrite new_credentials_run, Hl, Hf.
    destruct (local_server w secret_file) as [c0|e]; [|discriminate].
    destruct (write_error w0 token_file); [discriminate|].
    destruct (write_fault w0 token_file (to_json c0)) as [[e written]|];
      [discriminate|].
    intros [= <- <-]. split; reflexivity. }
  destruct (stored_credentials w token_file) as [c0|];
    [|intros H; right; apply (Hflow w); auto].
  destruct (valid c0) eqn:Hv.
  { intros [= <- <-]. left. split; [reflexivity|].
    rewrite drop_all. apply not_elem_of_nil. }
  destruct (expired c0 && truthy (refresh_token c0));
    [|intros H; right; apply (Hflow w); auto].
  destruct (refreshed w c0) as [c1|e];
    [|intros H; right; apply (Hflow (after w [ActRefresh c0])); auto].
  destruct (valid c1) eqn:Hv1;
    [|intros H; right; apply (Hflow (after w [ActRefresh c0])); auto].
  intros [= <- <-]. left. split; [reflexivity|].
  cbn. rewrite drop_app_length. intros Hin.
  apply list_elem_of_singleton in Hin. discriminate Hin.
Qed.

(** X18: a valid stored token is returned as it is.  When the token file
    can be read, holds credentials and these are valid,
    [get_google_credentials] returns them and does nothing else: no
    refresh, no OAuth flow, no file written. *)
Theorem get_google_credentials_valid_token :
  forall (client_secret_file token_path text : string) (w : World)
         (c : UserCredentials),
    files w !! token_path = Some (Ok text) ->
    authorized_user w text = Ok c ->
    valid c = true ->
    get_google_credentials client_secret_file token_path w = (Ok c, w).
Proof.
  intros secret path text w c Hfile Hparse Hvalid.
  rewrite get_google_credentials_run,
    (stored_credentials_file w path text c Hfile Hparse).
  cbv zeta. rewrite Hvalid. reflexivity.
Qed.

(** X19: a refreshed token is not saved.  When the stored credentials
    are expired and carry a refresh token, and the refresh makes them
    valid, [get_google_credentials] returns the refreshed credentials
    without running the OAuth flow - and without writing them: the token
    file holds afterwards the text it held before, so that the next run
    finds the expired token again. *)
Theorem get_google_credentials_refresh_not_saved :
  forall (client_secret_file token_path text : string) (w : World)
         (c c' : UserCredentials),
    files w !! token_path = Some (Ok text) ->
    authorized_user w text = Ok c ->
    valid c = false -> expired c = true ->
    truthy (refresh_token c) = true ->
    refreshed w c = Ok c' -> valid c' = true ->
    exists w',
      get_google_credentials client_secret_file token_path w = (Ok c', w')
      /\ trail w' = trail w ++ [ActRefresh c]
      /\ files w' = files w
      /\ files w' !! token_path = Some (Ok text)
      /\ stored_credentials w' token_path = Some c.
Proof.
  intros secret path text w c c' Hfile Hparse Hinv Hexp Htok Href Hvalid.
  exists (after w [ActRefresh c]).
  rewrite get_google_credentials_run,
    (stored_credentials_file w path text c Hfile Hparse).
  cbv zeta. rewrite Hinv, Hexp, Htok, Href, Hvalid.
  split; [reflexivity|]. split; [reflexivity|]. split; [reflexivity|].
  split; [exact Hfile|].
  apply (stored_credentials_file _ path text c); assumption.
Qed.

(** X20: what a return of [get_google_credentials] means.  Whenever the
    call returns credentials, either they are valid - the stored ones,
    as they were or refreshed - and then no file was written and no
    OAuth flow run; or they are what the OAuth flow has just given, taken
    without a test of their validity, and then the token file holds their
    JSON text and nothing else changed in the files. *)
Theorem get_google_credentials_returns :
  forall (client_secret_file token_path : string) (w w' : World)
         (c : UserCredentials),
    get_google_credentials client_secret_file token_path w = (Ok c, w') ->
    (valid c = true /\ files w' = files w
     /\ ActFlow client_secret_file ∉ drop (length (trail w)) (trail w'))
    \/ (local_server w client_secret_file = Ok c
        /\ files w' = <[token_path := Ok (to_json c)]> (files w)
        /\ last (trail w') = Some (ActFlow client_secret_file)).
Proof.
  intros secret path w w' c. rewrite get_google_credentials_run. cbv zeta.
  assert (Hflow : forall w0,
             files w0 = files w -> local_server w0 = local_server w ->
             (c0 ← try_except_Exception (run_local_server secret)
                     (fun e => throw (PyExc RuntimeError
                                        ("Failed to authenticate with Google: "
                                         +:+ exc_str e)));
              write_text path (to_json c0);;
              mret c0) w0 = (Ok c, w') ->
             local_server w secret = Ok c
             /\ files w' = <[path := Ok (to_json c)]> (files w)
             /\ last (trail w') = Some (ActFlow secret)).
  { intros w0 Hf Hl. rewrite new_credentials_run, Hl, Hf.
    destruct (local_server w secret) as [c0|e]; [|discriminate].
    destruct (write_error w0 path); [discriminate|].
    destruct (write_fault w0 path (to_json c0)) as [[e written]|];
      [discriminate|].
    intros [= <- <-]. split; [reflexivity|]. split; [reflexivity|].
    cbn. apply last_snoc. }
  destruct (stored_credentials w path) as [c0|];
    [|intros H; right; apply (Hflow w); auto].
  destruct (valid c0) eqn:Hv.
  { intros [= <- <-]. left. split; [exact Hv|]. split; [reflexivity|].
    rewrite drop_all. apply not_elem_of_nil. }
  destruct (expired c0 && truthy (refresh_token c0));
    [|intros H; right; apply (Hflow w); auto].
  destruct (refreshed w c0) as [c1|e];
    [|intros H; right; apply (Hflow (after w [ActRefresh c0])); auto].
  destruct (valid c1) eqn:Hv1;
    [|intros H; right; apply (Hflow (after w [ActRefresh c0])); auto].
  intros [= <- <-]. left. split; [exact Hv1|]. split; [reflexivity|].
  cbn. rewrite drop_app_length. intros Hin.
  apply list_elem_of_singleton in Hin. discriminate Hin.
Qed.

(** X21: what [get_google_credentials] can raise.  The call fails in
    three ways only, each after the OAuth flow was started.  The flow
    failed: the exception is a [RuntimeError] that carries its cause, and
    no file has changed.  Or the flow gave credentials and the token
    file could not be opened for writing: the exception is that of
    [open], unwrapped, and no file has changed.  Or the token file was
    opened and the writing failed: the exception is raised unwrapped,
    and the token file holds the part of the JSON text that was written
    - an empty file when nothing was - so that the token it held before
    is lost; no other file has changed.  A token file that is missing,
    unreadable or corrupt, and a refresh that fails, are never errors:
    the function goes on to the flow. *)
Theorem get_google_credentials_raises :
  forall (client_secret_file token_path : string) (w w' : World) (e : Exn),
    get_google_credentials client_secret_file token_path w = (Raise e, w') ->
    last (trail w') = Some (ActFlow client_secret_file)
    /\ ((exists cause,
           local_server w client_secret_file = Raise cause
           /\ e = PyExc RuntimeError
                    ("Failed to authenticate with Google: "
                     +:+ exc_str cause)
           /\ files w' = files w)
        \/ (exists c,
              local_server w client_secret_file = Ok c
              /\ write_error w token_path = Some e
              /\ files w' = files w)
        \/ (exists c written,
              local_server w client_secret_file = Ok c
              /\ write_error w token_path = None
              /\ write_fault w token_path (to_json c) = Some (e, written)
              /\ files w'
                 = <[token_path := Ok (String.substring 0 written (to_json c))]>
                     (files w))).
Proof.
  intros secret path w w' e. rewrite get_google_credentials_run. cbv zeta.
  assert (Hflow : forall w0,
             files w0 = files w -> local_server w0 = local_server w ->
             write_error w0 = write_error w ->
             write_fault w0 = write_fault w ->
             (c0 ← try_except_Exception (run_local_server secret)
                     (fun e => throw (PyExc RuntimeError
                                        ("Failed to authenticate with Google: "
                                         +:+ exc_str e)));
              write_text path (to_json c0);;
              mret c0) w0 = (Raise e, w') ->
             last (trail w') = Some (ActFlow secret)
             /\ ((exists cause,
                    local_server w secret = Raise cause
                    /\ e = PyExc RuntimeError
                             ("Failed to authenticate with Google: "
                              +:+ exc_str cause)
                    /\ files w' = files w)
                 \/ (exists c,
                       local_server w secret = Ok c
                       /\ write_error w path = Some e
                       /\ files w' = files w)
                 \/ (exists c written,
                       local_server w secret = Ok c
                       /\ write_error w path = None
                       /\ write_fault w path (to_json c) = Some (e, written)
                       /\ files w'
                          = <[path := Ok (String.substring 0 written (to_json c))]>
                              (files w)))).
  { intros w0 Hf Hl Hw Hwf. rewrite new_credentials_run, Hl, Hw, Hwf, Hf.
    destruct (local_server w secret) as [c0|cause].
    - destruct (write_error w path) as [e0|] eqn:He0.
      + intros [= <- <-]. split; [cbn; apply last_snoc|].
        right. left. exists c0. auto.
      + destruct (write_fault w path (to_json c0)) as [[e1 written]|] eqn:He1;
          [|discriminate].
        intros [= <- <-]. split; [cbn; apply last_snoc|].
        right. right. exists c0, written. auto.
    - intros [= <- <-]. split; [cbn; apply last_snoc|].
      left. exists cause. auto. }
  destruct (stored_credentials w path) as [c0|]; [|apply (Hflow w); auto].
  destruct (valid c0); [discriminate|].
  destruct (expired c0 && truthy (refresh_token c0)); [|apply (Hflow w); auto].
  destruct (refreshed w c0) as [c1|e1];
    [|apply (Hflow (after w [ActRefresh c0])); auto].
  destruct (valid c1); [discriminate|].
  apply (Hflow (after w [ActRefresh c0])); auto.
Qed.

Lemma get_google_credentials_valid_token_witness :
  get_google_credentials "client_secret.json" "token.json" office
  = (Ok stored_token, office).
Proof.
  apply (get_google_credentials_valid_token
           "client_secret.json" "token.json" "{stored}" office stored_token);
    reflexivity.
Defined.

Lemma get_google_credentials_refresh_not_saved_witness :
  exists w',
    get_google_credentials "client_secret.json" "token.json" office_expired
    = (Ok refreshed_token, w')
    /\ files w' !! "token.json" = Some (Ok "{expired}").
Proof.
  destruct (get_google_credentials_refresh_not_saved
              "client_secret.json" "token.json" "{expired}" office_expired
              expired_token refreshed_token)
    as (w' & Hrun & _ & _ & Hfile & _); try reflexivity.
  exists w'. split; assumption.
Defined.

Lemma get_google_credentials_returns_witness :
  local_server office_new "client_secret.json" = Ok granted_token
  /\ files (get_google_credentials "client_secret.json" "token.json"
              office_new).2 !! "token.json"
     = Some (Ok "{granted}").
Proof.
  destruct (get_google_credentials_returns
              "client_secret.json" "token.json" office_new
              (get_google_credentials "client_secret.json" "token.json"
                 office_new).2
              granted_token)
    as [(_ & _ & Hno)|(Hflow & Hfiles & _)].
  - reflexivity.
  - exfalso. apply Hno. vm_compute. left.
  - split; [exact Hflow|]. rewrite Hfiles. reflexivity.
Defined.

Lemma get_google_credentials_raises_witness :
  files (get_google_credentials "client_secret.json" "token.json"
           office_denied).2
  = files office_denied
  /\ stored_credentials office_disk_full "token.json" = Some expired_token
  /\ files (get_google_credentials "client_secret.json" "token.json"
              office_disk_full).2 !! "token.json"
     = Some (Ok "").
Proof.
  split; [|split; [reflexivity|]].
  - destruct (get_google_credentials_raises
                "client_secret.json" "token.json" office_denied
                (get_google_credentials "client_secret.json" "token.json"
                   office_denied).2
                (PyExc RuntimeError
                   "Failed to authenticate with Google: access_denied"))
      as (_ & [(cause & _ & _ & Hf)|[(c & Hl & _)|(c & n & Hl & _)]]).
    + reflexivity.
    + exact Hf.
    + discriminate Hl.
    + discriminate Hl.
  - destruct (get_google_credentials_raises
                "client_secret.json" "token.json" office_disk_full
                (get_google_credentials "client_secret.json" "token.json"
                   office_disk_full).2
                (PyExc OtherException "[Errno 28] No space left on device"))
      as (_ & [(cause & Hl & _)
              |[(c & _ & Hw & _)|(c & n & Hl & _ & Hf & Hfiles)]]).
    + reflexivity.
    + discriminate Hl.
    + discriminate Hw.
    + rewrite Hfiles. injection Hl as <-. injection Hf as <-.
      reflexivity.
Defined.

(** ** [execute_trino_query] *)

Lemma after_after (w : World) (a b : list Action) :
  after (after w a) b = after w (a ++ b).
Proof. unfold after, with_trail. simpl. rewrite app_assoc. reflexivity. Qed.

Lemma execute_trino_query_run (config : Config) (sql_query : string) (w : World) :
  execute_trino_query config sql_query w
  = let conn := connection_of config in
    match database w conn sql_query with
    | Ok f =>
        (Ok (fresh (dom (heap (machine w)))),
         after (with_machine (after w [ActConnect conn; ActQuery sql_query conn])
                  (with_frame (machine w) (fresh (dom (heap (machine w)))) f))
               [ActClose conn])
    | Raise e =>
        (Raise (PyExc RuntimeError
                  ("Failed to execute Trino query: " +:+ exc_str e)),
         after w [ActConnect conn; ActQuery sql_query conn])
    end.
Proof.
  unfold execute_trino_query, try_except_Exception. fold (connection_of config).
  cbv zeta. set (conn := connection_of config).
  rewrite world_bind_run. unfold connect at 1. rewrite world_bind_run.
  unfold act at 1. fold (after w [ActConnect conn]). cbn [mret W_ret].
  rewrite world_bind_run. unfold pd_read_sql at 1. rewrite world_bind_run.
  unfold act at 1. fold (after (after w [ActConnect conn]) [ActQuery sql_query conn]).
  rewrite after_after. cbn [app].
  rewrite world_bind_run. unfold call at 1. cbn [database after with_trail].
  fold (after w [ActConnect conn; ActQuery sql_query conn]).
  destruct (database w conn sql_query) as [f|e]; [|reflexivity].
  unfold in_machine. cbn [machine after with_trail]. rewrite alloc_run.
  rewrite world_bind_run. reflexivity.
Qed.

(** X22: the query runs on a connection that is closed only when the
    query succeeds.  [execute_trino_query] connects with the host, port,
    user, catalog and schema of the configuration, over https, with basic
    authentication by the user and the password of the configuration -
    the password as found, absent when [TRINO_PASSWORD] is not set.  When
    the query gives a frame, the function closes the connection and
    returns the frame as a new object, touching no other object and no
    Google service.  When the query fails, the function raises
    [RuntimeError] with the message
    [Failed to execute Trino query: <cause>] and the connection is left
    open. *)
Theorem execute_trino_query_outcomes :
  forall (config : Config) (sql_query : string) (w : World),
    let conn := connection_of config in
    let result := execute_trino_query config sql_query w in
    conn_auth conn
    = BasicAuthentication (user (trino config)) (password (trino config))
    /\ match database w conn sql_query with
       | Ok f =>
           exists df,
             result.1 = Ok df
             /\ heap (machine w) !! df = None
             /\ heap (machine result.2) = <[df := f]> (heap (machine w))
             /\ log (machine result.2) = log (machine w)
             /\ issued (machine result.2) = issued (machine w)
             /\ trail result.2
                = trail w ++ [ActConnect conn; ActQuery sql_query conn;
                              ActClose conn]
       | Raise e =>
           result.1 = Raise (PyExc RuntimeError
                               ("Failed to execute Trino query: "
                                +:+ exc_str e))
           /\ machine result.2 = machine w
           /\ trail result.2
              = trail w ++ [ActConnect conn; ActQuery sql_query conn]
       end.
Proof.
  intros config sql_query w conn result. split; [reflexivity|].
  unfold result. rewrite execute_trino_query_run. cbv zeta. fold conn.
  destruct (database w conn sql_query) as [f|e].
  - exists (fresh (dom (heap (machine w)))). split; [reflexivity|].
    split; [apply (not_elem_of_dom (D := gset nat)), is_fresh|].
    cbn. rewrite <- app_assoc. repeat split.
  - repeat split.
Qed.

(** ** [main] *)

Lemma required_var_set (environ : gmap string string) (var : string) :
  missing_vars environ = [] -> var ∈ required_vars ->
  exists value, getenv environ var = Some value.
Proof.
  intros Hnone Hvar. destruct (getenv environ var) as [value|] eqn:Hget;
    [exists value; reflexivity|].
  assert (Hin : var ∈ missing_vars environ).
  { unfold missing_vars. apply list_elem_of_filter. split; [|exact Hvar].
    rewrite Hget. reflexivity. }
  rewrite Hnone in Hin. inversion Hin.
Qed.

(** The paths and the folder of a configuration that [load_config]
    returned are set. *)
Lemma load_config_paths (environ : gmap string string) (config : Config) :
  load_config environ = Ok config ->
  exists secret_file token_file folder_id,
    client_secret_file (google config) = Some secret_file
    /\ token_path (google config) = Some token_file
    /\ drive_folder_id (google config) = Some folder_id.
Proof.
  unfold load_config. destruct (missing_vars environ) eqn:Hnone; [|discriminate].
  destruct (py_int _); [|discriminate]. intros [= <-]. cbn.
  destruct (required_var_set environ "GOOGLE_CLIENT_SECRET_FILE" Hnone)
    as [s ->]; [unfold required_vars; set_solver|].
  destruct (required_var_set environ "TOKEN_PATH" Hnone)
    as [t ->]; [unfold required_vars; set_solver|].
  destruct (required_var_set environ "DRIVE_FOLDER_ID" Hnone)
    as [d ->]; [unfold required_vars; set_solver|].
  exists s, t, d. auto.
Qed.

Lemma read_sql_from_file_run (file_path : string) (w : World) :
  read_sql_from_file file_path w
  = (match files w !! file_path with
     | Some (Ok text) => Ok text
     | Some (Raise e) =>
         Raise (PyExc RuntimeError
                  ("Failed to read SQL file " +:+ file_path +:+ ": "
                   +:+ exc_str e))
     | None =>
         Raise (PyExc RuntimeError
                  ("Failed to read SQL file " +:+ file_path +:+ ": "
                   +:+ exc_str (no_such_file file_path)))
     end, w).
Proof.
  unfold read_sql_from_file, try_except_Exception, read_text, call.
  destruct (files w !! file_path) as [[text|e]|]; reflexivity.
Qed.

(** X23: [main] stops at the first step that fails, before anything is
    done.  When [load_config] raises - a required variable is missing,
    the port is not a number - [main] raises the same exception and the
    world is unchanged: no file was read, no credentials were asked for,
    no query and no request was sent.  When the configuration loads and
    the query file [trino_MB_query.sql] is missing or cannot be read,
    [main] raises the [RuntimeError] of [read_sql_from_file], which names
    the file and the cause, and the world is unchanged as well. *)
Theorem main_stops_before_any_effect :
  forall (w : World),
    (forall e, load_config (environ w) = Raise e -> main w = (Raise e, w))
    /\ (forall config,
          load_config (environ w) = Ok config ->
          files w !! "trino_MB_query.sql" = None ->
          main w
          = (Raise (PyExc RuntimeError
                      ("Failed to read SQL file trino_MB_query.sql: "
                       +:+ "[Errno 2] No such file or directory: "
                       +:+ "'trino_MB_query.sql'")), w))
    /\ (forall config cause,
          load_config (environ w) = Ok config ->
          files w !! "trino_MB_query.sql" = Some (Raise cause) ->
          main w
          = (Raise (PyExc RuntimeError
                      ("Failed to read SQL file trino_MB_query.sql: "
                       +:+ exc_str cause)), w)).
Proof.
  intros w. split; [|split].
  - intros e He. unfold main. rewrite world_bind_run. unfold call at 1.
    rewrite He. reflexivity.
  - intros config Hc Hf. unfold main. rewrite world_bind_run. unfold call at 1.
    rewrite Hc, world_bind_run, read_sql_from_file_run, Hf. reflexivity.
  - intros config cause Hc Hf. unfold main.
    rewrite world_bind_run. unfold call at 1.
    rewrite Hc, world_bind_run, read_sql_from_file_run, Hf. reflexivity.
Qed.

(** [main] from the query on, when the configuration loads, the query
    file is read and the token file holds valid credentials. *)
Lemma main_run_to_query (w : World) (config : Config)
    (sql_query token_file folder_id text : string) (c : UserCredentials) :
  load_config (environ w) = Ok config ->
  files w !! "trino_MB_query.sql" = Some (Ok sql_query) ->
  token_path (google config) = Some token_file ->
  drive_folder_id (google config) = Some folder_id ->
  files w !! token_file = Some (Ok text) ->
  authorized_user w text = Ok c ->
  valid c = true ->
  main w
  = (df ← execute_trino_query config sql_query;
     today ← ask today;
     let sheet_title := today +:+ "- MB Query Export.csv" in
     spreadsheet_id ←
       in_machine (create_google_sheet (access c) sheet_title);
     match spreadsheet_id with
     | Some spreadsheet_id =>
         in_machine (write_dataframe_to_sheet (access c) spreadsheet_id df);;
         in_machine (move_sheet_to_folder (access c) spreadsheet_id folder_id)
     | None => in_machine (write_without_id (access c) df)
     end) w.
Proof.
  intros Hc Hsql Htok Hfold Hfile Hparse Hvalid.
  destruct (load_config_paths _ _ Hc) as (secret & t & d & Hs & Ht & Hd).
  unfold main. rewrite world_bind_run. unfold call at 1. rewrite Hc.
  rewrite world_bind_run, read_sql_from_file_run, Hsql.
  rewrite Hs, Htok, Hfold. rewrite world_bind_run.
  rewrite get_google_credentials_run,
    (stored_credentials_file w token_file text c Hfile Hparse).
  cbv zeta. rewrite Hvalid. reflexivity.
Qed.

(** ** The whole workflow *)

Lemma in_machine_run {A} (c : M A) (w : World) (r : Result A) (m : Machine) :
  c (machine w) = (r, m) -> in_machine c w = (r, with_machine w m).
Proof. intros H. unfold in_machine. rewrite H. reflexivity. Qed.

Lemma create_google_sheet_answered cr title m r :
  remote m (issued m) = Responds r ->
  create_google_sheet cr title m
  = (Ok (resp_spreadsheetId r),
     advance m 1 (create_attempt title (Responds r))).
Proof.
  intros Hr. unfold create_google_sheet. rewrite py_range_retries.
  rewrite seqZ_cons by lia.
  erewrite retry_loop_returns; [reflexivity|].
  rewrite create_attempt_run, Hr. reflexivity.
Qed.

(** The world in which the sheet is created, once the query gave [f]. *)
Lemma main_run_to_create (w : World) (config : Config)
    (sql_query token_file folder_id text : string) (c : UserCredentials)
    (f : DataFrame) (r : Response) :
  load_config (environ w) = Ok config ->
  files w !! "trino_MB_query.sql" = Some (Ok sql_query) ->
  token_path (google config) = Some token_file ->
  drive_folder_id (google config) = Some folder_id ->
  files w !! token_file = Some (Ok text) ->
  authorized_user w text = Ok c ->
  valid c = true ->
  database w (connection_of config) sql_query = Ok f ->
  remote (machine w) (issued (machine w)) = Responds r ->
  let df := fresh (dom (heap (machine w))) in
  let conn := connection_of config in
  let w1 :=
    with_machine
      (after w [ActConnect conn; ActQuery sql_query conn; ActClose conn])
      (advance (with_frame (machine w) df f) 1
               (create_attempt (sheet_title_of w) (Responds r))) in
  main w
  = match resp_spreadsheetId r with
    | Some spreadsheet_id =>
        (in_machine (write_dataframe_to_sheet (access c) spreadsheet_id df);;
         in_machine (move_sheet_to_folder (access c) spreadsheet_id folder_id))
          w1
    | None => in_machine (write_without_id (access c) df) w1
    end.
Proof.
  intros Hc Hsql Htok Hfold Hfile Hparse Hvalid Hdb Hr df conn w1.
  rewrite (main_run_to_query w config sql_query token_file folder_id text c)
    by assumption.
  rewrite world_bind_run, execute_trino_query_run. cbv zeta.
  fold conn in Hdb |- *. rewrite Hdb. fold df.
  rewrite world_bind_run. unfold ask at 1. cbn [today after with_trail with_machine].
  rewrite world_bind_run.
  erewrite in_machine_run;
    [|cbn [machine after with_trail with_machine];
      apply (create_google_sheet_answered _ _ _ r); exact Hr].
  fold (sheet_title_of w).
  assert (Hw : with_machine
                 (after (with_machine
                           (after w [ActConnect conn; ActQuery sql_query conn])
                           (with_frame (machine w) df f))
                        [ActClose conn])
                 (advance (with_frame (machine w) df f) 1
                    (create_attempt (sheet_title_of w) (Responds r)))
               = w1).
  { unfold w1, after, with_machine, with_trail. cbn.
    rewrite <- app_assoc. reflexivity. }
  rewrite Hw. destruct (resp_spreadsheetId r); reflexivity.
Qed.

(** X24: the workflow, when every step succeeds.  Let the configuration
    load, the query file be read, the token file hold valid credentials
    and the query give a frame within the batch threshold, with distinct
    labels and cells that can be prepared; let the services answer the
    four requests, the first answer carrying the identifier of the new
    sheet.  Then [main] returns, and what it has sent is, in this order:
    the creation of a sheet titled [<today>- MB Query Export.csv], one
    update of that sheet at [Sheet1!A1] with the header and the rows of
    the prepared frame, the read of the parents of the sheet, and the
    update that moves it to the folder of the configuration.  It has
    waited for nothing, opened and closed one connection to the
    database, and written no file. *)
Theorem main_exports_the_query :
  forall (w : World) (config : Config)
         (sql_query token_file folder_id text spreadsheet_id : string)
         (c : UserCredentials) (f : DataFrame) (r1 r2 file r4 : Response),
    load_config (environ w) = Ok config ->
    files w !! "trino_MB_query.sql" = Some (Ok sql_query) ->
    token_path (google config) = Some token_file ->
    drive_folder_id (google config) = Some folder_id ->
    files w !! token_file = Some (Ok text) ->
    authorized_user w text = Ok c ->
    valid c = true ->
    database w (connection_of config) sql_query = Ok f ->
    NoDup (labels f) -> catchableb f = true ->
    len (values_of (normalize f)) <= BATCH_SIZE ->
    remote (machine w) (issued (machine w)) = Responds r1 ->
    resp_spreadsheetId r1 = Some spreadsheet_id ->
    remote (machine w) (issued (machine w) + 1)%nat = Responds r2 ->
    remote (machine w) (issued (machine w) + 2)%nat = Responds file ->
    remote (machine w) (issued (machine w) + 3)%nat = Responds r4 ->
    exists w',
      main w = (Ok tt, w')
      /\ requests (log (machine w'))
         = requests (log (machine w))
           ++ [ create_request (sheet_title_of w);
                ValuesUpdate spreadsheet_id "Sheet1!A1" "RAW"
                             (values_of (normalize f));
                FilesGet spreadsheet_id "parents";
                move_update spreadsheet_id folder_id file ]
      /\ sleeps (log (machine w')) = sleeps (log (machine w))
      /\ trail w'
         = trail w ++ [ ActConnect (connection_of config);
                        ActQuery sql_query (connection_of config);
                        ActClose (connection_of config) ]
      /\ files w' = files w.
Proof.
  intros w config sql_query token_file folder_id text sid c f r1 r2 file r4
         Hc Hsql Htok Hfold Hfile Hparse Hvalid Hdb Hnd Hcatch Hsmall
         Hr1 Hsid Hr2 Hr3 Hr4.
  rewrite (main_run_to_create w config sql_query token_file folder_id text c
             f r1) by assumption.
  cbv zeta. rewrite Hsid.
  set (m := machine w) in *.
  set (df := fresh (dom (heap m))).
  set (m2 := advance (with_frame m df f) 1
                     (create_attempt (sheet_title_of w) (Responds r1))).
  set (w1 := with_machine _ m2).
  assert (Hdf : heap m2 !! df = Some f) by apply with_frame_lookup.
  destruct (prepare_run df m2 f Hdf Hnd (catchableb_catchable f Hcatch))
    as (df' & m1' & Hp & Hh).
  destruct (write_single_after_prepare (access c) sid df m2 df' m1'
              (normalize f) r2 Hp Hh Hsmall)
    as (m3 & evs & Hwrite & (Hlog3 & Hiss3 & Hrem3) & Hevs & _).
  { exact Hr2. }
  rewrite world_bind_run.
  rewrite (in_machine_run _ w1 _ _ Hwrite). cbv beta iota.
  assert (Hget : remote m3 (issued m3) = Responds file).
  { rewrite Hrem3, Hiss3, Hevs. cbn. rewrite <- Hr3. f_equal. lia. }
  assert (Hupd : remote m3 (S (issued m3)) = Responds r4).
  { rewrite Hrem3, Hiss3, Hevs. cbn. rewrite <- Hr4. f_equal. lia. }
  rewrite (in_machine_run _ (with_machine w1 m3) _ _
             (move_sheet_to_folder_answered (access c) sid folder_id m3
                file r4 Hget Hupd)).
  eexists. split; [reflexivity|].
  cbn [machine with_machine advance log]. rewrite Hlog3, Hevs.
  split; [|split; [|split; reflexivity]].
  - cbn [log m2 advance with_frame]. rewrite !requests_app. cbn.
    rewrite <- !app_assoc. reflexivity.
  - cbn [log m2 advance with_frame]. rewrite !sleeps_app. cbn.
    rewrite !app_nil_r. reflexivity.
Qed.

Lemma main_exports_the_query_witness :
  exists w',
    main office = (Ok tt, w')
    /\ requests (log (machine w'))
       = [ SpreadsheetsCreate "2024-01-15- MB Query Export.csv" "spreadsheetId";
           ValuesUpdate "sheet-1" "Sheet1!A1" "RAW"
                        [[CStr "n"]; [CInt 7]; [CInt 7]];
           FilesGet "sheet-1" "parents";
           FilesUpdate "sheet-1" "folder-1" "" "id, parents" ].
Proof.
  destruct (main_exports_the_query office
              {| trino := {| host := Some "trino.example.org"; port := 8443;
                             user := Some "etl"; password := None;
                             catalog := Some "hive";
                             schema := Some "default" |};
                 google := {| client_secret_file := Some "client_secret.json";
                              token_path := Some "token.json";
                              drive_folder_id := Some "folder-1" |} |}
              "SELECT n FROM t" "token.json" "folder-1" "{stored}" "sheet-1"
              stored_token (int_table 2)
              {| resp_spreadsheetId := Some "sheet-1"; resp_parents := None |}
              {| resp_spreadsheetId := Some "sheet-1"; resp_parents := None |}
              {| resp_spreadsheetId := Some "sheet-1"; resp_parents := None |}
              {| resp_spreadsheetId := Some "sheet-1"; resp_parents := None |})
    as (w' & Hrun & Hreq & _); try reflexivity.
  - apply (bool_decide_unpack _). vm_compute. exact I.
  - vm_compute. discriminate.
  - exists w'. split; [exact Hrun | exact Hreq].
Defined.

(** X25: when the query fails, no sheet is created.  Let the
    configuration load, the query file be read and
    [get_google_credentials] return credentials - the stored ones, as
    they were or refreshed, or new ones from the OAuth flow.  When the
    database refuses the query, [main] raises the [RuntimeError] of
    [execute_trino_query], with the message
    [Failed to execute Trino query: <cause>], and the Sheets and Drive
    services have received nothing: the machine of the Google calls is
    unchanged.  The files are as the authentication left them: as they
    were before the run when the OAuth flow was not run, and with the
    JSON text of the new credentials in the token file when it was. *)
Theorem main_query_fails :
  forall (w w1 : World) (config : Config)
         (sql_query secret_file token_file : string)
         (c : UserCredentials) (cause : Exn),
    load_config (environ w) = Ok config ->
    files w !! "trino_MB_query.sql" = Some (Ok sql_query) ->
    client_secret_file (google config) = Some secret_file ->
    token_path (google config) = Some token_file ->
    get_google_credentials secret_file token_file w = (Ok c, w1) ->
    database w (connection_of config) sql_query = Raise cause ->
    exists w',
      main w
      = (Raise (PyExc RuntimeError
                  ("Failed to execute Trino query: " +:+ exc_str cause)), w')
      /\ machine w' = machine w
      /\ trail w'
         = trail w1 ++ [ ActConnect (connection_of config);
                         ActQuery sql_query (connection_of config) ]
      /\ files w' = files w1
      /\ ((files w' = files w
           /\ ActFlow secret_file ∉ drop (length (trail w)) (trail w1))
          \/ (local_server w secret_file = Ok c
              /\ files w' = <[token_file := Ok (to_json c)]> (files w))).
Proof.
  intros w w1 config sql_query secret_file token_file c cause
         Hc Hsql Hsecret Htok Hcred Hdb.
  destruct (load_config_paths _ _ Hc) as (s0 & t0 & d0 & Hs & Ht & Hd).
  rewrite Hsecret in Hs. injection Hs as <-.
  rewrite Htok in Ht. injection Ht as <-.
  pose proof (get_google_credentials_local secret_file token_file w) as Hlocal.
  cbv zeta in Hlocal. rewrite Hcred in Hlocal. cbn [snd] in Hlocal.
  destruct Hlocal as (Hm & Hdb1 & _).
  pose proof (get_google_credentials_files _ _ _ _ _ Hcred) as Hfiles.
  unfold main. rewrite world_bind_run. unfold call at 1. rewrite Hc.
  rewrite world_bind_run, read_sql_from_file_run, Hsql.
  rewrite Hsecret, Htok, Hd. rewrite world_bind_run, Hcred.
  rewrite world_bind_run, execute_trino_query_run. cbv zeta.
  rewrite Hdb1, Hdb.
  eexists. split; [reflexivity|]. cbn.
  split; [exact Hm|]. split; [reflexivity|]. split; [reflexivity|].
  exact Hfiles.
Qed.

Lemma main_query_fails_witness :
  exists w',
    main office_new_no_table
    = (Raise (PyExc RuntimeError
                "Failed to execute Trino query: Table not found"), w')
    /\ log (machine w') = []
    /\ files office_new_no_table !! "token.json" = None
    /\ files w' !! "token.json" = Some (Ok "{granted}").
Proof.
  destruct (main_query_fails office_new_no_table
              (get_google_credentials "client_secret.json" "token.json"
                 office_new_no_table).2
              {| trino := {| host := Some "trino.example.org"; port := 8443;
                             user := Some "etl"; password := None;
                             catalog := Some "hive";
                             schema := Some "default" |};
                 google := {| client_secret_file := Some "client_secret.json";
                              token_path := Some "token.json";
                              drive_folder_id := Some "folder-1" |} |}
              "SELECT n FROM t" "client_secret.json" "token.json"
              granted_token (PyExc OtherException "Table not found"))
    as (w' & Hrun & Hm & _ & Hf & _); try reflexivity.
  exists w'. split; [exact Hrun|]. rewrite Hm, Hf.
  repeat split.
Defined.

(** X26: a sheet whose write fails is left behind.  Let the workflow
    reach the creation of the sheet and the service answer it with the
    identifier of the new sheet; when the write of a table within the
    threshold is then refused with an error that is not retryable,
    [main] raises the [RuntimeError] of [write_dataframe_to_sheet].  The
    requests of the run are the creation and the refused update, and no
    other: the new sheet is neither moved to the folder nor removed. *)
Theorem main_write_fails :
  forall (w : World) (config : Config)
         (sql_query token_file folder_id text spreadsheet_id : string)
         (c : UserCredentials) (f : DataFrame) (r1 : Response) (e : Exn),
    load_config (environ w) = Ok config ->
    files w !! "trino_MB_query.sql" = Some (Ok sql_query) ->
    token_path (google config) = Some token_file ->
    drive_folder_id (google config) = Some folder_id ->
    files w !! token_file = Some (Ok text) ->
    authorized_user w text = Ok c ->
    valid c = true ->
    database w (connection_of config) sql_query = Ok f ->
    NoDup (labels f) -> catchableb f = true ->
    len (values_of (normalize f)) <= BATCH_SIZE ->
    remote (machine w) (issued (machine w)) = Responds r1 ->
    resp_spreadsheetId r1 = Some spreadsheet_id ->
    remote (machine w) (issued (machine w) + 1)%nat = Fails e ->
    retryable e = false ->
    exists w',
      main w
      = (Raise (PyExc RuntimeError
                  ("Failed to write data to Google Sheet: " +:+ exc_str e)),
         w')
      /\ log (machine w')
         = log (machine w)
           ++ [ EvBuild "sheets" "v4";
                EvCall (create_request (sheet_title_of w)) (Responds r1);
                EvBuild "sheets" "v4";
                EvCall (ValuesUpdate spreadsheet_id "Sheet1!A1" "RAW"
                          (values_of (normalize f)))
                       (Fails e) ].
Proof.
  intros w config sql_query token_file folder_id text sid c f r1 e
         Hc Hsql Htok Hfold Hfile Hparse Hvalid Hdb Hnd Hcatch Hsmall
         Hr1 Hsid Hbad Hnr.
  rewrite (main_run_to_create w config sql_query token_file folder_id text c
             f r1) by assumption.
  cbv zeta. rewrite Hsid.
  set (m := machine w) in *.
  set (df := fresh (dom (heap m))).
  set (m2 := advance (with_frame m df f) 1
                     (create_attempt (sheet_title_of w) (Responds r1))).
  set (w1 := with_machine _ m2).
  assert (Hdf : heap m2 !! df = Some f) by apply with_frame_lookup.
  destruct (prepare_run df m2 f Hdf Hnd (catchableb_catchable f Hcatch))
    as (df' & m1' & Hp & Hh).
  destruct (prepare_extends _ _ _ _ Hp) as (_ & Hrem & Hi & Hl).
  assert (Hwrite :
            write_dataframe_to_sheet (access c) sid df (machine w1)
            = (Raise (PyExc RuntimeError
                        ("Failed to write data to Google Sheet: "
                         +:+ exc_str e)),
               advance m1' 1
                 [EvBuild "sheets" "v4";
                  EvCall (ValuesUpdate sid "Sheet1!A1" "RAW"
                            (values_of (normalize f))) (Fails e)])).
  { change (machine w1) with m2.
    rewrite (write_dataframe_to_sheet_run _ _ _ _ _ _ _ Hp Hh).
    apply (write_values_raises_wrapped (access c) sid _ m1' [] e);
      [exact Hsmall | reflexivity | constructor | intros i e' Hi'; inversion Hi'
      | | left; exact Hnr].
    simpl. rewrite Nat.add_0_r, Hrem, Hi. exact Hbad. }
  rewrite world_bind_run, (in_machine_run _ w1 _ _ Hwrite).
  eexists. split; [reflexivity|].
  cbn [machine with_machine advance log]. rewrite Hl. cbn.
  rewrite <- app_assoc. reflexivity.
Qed.

Lemma main_write_fails_witness :
  exists w',
    main office_forbidden
    = (Raise (PyExc RuntimeError
                "Failed to write data to Google Sheet: forbidden"), w')
    /\ requests (log (machine w'))
       = [ SpreadsheetsCreate "2024-01-15- MB Query Export.csv" "spreadsheetId";
           ValuesUpdate "sheet-1" "Sheet1!A1" "RAW"
                        [[CStr "n"]; [CInt 7]; [CInt 7]] ].
Proof.
  destruct (main_write_fails office_forbidden
              {| trino := {| host := Some "trino.example.org"; port := 8443;
                             user := Some "etl"; password := None;
                             catalog := Some "hive";
                             schema := Some "default" |};
                 google := {| client_secret_file := Some "client_secret.json";
                              token_path := Some "token.json";
                              drive_folder_id := Some "folder-1" |} |}
              "SELECT n FROM t" "token.json" "folder-1" "{stored}" "sheet-1"
              stored_token (int_table 2)
              {| resp_spreadsheetId := Some "sheet-1"; resp_parents := None |}
              (HttpError 403 "forbidden"))
    as (w' & Hrun & Hlog); try reflexivity.
  - apply (bool_decide_unpack _). vm_compute. exact I.
  - vm_compute. discriminate.
  - exists w'. split; [exact Hrun|]. rewrite Hlog. reflexivity.
Defined.

Lemma move_sheet_to_folder_read_refused cr file_id folder_id m e :
  remote m (issued m) = Fails e -> retryable e = false ->
  move_sheet_to_folder cr file_id folder_id m
  = (Raise (PyExc RuntimeError
              ("Failed to move Google Sheet to folder: " +:+ exc_str e)),
     advance m 1 [EvBuild "drive" "v3";
                  EvCall (FilesGet file_id "parents") (Fails e)]).
Proof.
  intros Hbad Hnr. unfold move_sheet_to_folder. rewrite py_range_retries.
  rewrite seqZ_cons by lia.
  erewrite retry_loop_raises; [reflexivity | | left; exact Hnr].
  rewrite move_attempt_run, Hbad. reflexivity.
Qed.

(** X27: a sheet that cannot be moved stays where it was created, with
    its data.  Let the workflow create the sheet and write the table;
    when the read of the parents of the sheet is then refused with an
    error that is not retryable, [main] raises the [RuntimeError] of
    [move_sheet_to_folder].  The run has sent the creation, the update -
    which the service answered - and the refused read, and no other
    request: nothing is undone, and no update of the parents is tried. *)
Theorem main_move_fails :
  forall (w : World) (config : Config)
         (sql_query token_file folder_id text spreadsheet_id : string)
         (c : UserCredentials) (f : DataFrame) (r1 r2 : Response) (e : Exn),
    load_config (environ w) = Ok config ->
    files w !! "trino_MB_query.sql" = Some (Ok sql_query) ->
    token_path (google config) = Some token_file ->
    drive_folder_id (google config) = Some folder_id ->
    files w !! token_file = Some (Ok text) ->
    authorized_user w text = Ok c ->
    valid c = true ->
    database w (connection_of config) sql_query = Ok f ->
    NoDup (labels f) -> catchableb f = true ->
    len (values_of (normalize f)) <= BATCH_SIZE ->
    remote (machine w) (issued (machine w)) = Responds r1 ->
    resp_spreadsheetId r1 = Some spreadsheet_id ->
    remote (machine w) (issued (machine w) + 1)%nat = Responds r2 ->
    remote (machine w) (issued (machine w) + 2)%nat = Fails e ->
    retryable e = false ->
    exists w',
      main w
      = (Raise (PyExc RuntimeError
                  ("Failed to move Google Sheet to folder: " +:+ exc_str e)),
         w')
      /\ log (machine w')
         = log (machine w)
           ++ [ EvBuild "sheets" "v4";
                EvCall (create_request (sheet_title_of w)) (Responds r1);
                EvBuild "sheets" "v4";
                EvCall (ValuesUpdate spreadsheet_id "Sheet1!A1" "RAW"
                          (values_of (normalize f)))
                       (Responds r2);
                EvBuild "drive" "v3";
                EvCall (FilesGet spreadsheet_id "parents") (Fails e) ].
Proof.
  intros w config sql_query token_file folder_id text sid c f r1 r2 e
         Hc Hsql Htok Hfold Hfile Hparse Hvalid Hdb Hnd Hcatch Hsmall
         Hr1 Hsid Hr2 Hbad Hnr.
  rewrite (main_run_to_create w config sql_query token_file folder_id text c
             f r1) by assumption.
  cbv zeta. rewrite Hsid.
  set (m := machine w) in *.
  set (df := fresh (dom (heap m))).
  set (m2 := advance (with_frame m df f) 1
                     (create_attempt (sheet_title_of w) (Responds r1))).
  set (w1 := with_machine _ m2).
  assert (Hdf : heap m2 !! df = Some f) by apply with_frame_lookup.
  destruct (prepare_run df m2 f Hdf Hnd (catchableb_catchable f Hcatch))
    as (df' & m1' & Hp & Hh).
  destruct (write_single_after_prepare (access c) sid df m2 df' m1'
              (normalize f) r2 Hp Hh Hsmall)
    as (m3 & evs & Hwrite & (Hlog3 & Hiss3 & Hrem3) & Hevs & _).
  { exact Hr2. }
  rewrite world_bind_run.
  rewrite (in_machine_run _ w1 _ _ Hwrite). cbv beta iota.
  assert (Hget : remote m3 (issued m3) = Fails e).
  { rewrite Hrem3, Hiss3, Hevs. cbn. rewrite <- Hbad. f_equal. lia. }
  rewrite (in_machine_run _ (with_machine w1 m3) _ _
             (move_sheet_to_folder_read_refused (access c) sid folder_id m3
                e Hget Hnr)).
  eexists. split; [reflexivity|].
  cbn [machine with_machine advance log]. rewrite Hlog3, Hevs.
  cbn [log m2 advance with_frame]. cbn. rewrite <- !app_assoc. reflexivity.
Qed.

Lemma main_move_fails_witness :
  exists w',
    main office_not_found
    = (Raise (PyExc RuntimeError
                "Failed to move Google Sheet to folder: not found"), w')
    /\ requests (log (machine w'))
       = [ SpreadsheetsCreate "2024-01-15- MB Query Export.csv" "spreadsheetId";
           ValuesUpdate "sheet-1" "Sheet1!A1" "RAW"
                        [[CStr "n"]; [CInt 7]; [CInt 7]];
           FilesGet "sheet-1" "parents" ].
Proof.
  destruct (main_move_fails office_not_found
              {| trino := {| host := Some "trino.example.org"; port := 8443;
                             user := Some "etl"; password := None;
                             catalog := Some "hive";
                             schema := Some "default" |};
                 google := {| client_secret_file := Some "client_secret.json";
                              token_path := Some "token.json";
                              drive_folder_id := Some "folder-1" |} |}
              "SELECT n FROM t" "token.json" "folder-1" "{stored}" "sheet-1"
              stored_token (int_table 2)
              {| resp_spreadsheetId := Some "sheet-1"; resp_parents := None |}
              {| resp_spreadsheetId := Some "sheet-1"; resp_parents := None |}
              (HttpError 404 "not found"))
    as (w' & Hrun & Hlog); try reflexivity.
  - apply (bool_decide_unpack _). vm_compute. exact I.
  - vm_compute. discriminate.
  - exists w'. split; [exact Hrun|]. rewrite Hlog. reflexivity.
Defined.

(** ** What [main] never does *)

(** X28: [main] calls the Sheets and Drive services only after the
    query has succeeded.  In every run in which the log of the calls to
    these two services has grown - a client was built, a request sent -
    the configuration had loaded, the query file had been read, and the
    database had answered the query with a frame, over a connection that
    was then closed.  Whatever fails before - the configuration, the
    file, the credentials, the query - no client of the two services is
    built and no request is sent to them.  (The refresh of the token and
    the OAuth flow of [get_google_credentials], which reach the
    authorization servers of Google, come before the query; they are
    noted on the trail of the world, not in this log.) *)
Theorem main_sends_only_after_query :
  forall (w : World),
    log (machine (main w).2) <> log (machine w) ->
    exists config sql_query f,
      load_config (environ w) = Ok config
      /\ files w !! "trino_MB_query.sql" = Some (Ok sql_query)
      /\ database w (connection_of config) sql_query = Ok f
      /\ ActClose (connection_of config) ∈ trail (main w).2.
Proof.
  intros w. pose proof (eq_refl (main w)) as Hrun.
  unfold main at 2 in Hrun. rewrite world_bind_run in Hrun.
  unfold call at 1 in Hrun.
  destruct (load_config (environ w)) as [config|e] eqn:Hc;
    [|rewrite Hrun; intros H; destruct H; reflexivity].
  rewrite world_bind_run, read_sql_from_file_run in Hrun.
  destruct (files w !! "trino_MB_query.sql") as [[sql_query|e]|] eqn:Hsql;
    [|rewrite Hrun; intros H; destruct H; reflexivity..].
  destruct (load_config_paths _ _ Hc) as (secret & t & d & Hs & Ht & Hd).
  rewrite Hs, Ht, Hd, world_bind_run in Hrun.
  pose proof (get_google_credentials_local secret t w) as Hlocal.
  destruct (get_google_credentials secret t w) as [[c|e] w1];
    cbv zeta in Hlocal; cbn [snd] in Hlocal;
    destruct Hlocal as (Hm & Hdb1 & _);
    [|rewrite Hrun; cbn [snd]; rewrite Hm; intros H; destruct H; reflexivity].
  rewrite world_bind_run, execute_trino_query_run in Hrun.
  cbv zeta in Hrun. rewrite Hdb1 in Hrun.
  destruct (database w (connection_of config) sql_query) as [f|e] eqn:Hdb;
    [|rewrite Hrun; cbn; rewrite Hm; intros H; destruct H; reflexivity].
  intros _. exists config, sql_query, f.
  split; [reflexivity|]. split; [reflexivity|]. split; [exact Hdb|].
  rewrite Hrun. clear Hrun.
  set (w2 := after _ [ActClose (connection_of config)]).
  assert (Hin : ActClose (connection_of config) ∈ trail w2).
  { unfold w2. cbn. rewrite !elem_of_app. right. left. }
  assert (Hkeep : forall {A} (c0 : M A) w0,
             ActClose (connection_of config) ∈ trail w0 ->
             ActClose (connection_of config) ∈ trail (in_machine c0 w0).2).
  { intros A c0 w0 H0. unfold in_machine. destruct (c0 (machine w0)). exact H0. }
  rewrite world_bind_run. unfold ask at 1. rewrite world_bind_run.
  pose proof (Hkeep _ (create_google_sheet (access c)
                         (today w2 +:+ "- MB Query Export.csv")) w2 Hin) as H3.
  destruct (in_machine _ w2) as [[[sid|]|e] w3]; cbn [snd] in H3 |- *.
  - rewrite world_bind_run.
    pose proof (Hkeep _ (write_dataframe_to_sheet (access c) sid
                           (fresh (dom (heap (machine w1))))) w3 H3) as H4.
    destruct (in_machine _ w3) as [[[]|e] w4]; cbn [snd] in H4 |- *;
      [|exact H4].
    apply Hkeep, H4.
  - apply Hkeep, H3.
  - exact H3.
Qed.

Lemma main_sends_only_after_query_witness :
  exists f,
    database office (connection_of
       {| trino := {| host := Some "trino.example.org"; port := 8443;
                      user := Some "etl"; password := None;
                      catalog := Some "hive"; schema := Some "default" |};
          google := {| client_secret_file := Some "client_secret.json";
                       token_path := Some "token.json";
                       drive_folder_id := Some "folder-1" |} |})
      "SELECT n FROM t" = Ok f.
Proof.
  destruct (main_sends_only_after_query office)
    as (config & sql_query & f & Hc & Hsql & Hdb & _).
  - vm_compute. discriminate.
  - vm_compute in Hc. injection Hc as <-.
    vm_compute in Hsql. injection Hsql as <-.
    exists f. exact Hdb.
Defined.
